(** * Windows EventLog resources database reader (plaso/output/winevt_rc.py)

    A shallow embedding of the three classes of [winevt_rc.py]:
    [Sqlite3DatabaseFile], [WinevtResourcesSqlite3DatabaseReader] and
    [WinevtResourcesHelper], together with the properties of the message
    string resolution and of the message string reformatting.

    Python objects are records, methods are state transformers in a small
    state-and-exception monad, generators are resumable state machines that
    share the database cursor they iterate over. *)

From Stdlib Require Import ZArith String Ascii List Bool Lia.
From stdpp Require Import base option gmap strings pretty.

Local Open Scope Z_scope.

(** ** Python values and exceptions *)

(** The values that flow through the reader: what the [sqlite3] module hands
    back for NULL, INTEGER and TEXT columns. *)
Inductive PyValue : Type :=
| PyNone
| PyInt (z : Z)
| PyStr (s : string).

(** Truth value testing: [None], [0] and [''] are false. *)
Definition truthy (v : PyValue) : bool :=
  match v with
  | PyNone => false
  | PyInt z => negb (z =? 0)
  | PyStr s => negb (String.eqb s "")
  end.

Definition PyValue_eqb (a b : PyValue) : bool :=
  match a, b with
  | PyNone, PyNone => true
  | PyInt x, PyInt y => x =? y
  | PyStr x, PyStr y => String.eqb x y
  | _, _ => false
  end.

Inductive PyException : Type :=
| RuntimeError (message : string)
| TypeError
| ValueError
| IndexError
| KeyError
| AttributeError
| OperationalError.

(** The outcome of running a piece of code: a value, a raised exception, an
    exhausted iteration budget (see [GetMessage_for]), or nothing that is
    specified here, after a statement to which the model of the database
    engine gives no meaning (see [sqlite3_execute]). *)
Inductive Outcome (A : Type) : Type :=
| Returns (a : A)
| Raises (e : PyException)
| OutOfFuel
| Unspecified.

Arguments Returns {A} a.
Arguments Raises {A} e.
Arguments OutOfFuel {A}.
Arguments Unspecified {A}.

(** Every character of the string satisfies the test. *)
Definition all_chars (test : ascii -> bool) (s : string) : bool :=
  forallb test (list_ascii_of_string s).

(** ** String formatting *)

(** ['{0:s}'.format(value)]: only [str] accepts the [s] format code. *)
Definition format_s (v : PyValue) : Outcome string :=
  match v with
  | PyStr s => Returns s
  | PyNone => Raises TypeError
  | PyInt _ => Raises ValueError
  end.

(** ['{0:d}'.format(value)]: only [int] accepts the [d] format code. *)
Definition format_d (v : PyValue) : Outcome string :=
  match v with
  | PyInt z => Returns (pretty z)
  | PyNone => Raises TypeError
  | PyStr _ => Raises ValueError
  end.

Definition hex_char (d : N) : ascii :=
  if (d <? 10)%N then ascii_of_N (48 + d) else ascii_of_N (87 + d).

Fixpoint hex_pos (fuel : nat) (n : N) (acc : string) : string :=
  match fuel with
  | O => acc
  | S fuel' =>
      if (n =? 0)%N then acc
      else hex_pos fuel' (n / 16)%N (String (hex_char (n mod 16)%N) acc)
  end.

(** Lowercase hexadecimal digits of a natural number, ["0"] for zero. *)
Definition hex_N (n : N) : string :=
  if (n =? 0)%N then "0" else hex_pos (S (N.size_nat n)) n "".

Fixpoint zeros (count : nat) (s : string) : string :=
  match count with
  | O => s
  | S k => String "0" (zeros k s)
  end.

(** Left padding with ["0"] up to [width] characters. *)
Definition zero_pad (width : nat) (s : string) : string :=
  zeros (width - String.length s) s.

(** ['{0:08x}'.format(z)]: sign-aware zero padding to eight characters. *)
Definition format_08x (z : Z) : string :=
  match z with
  | Zneg p => String "-" (zero_pad 7 (hex_N (Npos p)))
  | _ => zero_pad 8 (hex_N (Z.to_N z))
  end.

(** ** State and exceptions *)

(** A method of an object with state [S]: it may update the object, and it
    returns, raises or runs out of budget.  The state is kept when an
    exception is raised, as an exception leaves an object in whatever
    condition the assignments before it produced. *)
Definition Py (S A : Type) : Type := S -> S * Outcome A.

Definition py_ret {S A : Type} (a : A) : Py S A := fun s => (s, Returns a).

Definition py_raise {S A : Type} (e : PyException) : Py S A :=
  fun s => (s, Raises e).

Definition py_bind {S A B : Type} (m : Py S A) (k : A -> Py S B) : Py S B :=
  fun s =>
    match m s with
    | (s', Returns a) => k a s'
    | (s', Raises e) => (s', Raises e)
    | (s', OutOfFuel) => (s', OutOfFuel)
    | (s', Unspecified) => (s', Unspecified)
    end.

(** A computation that does not touch the object. *)
Definition py_lift {S A : Type} (o : Outcome A) : Py S A := fun s => (s, o).

Notation "'let*' x ':=' m 'in' k" := (py_bind m (fun x => k))
  (at level 10, x name, m at level 100, k at level 200,
   format "'[v' 'let*'  x  :=  m  'in' '/' k ']'").

(** ** The sqlite3 module

    The database engine is outside the repository.  A database is a finite
    map from table names to tables.  The reader sends the table existence
    query and selections from one table filtered by one comparison
    [column == operand], and it writes the values of its callers into the
    text of these statements.  The statements are given a meaning here as
    far as the engine reads the interpolated texts as single tokens: a name
    written without quotes has to be an identifier, a text between double
    quotes must not hold a double quote.  The engine resolves a token between
    double quotes as a column name when the table has a column of that name
    and takes it for a string literal otherwise; it compares names without
    regard to ASCII case.  To every other statement the model gives no
    meaning: the answer is [Outside], and what the program does next is
    [Unspecified].

    Columns are taken to be declared with the default collation and either
    without a type or with the type of the values they hold and are compared
    with (text columns hold and meet texts, integer columns integers), so
    that no value is converted when it is stored or compared: a comparison
    holds when neither side is NULL and both sides are the same integer or
    the same text.  The limit of the engine on the length of a statement is
    not modelled. *)

Record Table : Type := { columns : list string; rows : list (list PyValue) }.

Abbreviation Database := (gmap string Table).

(** The right-hand side of a condition as the reader writes it: a text
    between double quotes (['log_source == "{0:s}"']), or a text without
    quotes (['event_log_provider_key == {0:d}']). *)
Inductive Operand : Type :=
| Quoted (text : string)
| Unquoted (text : string).

(** The condition text [column == operand] interpolated by the reader. *)
Record Condition : Type := { cond_column : string; cond_operand : Operand }.

Inductive Statement : Type :=
| HasTableStatement (table_name : string)
| SelectStatement (table_names column_names : list string)
                  (condition : option Condition).

(** The answer of the engine to a statement: a result, a refusal
    ([sqlite3.OperationalError]: syntax error, no such table, no such
    column), or no answer of this model. *)
Inductive Reply (A : Type) : Type :=
| Done (a : A)
| Refused
| Outside.

Arguments Done {A} a.
Arguments Refused {A}.
Arguments Outside {A}.

(** Two answers together: a statement with a part outside the model is
    outside the model. *)
Definition both {A B : Type} (a : Reply A) (b : Reply B) : Reply (A * B) :=
  match a, b with
  | Outside, _ | _, Outside => Outside
  | Refused, _ | _, Refused => Refused
  | Done x, Done y => Done (x, y)
  end.

(** *** Tokens *)

Definition char_between (lo hi : N) (c : ascii) : bool :=
  ((lo <=? N_of_ascii c) && (N_of_ascii c <=? hi))%N.

Definition letter (c : ascii) : bool :=
  char_between 65 90 c || char_between 97 122 c.

Definition identifier_char (c : ascii) : bool :=
  letter c || char_between 48 57 c || Ascii.eqb c "_" || Ascii.eqb c "$".

Definition lower_char (c : ascii) : ascii :=
  if char_between 65 90 c then ascii_of_N (N_of_ascii c + 32) else c.

Fixpoint lower (s : string) : string :=
  match s with
  | EmptyString => EmptyString
  | String c rest => String (lower_char c) (lower rest)
  end.

(** Names are compared without regard to ASCII case. *)
Definition same_name (a b : string) : bool := String.eqb (lower a) (lower b).

(** The words the engine does not read as names when they are written without
    quotes, or reads as names only in some places. *)
Definition keywords : list string :=
  ["abort"; "action"; "add"; "after"; "all"; "alter"; "always"; "analyze";
   "and"; "as"; "asc"; "attach"; "autoincrement"; "before"; "begin";
   "between"; "by"; "cascade"; "case"; "cast"; "check"; "collate"; "column";
   "commit"; "conflict"; "constraint"; "create"; "cross"; "current";
   "current_date"; "current_time"; "current_timestamp"; "database";
   "default"; "deferrable"; "deferred"; "delete"; "desc"; "detach";
   "distinct"; "do"; "drop"; "each"; "else"; "end"; "escape"; "except";
   "exclude"; "exclusive"; "exists"; "explain"; "fail"; "filter"; "first";
   "following"; "for"; "foreign"; "from"; "full"; "generated"; "glob";
   "group"; "groups"; "having"; "if"; "ignore"; "immediate"; "in"; "index";
   "indexed"; "initially"; "inner"; "insert"; "instead"; "intersect"; "into";
   "is"; "isnull"; "join"; "key"; "last"; "left"; "like"; "limit"; "match";
   "materialized"; "natural"; "no"; "not"; "nothing"; "notnull"; "null";
   "nulls"; "of"; "offset"; "on"; "or"; "order"; "others"; "outer"; "over";
   "partition"; "plan"; "pragma"; "preceding"; "primary"; "query"; "raise";
   "range"; "recursive"; "references"; "regexp"; "reindex"; "release";
   "rename"; "replace"; "restrict"; "returning"; "right"; "rollback"; "row";
   "rows"; "savepoint"; "select"; "set"; "table"; "temp"; "temporary";
   "then"; "ties"; "to"; "transaction"; "trigger"; "unbounded"; "union";
   "unique"; "update"; "using"; "vacuum"; "values"; "view"; "virtual";
   "when"; "where"; "window"; "with"; "without"].

(** A text the engine reads as one name when it is written without quotes:
    a letter or an underscore followed by letters, digits, underscores and
    dollar signs, and not a keyword. *)
Definition identifier (name : string) : bool :=
  match name with
  | String c rest =>
      (letter c || Ascii.eqb c "_")
      && all_chars identifier_char rest
      && negb (existsb (String.eqb (lower name)) keywords)
  | EmptyString => false
  end.

(** A character other than the double quote, which ends a text between
    double quotes, and the NUL character, which the [sqlite3] module does not
    pass on. *)
Definition quote_free (c : ascii) : bool :=
  negb (Ascii.eqb c (ascii_of_N 34) || Ascii.eqb c (ascii_of_N 0)).

(** A text the engine reads as one token when it is written between double
    quotes. *)
Definition quotable (text : string) : bool := all_chars quote_free text.

(** The names of the row identifier, which every table has. *)
Definition rowid_alias (name : string) : bool :=
  existsb (same_name name) ["rowid"; "oid"; "_rowid_"].

(** A name without quotes that stands for a value when no column has it. *)
Definition truth_value (name : string) : bool :=
  existsb (same_name name) ["true"; "false"].

(** Names of tables the engine provides by itself. *)
Definition engine_name (name : string) : bool :=
  String.prefix "sqlite_" (lower name)
  || String.prefix "pragma_" (lower name)
  || existsb (same_name name)
       ["json_each"; "json_tree"; "dbstat"; "fts3tokenize"; "fts4aux";
        "fts5vocab"; "fts3"; "fts4"; "fts5"; "rtree"; "rtree_i32"; "geopoly";
        "bytecode"; "tables_used"; "generate_series"; "completion"; "carray"].

Fixpoint digits_value (acc : Z) (s : string) : option Z :=
  match s with
  | EmptyString => Some acc
  | String c rest =>
      if char_between 48 57 c
      then digits_value (10 * acc + (Z.of_N (N_of_ascii c) - 48)) rest
      else None
  end.

(** A decimal integer as ['{0:d}'] writes it: digits, after a minus sign for
    a negative number. *)
Definition integer_literal (text : string) : option Z :=
  match text with
  | EmptyString => None
  | String c rest =>
      if Ascii.eqb c "-" then
        match rest with
        | EmptyString => None
        | _ => option_map Z.opp (digits_value 0 rest)
        end
      else digits_value 0 text
  end.

(** *** Names and values *)

Fixpoint index_of (name : string) (names : list string) : option nat :=
  match names with
  | [] => None
  | n :: rest =>
      if same_name n name then Some O
      else match index_of name rest with
           | Some i => Some (S i)
           | None => None
           end
  end.

(** What an operand of a comparison stands for in a row. *)
Inductive Reference : Type :=
| ColumnRef (i : nat)
| Literal (v : PyValue).

(** A name without quotes in the column list or on the left of a
    comparison: the column of that name; without such a column the
    statement is refused, unless the name stands for something else. *)
Definition bare_column (names : list string) (name : string) : Reply nat :=
  if negb (identifier name) then Outside
  else
    match index_of name names with
    | Some i => Done i
    | None => if rowid_alias name || truth_value name then Outside else Refused
    end.

(** A token between double quotes: the column of that name when there is
    one, a string literal otherwise.  The row identifier is not modelled. *)
Definition quoted (names : list string) (text : string) : Reply Reference :=
  if negb (quotable text) then Outside
  else
    match index_of text names with
    | Some i => Done (ColumnRef i)
    | None =>
        if rowid_alias text then Outside else Done (Literal (PyStr text))
    end.

Definition operand (names : list string) (o : Operand) : Reply Reference :=
  match o with
  | Quoted text => quoted names text
  | Unquoted text =>
      match integer_literal text with
      | Some z => Done (Literal (PyInt z))
      | None => Outside
      end
  end.

Fixpoint bare_columns (names : list string) (column_names : list string)
  : Reply (list nat) :=
  match column_names with
  | [] => Done []
  | name :: rest =>
      match both (bare_column names name) (bare_columns names rest) with
      | Done (i, others) => Done (i :: others)
      | Refused => Refused
      | Outside => Outside
      end
  end.

Definition project (indexes : list nat) (row : list PyValue) : list PyValue :=
  map (fun i => nth i row PyNone) indexes.

Definition sql_equal (stored literal : PyValue) : bool :=
  match stored with
  | PyNone => false
  | _ => PyValue_eqb stored literal
  end.

Definition value_of (r : Reference) (row : list PyValue) : PyValue :=
  match r with
  | ColumnRef i => nth i row PyNone
  | Literal v => v
  end.

(** The rows a condition selects. *)
Definition where_clause (names : list string) (condition : option Condition)
  : Reply (list PyValue -> bool) :=
  match condition with
  | None => Done (fun _ => true)
  | Some c =>
      match both (bare_column names (cond_column c))
                 (operand names (cond_operand c)) with
      | Done (i, r) =>
          Done (fun row => sql_equal (nth i row PyNone) (value_of r row))
      | Refused => Refused
      | Outside => Outside
      end
  end.

(** The table a name after [FROM] stands for. *)
Definition from_table (db : Database) (table_name : string) : Reply Table :=
  if negb (identifier table_name) || engine_name table_name then Outside
  else
    match db !! table_name with
    | Some t => Done t
    | None =>
        match map_to_list
                (filter (fun entry => same_name (fst entry) table_name = true)
                   db) with
        | [] => Refused
        | [entry] => Done (snd entry)
        | _ => Outside
        end
    end.

(** [SELECT column_names FROM t WHERE condition]; an empty column list is a
    syntax error, and more than 2000 columns are more than the engine allows
    by default. *)
Definition select (t : Table) (column_names : list string)
    (condition : option Condition) : Reply (list (list PyValue)) :=
  match both (match column_names with
              | [] => Refused
              | _ =>
                  if (2000 <? length column_names)%nat then Outside
                  else bare_columns (columns t) column_names
              end)
             (where_clause (columns t) condition) with
  | Done (indexes, test) =>
      Done (map (project indexes) (List.filter test (rows t)))
  | Refused => Refused
  | Outside => Outside
  end.

(** The columns of [sqlite_master]. *)
Definition sqlite_master_columns : list string :=
  ["type"; "name"; "tbl_name"; "rootpage"; "sql"].

(** The result rows of a statement, in the order the table stores them.
    The table existence query compares the names of the tables with the
    text between the double quotes; the comparison of values regards case. *)
Definition sqlite3_execute (db : Database) (statement : Statement)
  : Reply (list (list PyValue)) :=
  match statement with
  | HasTableStatement table_name =>
      match quoted sqlite_master_columns table_name with
      | Done (Literal _) =>
          match db !! table_name with
          | Some _ => Done [[PyStr table_name]]
          | None => Done []
          end
      | _ => Outside
      end
  | SelectStatement [table_name] column_names condition =>
      match from_table db table_name with
      | Done t => select t column_names condition
      | Refused =>
          match both (bare_columns [] column_names) (where_clause [] condition)
          with
          | Outside => Outside
          | _ => Refused
          end
      | Outside => Outside
      end
  | SelectStatement _ _ _ => Outside
  end.

(** A cursor belongs to the connection that created it and holds the rows of
    the last statement executed on it that were not fetched yet. *)
Record Cursor : Type :=
  { cursor_database : Database; pending : list (list PyValue) }.

(** What is outside the program: the files [sqlite3.connect] can open
    ([None] stands for [sqlite3.OperationalError]) and [os.path.isfile]. *)
Record World : Type :=
  { sqlite3_connect : string -> option Database;
    os_path_isfile : string -> bool }.

(** [os.path.join] of a directory and a relative file name. *)
Definition os_path_join (a b : string) : string :=
  if String.eqb a "" then b
  else if String.eqb (String.substring (String.length a - 1) 1 a) "/"
       then a +:+ b
       else a +:+ "/" +:+ b.

(** ** Sqlite3DatabaseFile *)

Module Sqlite3DatabaseFile.

Record t : Type :=
  { _connection : option Database;
    _cursor : option Cursor;
    filename : option string;
    read_only : option bool }.

Definition __init__ : t :=
  {| _connection := None; _cursor := None;
     filename := None; read_only := None |}.

Definition set_cursor (self : t) (c : Cursor) : t :=
  {| _connection := _connection self; _cursor := Some c;
     filename := filename self; read_only := read_only self |}.

(** [self._cursor.execute(sql_query)] *)
Definition cursor_execute (statement : Statement) : Py t unit :=
  fun self =>
    match _cursor self with
    | None => (self, Raises AttributeError)
    | Some c =>
        match sqlite3_execute (cursor_database c) statement with
        | Done result =>
            (set_cursor self {| cursor_database := cursor_database c;
                                pending := result |}, Returns tt)
        | Refused =>
            (set_cursor self {| cursor_database := cursor_database c;
                                pending := [] |}, Raises OperationalError)
        | Outside =>
            (set_cursor self {| cursor_database := cursor_database c;
                                pending := [] |}, Unspecified)
        end
    end.

(** [self._cursor.fetchone()], also one step of [for row in self._cursor]:
    the next pending row, or [None] when there is none. *)
Definition cursor_fetchone : Py t (option (list PyValue)) :=
  fun self =>
    match _cursor self with
    | None => (self, Raises AttributeError)
    | Some c =>
        match pending c with
        | [] => (self, Returns None)
        | row :: rest =>
            (set_cursor self {| cursor_database := cursor_database c;
                                pending := rest |}, Returns (Some row))
        end
    end.

Definition Close : Py t unit :=
  fun self =>
    match _connection self with
    | None => (self, Raises (RuntimeError "Cannot close database not opened."))
    | Some _ => (__init__, Returns tt)
    end.

Definition HasTable (table_name : string) : Py t bool :=
  fun self =>
    match _connection self with
    | None =>
        (self, Raises (RuntimeError
           "Cannot determine if table exists database not opened."))
    | Some _ =>
        (let* _ := cursor_execute (HasTableStatement table_name) in
         let* row := cursor_fetchone in
         match row with
         | Some (_ :: _) => py_ret true
         | _ => py_ret false
         end) self
    end.

(** The dictionary comprehension of [GetValues]:
    [{column_name: row[column_index] for column_index, column_name in
    enumerate(column_names)}]. *)
Fixpoint row_dict (column_names : list string) (column_index : nat)
    (row : list PyValue) (d : gmap string PyValue)
  : Outcome (gmap string PyValue) :=
  match column_names with
  | [] => Returns d
  | column_name :: names =>
      match row !! column_index with
      | Some v => row_dict names (S column_index) row (<[column_name := v]> d)
      | None => Raises IndexError
      end
  end.

(** [GetValues] is a generator function.  Its body up to the loop runs at
    the first [next()]. *)
Definition GetValues_start (table_names column_names : list string)
    (condition : option Condition) : Py t unit :=
  fun self =>
    match _connection self with
    | None =>
        (self, Raises (RuntimeError
           "Cannot retrieve values database not opened."))
    | Some _ =>
        cursor_execute (SelectStatement table_names column_names condition)
          self
    end.

(** One turn of [for row in self._cursor: yield {...}]; [None] when the
    cursor has no row left and the generator finishes. *)
Definition GetValues_resume (column_names : list string)
  : Py t (option (gmap string PyValue)) :=
  let* row := cursor_fetchone in
  match row with
  | None => py_ret None
  | Some row =>
      let* values := py_lift (row_dict column_names 0 row ∅) in
      py_ret (Some values)
  end.

Inductive Generator : Type := Created | Suspended | Finished.

Definition after {A : Type} (item : option A) : Generator :=
  match item with Some _ => Suspended | None => Finished end.

(** [next(generator)] for [generator = self.GetValues(...)]. *)
Definition GetValues_next (table_names column_names : list string)
    (condition : option Condition) (g : Generator)
  : Py t (Generator * option (gmap string PyValue)) :=
  match g with
  | Created =>
      let* _ := GetValues_start table_names column_names condition in
      let* item := GetValues_resume column_names in
      py_ret (after item, item)
  | Suspended =>
      let* item := GetValues_resume column_names in
      py_ret (after item, item)
  | Finished => py_ret (Finished, None)
  end.

(** The rows the loop of [GetValues] turns into dictionaries when it is run
    to its end, and the rows left in the cursor if it stops early. *)
Fixpoint drain (column_names : list string) (rows : list (list PyValue))
  : list (list PyValue) * Outcome (list (gmap string PyValue)) :=
  match rows with
  | [] => ([], Returns [])
  | row :: rest =>
      match row_dict column_names 0 row ∅ with
      | Returns values =>
          match drain column_names rest with
          | (unread, Returns l) => (unread, Returns (values :: l))
          | other => other
          end
      | Raises e => (rest, Raises e)
      | OutOfFuel => (rest, OutOfFuel)
      | Unspecified => (rest, Unspecified)
      end
  end.

(** [list(self.GetValues(table_names, column_names, condition))] *)
Definition GetValues_list (table_names column_names : list string)
    (condition : option Condition) : Py t (list (gmap string PyValue)) :=
  let* _ := GetValues_start table_names column_names condition in
  fun self =>
    match _cursor self with
    | None => (self, Raises AttributeError)
    | Some c =>
        let '(unread, o) := drain column_names (pending c) in
        (set_cursor self {| cursor_database := cursor_database c;
                            pending := unread |}, o)
    end.

Section Open.
Variable world : World.

(** A connection and a cursor are objects that are always true, so the tests
    [if not self._connection] and [if not self._cursor] after a successful
    [sqlite3.connect] never return. *)
Definition Open (filename : string) (read_only : bool) : Py t bool :=
  fun self =>
    match _connection self with
    | Some _ =>
        (self, Raises (RuntimeError "Cannot open database already opened."))
    | None =>
        let self :=
          {| _connection := _connection self; _cursor := _cursor self;
             filename := Some filename; read_only := Some read_only |} in
        match sqlite3_connect world filename with
        | None => (self, Returns false)
        | Some db =>
            ({| _connection := Some db;
                _cursor := Some {| cursor_database := db; pending := [] |};
                filename := Sqlite3DatabaseFile.filename self;
                read_only := Sqlite3DatabaseFile.read_only self |},
             Returns true)
        end
    end.
End Open.

End Sqlite3DatabaseFile.

(** ** Regular expression substitution *)

(** What a match object gives: the captured groups and the number of
    characters the whole match spans. *)
Record Match : Type := { groups : list string; span : nat }.

Section Sub.
(** [pattern s] tries the pattern at the start of [s]; none of the four
    patterns of the reader matches the empty string. *)
Variable pattern : string -> option Match.
Variable repl : Match -> string.

(** [pattern.sub(repl, s)]: leftmost, non-overlapping matches are replaced,
    every other character is copied.  [skip] counts the characters of the
    current match that are still to be passed over. *)
Fixpoint sub_from (skip : nat) (s : string) : string :=
  match s with
  | EmptyString => EmptyString
  | String c rest =>
      match skip with
      | S k => sub_from k rest
      | O =>
          match pattern s with
          | Some m => repl m +:+ sub_from (Nat.pred (span m)) rest
          | None => String c (sub_from 0 rest)
          end
      end
  end.

Definition sub (s : string) : string := sub_from 0 s.
End Sub.

(** ** WinevtResourcesSqlite3DatabaseReader *)

Module WinevtResourcesSqlite3DatabaseReader.

Definition in_range (lo hi : N) (c : ascii) : bool :=
  ((lo <=? N_of_ascii c) && (N_of_ascii c <=? hi))%N.

Definition is_digit : ascii -> bool := in_range 48 57.
Definition is_1_9 : ascii -> bool := in_range 49 57.

Definition char_in (set : list ascii) (c : ascii) : bool :=
  existsb (Ascii.eqb c) set.

Definition CR : ascii := ascii_of_N 13.
Definition LF : ascii := ascii_of_N 10.
Definition percent : ascii := "%"%char.
Definition backslash : ascii := ascii_of_N 92.

(** An optional single character [[x]?], greedy: the consumed text and what
    follows it. *)
Definition optional (class : ascii -> bool) (s : string) : string * string :=
  match s with
  | String c rest => if class c then (String c "", rest) else ("", s)
  | EmptyString => ("", s)
  end.

(** [(%[0b]|[\r\n])] *)
Definition _WHITE_SPACE_SPECIFIER_RE (s : string) : option Match :=
  match s with
  | String c rest =>
      if Ascii.eqb c percent then
        match rest with
        | String d _ =>
            if char_in ["0"%char; "b"%char] d
            then Some {| groups := [String c (String d "")]; span := 2 |}
            else None
        | EmptyString => None
        end
      else if char_in [CR; LF] c
      then Some {| groups := [String c ""]; span := 1 |}
      else None
  | EmptyString => None
  end.

(** [%([ .!%nrt])] *)
Definition _TEXT_SPECIFIER_RE (s : string) : option Match :=
  match s with
  | String c (String d _) =>
      if Ascii.eqb c percent &&
         char_in [" "%char; "."%char; "!"%char; "%"%char;
                  "n"%char; "r"%char; "t"%char] d
      then Some {| groups := [String d ""]; span := 2 |}
      else None
  | _ => None
  end.

(** [([\{\}])] *)
Definition _CURLY_BRACKETS (s : string) : option Match :=
  match s with
  | String c _ =>
      if char_in ["{"%char; "}"%char] c
      then Some {| groups := [String c ""]; span := 1 |}
      else None
  | EmptyString => None
  end.

(** [%([1-9][0-9]?)[!]?[s]?[!]?] *)
Definition _PLACE_HOLDER_SPECIFIER_RE (s : string) : option Match :=
  match s with
  | String c (String d1 s1) =>
      if Ascii.eqb c percent && is_1_9 d1 then
        let '(d2, s2) := optional is_digit s1 in
        let '(b1, s3) := optional (Ascii.eqb "!"%char) s2 in
        let '(t, s4) := optional (Ascii.eqb "s"%char) s3 in
        let '(b2, _) := optional (Ascii.eqb "!"%char) s4 in
        Some {| groups := [String d1 d2];
                span := 2 + String.length d2 + String.length b1
                        + String.length t + String.length b2 |}
      else None
  | _ => None
  end.

(** [match_object.group(1)] *)
Definition group1 (m : Match) : string := nth 0 (groups m) "".

Fixpoint int_digits (acc : Z) (s : string) : option Z :=
  match s with
  | EmptyString => Some acc
  | String c rest =>
      if is_digit c
      then int_digits (10 * acc + (Z.of_N (N_of_ascii c) - 48)) rest
      else None
  end.

(** [int(group, 10)] on a string of decimal digits; [None] is [ValueError]. *)
Definition int_base10 (s : string) : option Z :=
  match s with
  | EmptyString => None
  | _ => int_digits 0 s
  end.

(** The nested function of [_ReformatMessageString]. *)
Definition _PlaceHolderSpecifierReplacer (match_object : Match) : string :=
  String.concat ""
    (map (fun group =>
            match int_base10 group with
            | Some number =>
                let place_holder_number := number - 1 in
                "{" +:+ pretty place_holder_number +:+ ":s}"
            | None => group
            end)
         (groups match_object)).

Definition sub_white_space : string -> string :=
  sub _WHITE_SPACE_SPECIFIER_RE (fun _ => "").
Definition sub_text_specifier : string -> string :=
  sub _TEXT_SPECIFIER_RE (fun m => String backslash (group1 m)).
Definition sub_curly_brackets : string -> string :=
  sub _CURLY_BRACKETS (fun m => group1 m +:+ group1 m).
Definition sub_place_holder : string -> string :=
  sub _PLACE_HOLDER_SPECIFIER_RE _PlaceHolderSpecifierReplacer.

(** [WinevtResourcesSqlite3DatabaseReader._ReformatMessageString] *)
Definition _ReformatMessageString (message_string : PyValue) : Outcome PyValue :=
  if negb (truthy message_string) then Returns PyNone
  else
    match message_string with
    | PyStr s =>
        let s := sub_white_space s in
        let s := sub_text_specifier s in
        let s := sub_curly_brackets s in
        Returns (PyStr (sub_place_holder s))
    | _ => Raises TypeError
    end.

Record t : Type :=
  { _database_file : Sqlite3DatabaseFile.t;
    _string_format : PyValue }.

Definition __init__ : t :=
  {| _database_file := Sqlite3DatabaseFile.__init__;
     _string_format := PyStr "wrc" |}.

(** A call [self._database_file.method(...)]. *)
Definition on_database_file {A : Type} (m : Py Sqlite3DatabaseFile.t A)
  : Py t A :=
  fun self =>
    let '(f, o) := m (_database_file self) in
    ({| _database_file := f; _string_format := _string_format self |}, o).

(** [values[key]] *)
Definition subscript (values : gmap string PyValue) (key : string)
  : Outcome PyValue :=
  match values !! key with
  | Some v => Returns v
  | None => Raises KeyError
  end.

Definition _GetEventLogProviderKey (log_source : string) : Py t PyValue :=
  let table_names := ["event_log_providers"] in
  let column_names := ["event_log_provider_key"] in
  let condition :=
    {| cond_column := "log_source"; cond_operand := Quoted log_source |} in
  let* values_list :=
    on_database_file
      (Sqlite3DatabaseFile.GetValues_list
         table_names column_names (Some condition)) in
  let number_of_values := length values_list in
  if (number_of_values =? 0)%nat then py_ret PyNone
  else if (number_of_values =? 1)%nat then
    match values_list !! 0%nat with
    | Some values => py_lift (subscript values "event_log_provider_key")
    | None => py_raise IndexError
    end
  else py_raise (RuntimeError "More than one value found in database.").

Definition _GetMessage (message_file_key : PyValue) (lcid : Z)
    (message_identifier : Z) : Py t PyValue :=
  let* key_text := py_lift (format_d message_file_key) in
  let table_name :=
    "message_table_" +:+ key_text +:+ "_0x" +:+ format_08x lcid in
  let* has_table :=
    on_database_file (Sqlite3DatabaseFile.HasTable table_name) in
  if negb has_table then py_ret PyNone
  else
    let column_names := ["message_string"] in
    let condition :=
      {| cond_column := "message_identifier";
         cond_operand := Quoted ("0x" +:+ format_08x message_identifier) |} in
    let* values :=
      on_database_file
        (Sqlite3DatabaseFile.GetValues_list
           [table_name] column_names (Some condition)) in
    let number_of_values := length values in
    if (number_of_values =? 0)%nat then py_ret PyNone
    else if (number_of_values =? 1)%nat then
      match values !! 0%nat with
      | Some row => py_lift (subscript row "message_string")
      | None => py_raise IndexError
      end
    else py_raise (RuntimeError "More than one value found in database.").

(** [next(generator)] for [generator = self._GetMessageFileKeys(key)].
    The generator wraps the generator of [GetValues]; the condition is
    formatted when it is first resumed. *)
Definition _GetMessageFileKeys_next (event_log_provider_key : PyValue)
    (g : Sqlite3DatabaseFile.Generator)
  : Py t (Sqlite3DatabaseFile.Generator * option PyValue) :=
  let table_names := ["message_file_per_event_log_provider"] in
  let column_names := ["message_file_key"] in
  let* key_text :=
    match g with
    | Sqlite3DatabaseFile.Created => py_lift (format_d event_log_provider_key)
    | _ => py_ret ""
    end in
  let condition :=
    {| cond_column := "event_log_provider_key";
       cond_operand := Unquoted key_text |} in
  let* step :=
    on_database_file
      (Sqlite3DatabaseFile.GetValues_next
         table_names column_names (Some condition) g) in
  match snd step with
  | Some values =>
      let* message_file_key :=
        py_lift (subscript values "message_file_key") in
      py_ret (fst step, Some message_file_key)
  | None => py_ret (fst step, None)
  end.

(** The loop [for message_file_key in generator: ...] of [GetMessage],
    with a budget on the number of times the generator is resumed. *)
Fixpoint GetMessage_for (fuel : nat) (event_log_provider_key : PyValue)
    (lcid message_identifier : Z) (g : Sqlite3DatabaseFile.Generator)
    (message_string : PyValue) : Py t PyValue :=
  match fuel with
  | O => py_lift OutOfFuel
  | S fuel' =>
      let* step := _GetMessageFileKeys_next event_log_provider_key g in
      match snd step with
      | None => py_ret message_string
      | Some message_file_key =>
          let* message_string :=
            _GetMessage message_file_key lcid message_identifier in
          if truthy message_string then py_ret message_string
          else GetMessage_for fuel' event_log_provider_key lcid
                 message_identifier (fst step) message_string
      end
  end.

Definition Close : Py t unit := on_database_file Sqlite3DatabaseFile.Close.

(** A generator object is always true, so the test [if not generator] of
    the source never returns. *)
Definition GetMessage (fuel : nat) (log_source : string) (lcid : Z)
    (message_identifier : Z) : Py t PyValue :=
  let* event_log_provider_key := _GetEventLogProviderKey log_source in
  if negb (truthy event_log_provider_key) then py_ret PyNone
  else
    let* message_string :=
      GetMessage_for fuel event_log_provider_key lcid message_identifier
        Sqlite3DatabaseFile.Created PyNone in
    fun self =>
      if PyValue_eqb (_string_format self) (PyStr "wrc")
      then (self, _ReformatMessageString message_string)
      else (self, Returns message_string).

Definition GetMetadataAttribute (attribute_name : string) : Py t PyValue :=
  let table_name := "metadata" in
  let* has_table :=
    on_database_file (Sqlite3DatabaseFile.HasTable table_name) in
  if negb has_table then py_ret PyNone
  else
    let column_names := ["value"] in
    let condition :=
      {| cond_column := "name"; cond_operand := Quoted attribute_name |} in
    let* values :=
      on_database_file
        (Sqlite3DatabaseFile.GetValues_list
           [table_name] column_names (Some condition)) in
    let number_of_values := length values in
    if (number_of_values =? 0)%nat then py_ret PyNone
    else if (number_of_values =? 1)%nat then
      match values !! 0%nat with
      | Some row => py_lift (subscript row "value")
      | None => py_raise IndexError
      end
    else py_raise (RuntimeError "More than one value found in database.").

Section Open.
Variable world : World.

Definition Open (filename : string) : Py t bool :=
  let* opened :=
    on_database_file (Sqlite3DatabaseFile.Open world filename true) in
  if negb opened then py_ret false
  else
    let* version := GetMetadataAttribute "version" in
    if negb (truthy version)
       || negb (PyValue_eqb version (PyStr "20150315"))
    then
      let* text := py_lift (format_s version) in
      py_raise (RuntimeError ("Unsupported version: " +:+ text))
    else
      let* string_format := GetMetadataAttribute "string_format" in
      let string_format :=
        if negb (truthy string_format) then PyStr "wrc"
        else string_format in
      if negb (PyValue_eqb string_format (PyStr "pep3101")
               || PyValue_eqb string_format (PyStr "wrc"))
      then
        let* text := py_lift (format_s string_format) in
        py_raise (RuntimeError ("Unsupported string format: " +:+ text))
      else
        fun self =>
          ({| _database_file := _database_file self;
              _string_format := string_format |}, Returns true).
End Open.

End WinevtResourcesSqlite3DatabaseReader.

(** ** WinevtResourcesHelper *)

Module WinevtResourcesHelper.

(** LCID 0x0409 is en-US. *)
Definition DEFAULT_LCID : Z := 1033.

Definition _WINEVT_RC_DATABASE : string := "winevt-rc.db".

Record t : Type :=
  { _data_location : option string;
    _lcid : Z;
    _winevt_database_reader : option WinevtResourcesSqlite3DatabaseReader.t }.

(** [lcid or self.DEFAULT_LCID] *)
Definition __init__ (data_location : option string) (lcid : option Z) : t :=
  {| _data_location := data_location;
     _lcid := match lcid with
              | Some l => if l =? 0 then DEFAULT_LCID else l
              | None => DEFAULT_LCID
              end;
     _winevt_database_reader := None |}.

Definition set_reader (self : t)
    (reader : option WinevtResourcesSqlite3DatabaseReader.t) : t :=
  {| _data_location := _data_location self; _lcid := _lcid self;
     _winevt_database_reader := reader |}.

(** A call [self._winevt_database_reader.method(...)]; the local variable
    [database_reader] of [GetMessageString] is the same object. *)
Definition on_reader {A : Type}
    (m : Py WinevtResourcesSqlite3DatabaseReader.t A) : Py t A :=
  fun self =>
    match _winevt_database_reader self with
    | Some reader =>
        let '(reader', o) := m reader in (set_reader self (Some reader'), o)
    | None => (self, Raises AttributeError)
    end.

Section Methods.
Variable world : World.

Definition _GetWinevtRcDatabaseReader
  : Py t (option WinevtResourcesSqlite3DatabaseReader.t) :=
  fun self =>
    match _winevt_database_reader self, _data_location self with
    | None, Some data_location =>
        if String.eqb data_location "" then
          (self, Returns (_winevt_database_reader self))
        else
          let database_path :=
            os_path_join data_location _WINEVT_RC_DATABASE in
          if negb (os_path_isfile world database_path) then
            (self, Returns None)
          else
            let self :=
              set_reader self
                (Some WinevtResourcesSqlite3DatabaseReader.__init__) in
            match on_reader
                    (WinevtResourcesSqlite3DatabaseReader.Open
                       world database_path) self with
            | (self, Returns opened) =>
                let self :=
                  if negb opened then set_reader self None else self in
                (self, Returns (_winevt_database_reader self))
            | (self, Raises e) => (self, Raises e)
            | (self, OutOfFuel) => (self, OutOfFuel)
            | (self, Unspecified) => (self, Unspecified)
            end
    | _, _ => (self, Returns (_winevt_database_reader self))
    end.

Definition GetMessageString (fuel : nat) (log_source : string)
    (message_identifier : Z) : Py t PyValue :=
  let* database_reader := _GetWinevtRcDatabaseReader in
  match database_reader with
  | None => py_ret PyNone
  | Some _ =>
      fun self =>
        if negb (_lcid self =? DEFAULT_LCID) then
          (let* message_string :=
             on_reader
               (WinevtResourcesSqlite3DatabaseReader.GetMessage
                  fuel log_source (_lcid self) message_identifier) in
           if truthy message_string then py_ret message_string
           else
             on_reader
               (WinevtResourcesSqlite3DatabaseReader.GetMessage
                  fuel log_source DEFAULT_LCID message_identifier)) self
        else
          on_reader
            (WinevtResourcesSqlite3DatabaseReader.GetMessage
               fuel log_source DEFAULT_LCID message_identifier) self
  end.
End Methods.

End WinevtResourcesHelper.

Module DB := Sqlite3DatabaseFile.
Module Reader := WinevtResourcesSqlite3DatabaseReader.
Module Helper := WinevtResourcesHelper.

(** ** Auxiliary definitions used in the statements *)

(** The pipeline with the placeholder conversion moved before the curly
    bracket doubling, to compare with. *)
Definition reformat_place_holder_first (s : string) : string :=
  Reader.sub_curly_brackets
    (Reader.sub_place_holder
       (Reader.sub_text_specifier (Reader.sub_white_space s))).


(** The strings matched by [[!]?[s]?[!]?]. *)
Definition decorations : list string :=
  [""; "!"; "s"; "!s"; "s!"; "!s!"; "!!"].

(** The specifier [%n] followed by [decoration] is not continued by the
    text after it: the next character neither extends the decoration nor,
    after a single digit, is a second digit. *)
Definition whole_specifier (n : Z) (decoration after : string) : Prop :=
  match after with
  | String c _ =>
      ~ In (decoration +:+ String c "") decorations
      /\ (n <= 9 -> decoration = "" -> Reader.is_digit c = false)
  | EmptyString => True
  end.

(** An opened database file: the connection to [db] and its cursor with the
    rows [p] still pending. *)
Definition open_file (db : Database) (p : list (list PyValue))
    (fn : option string) (ro : option bool) : DB.t :=
  {| DB._connection := Some db;
     DB._cursor := Some {| cursor_database := db; pending := p |};
     DB.filename := fn; DB.read_only := ro |}.

Definition open_reader (db : Database) (p : list (list PyValue))
    (fn : option string) (ro : option bool) (sf : PyValue) : Reader.t :=
  {| Reader._database_file := open_file db p fn ro;
     Reader._string_format := sf |}.

(** A helper that holds a reader over the opened store [db]. *)
Definition helper_with (data_location : option string) (lcid : Z)
    (db : Database) (p : list (list PyValue)) (fn : option string)
    (ro : option bool) (sf : PyValue) : Helper.t :=
  {| Helper._data_location := data_location;
     Helper._lcid := lcid;
     Helper._winevt_database_reader := Some (open_reader db p fn ro sf) |}.

(** What the store holds: the values of [value_column] in the rows of
    [table] whose [key_column] holds exactly [key], in the order of the
    table.  [None] when the table or one of the columns does not exist. *)
Definition lookup (db : Database) (table key_column : string) (key : PyValue)
    (value_column : string) : option (list PyValue) :=
  match db !! table with
  | Some t =>
      match index_of value_column (columns t),
            index_of key_column (columns t) with
      | Some j, Some i =>
          Some (map (fun row => nth j row PyNone)
                  (List.filter
                     (fun row => sql_equal (nth i row PyNone) key)
                     (rows t)))
      | _, _ => None
      end
  | None => None
  end.

(** The zero, one or many discipline of the reader on the selected values. *)
Definition one_value (selected : option (list PyValue)) : Outcome PyValue :=
  match selected with
  | None => Raises OperationalError
  | Some [] => Returns PyNone
  | Some [v] => Returns v
  | Some _ => Raises (RuntimeError "More than one value found in database.")
  end.

(** The same for a table that may be missing. *)
Definition value_if_table (db : Database) (table key_column : string)
    (key : PyValue) (value_column : string) : Outcome PyValue :=
  match db !! table with
  | Some _ => one_value (lookup db table key_column key value_column)
  | None => Returns PyNone
  end.

Definition message_table_name (message_file_key lcid : Z) : string :=
  "message_table_" +:+ pretty message_file_key +:+ "_0x" +:+ format_08x lcid.

Definition message_identifier_text (message_identifier : Z) : PyValue :=
  PyStr ("0x" +:+ format_08x message_identifier).

(** What [_GetMessage] answers for a message file key read from the store. *)
Definition message_of (db : Database) (message_file_key : PyValue)
    (lcid message_identifier : Z) : Outcome PyValue :=
  match message_file_key with
  | PyInt k =>
      value_if_table db (message_table_name k lcid) "message_identifier"
        (message_identifier_text message_identifier) "message_string"
  | PyNone => Raises TypeError
  | PyStr _ => Raises ValueError
  end.

Definition provider_keys (db : Database) (log_source : string)
  : option (list PyValue) :=
  lookup db "event_log_providers" "log_source" (PyStr log_source)
    "event_log_provider_key".

Definition message_file_keys (db : Database) (event_log_provider_key : PyValue)
  : option (list PyValue) :=
  lookup db "message_file_per_event_log_provider" "event_log_provider_key"
    event_log_provider_key "message_file_key".

(** *** What the statements of the reader select *)

(** The values a selection of one column answers. *)
Definition select_values (db : Database) (table value_column : string)
    (condition : option Condition) : Reply (list PyValue) :=
  match sqlite3_execute db
          (SelectStatement [table] [value_column] condition) with
  | Done result => Done (map (fun row => nth 0 row PyNone) result)
  | Refused => Refused
  | Outside => Outside
  end.

(** The zero, one or many discipline of the reader on such an answer. *)
Definition one_selected (answer : Reply (list PyValue)) : Outcome PyValue :=
  match answer with
  | Done values => one_value (Some values)
  | Refused => one_value None
  | Outside => Unspecified
  end.

(** The same after the table existence query, for a table that may be
    missing. *)
Definition queried_value (db : Database) (table key_column : string)
    (key : Operand) (value_column : string) : Outcome PyValue :=
  match sqlite3_execute db (HasTableStatement table) with
  | Done [] => Returns PyNone
  | Done _ =>
      one_selected
        (select_values db table value_column
           (Some {| cond_column := key_column; cond_operand := key |}))
  | Refused => Raises OperationalError
  | Outside => Unspecified
  end.

(** The statement of [_GetEventLogProviderKey]. *)
Definition provider_key_query (db : Database) (log_source : string)
  : Reply (list PyValue) :=
  select_values db "event_log_providers" "event_log_provider_key"
    (Some {| cond_column := "log_source"; cond_operand := Quoted log_source |}).

(** The statement of [_GetMessageFileKeys], for the provider key as it is
    written into it. *)
Definition message_file_key_query (db : Database) (key_text : string)
  : Reply (list PyValue) :=
  select_values db "message_file_per_event_log_provider" "message_file_key"
    (Some {| cond_column := "event_log_provider_key";
             cond_operand := Unquoted key_text |}).

(** The statements of [_GetMessage]. *)
Definition message_query (db : Database) (message_file_key : PyValue)
    (lcid message_identifier : Z) : Outcome PyValue :=
  match message_file_key with
  | PyInt k =>
      queried_value db (message_table_name k lcid) "message_identifier"
        (Quoted ("0x" +:+ format_08x message_identifier)) "message_string"
  | PyNone => Raises TypeError
  | PyStr _ => Raises ValueError
  end.

(** The statements of [GetMetadataAttribute]: the value the store gives for
    the attribute. *)
Definition metadata_attribute (db : Database) (name : string)
  : Outcome PyValue :=
  queried_value db "metadata" "name" (Quoted name) "value".

(** The last step of [GetMessage]. *)
Definition finalize (sf message_string : PyValue) : Outcome PyValue :=
  if PyValue_eqb sf (PyStr "wrc")
  then Reader._ReformatMessageString message_string
  else Returns message_string.

(** What [GetMessage] computes from the answers of the engine: of the
    message file keys of the provider only the first is ever tried. *)
Definition resolve (db : Database) (sf : PyValue) (log_source : string)
    (lcid message_identifier : Z) : Outcome PyValue :=
  match one_selected (provider_key_query db log_source) with
  | Returns event_log_provider_key =>
      if negb (truthy event_log_provider_key) then Returns PyNone
      else
        match format_d event_log_provider_key with
        | Returns key_text =>
            match message_file_key_query db key_text with
            | Refused => Raises OperationalError
            | Outside => Unspecified
            | Done [] => finalize sf PyNone
            | Done (first :: _) =>
                match message_query db first lcid message_identifier with
                | Returns message_string => finalize sf message_string
                | Raises e => Raises e
                | OutOfFuel => OutOfFuel
                | Unspecified => Unspecified
                end
            end
        | Raises e => Raises e
        | OutOfFuel => OutOfFuel
        | Unspecified => Unspecified
        end
  | Raises e => Raises e
  | OutOfFuel => OutOfFuel
  | Unspecified => Unspecified
  end.

(** *** Example stores *)

Definition metadata_table (attributes : list (string * string)) : Table :=
  {| columns := ["name"; "value"];
     rows := map (fun a => [PyStr (fst a); PyStr (snd a)]) attributes |}.

Definition event_log_providers_table (providers : list (string * Z)) : Table :=
  {| columns := ["event_log_provider_key"; "log_source"];
     rows := map (fun a => [PyInt (snd a); PyStr (fst a)]) providers |}.

Definition message_file_per_event_log_provider_table
    (files : list (Z * Z)) : Table :=
  {| columns := ["message_file_key"; "event_log_provider_key"];
     rows := map (fun a => [PyInt (snd a); PyInt (fst a)]) files |}.

Definition message_table (messages : list (Z * string)) : Table :=
  {| columns := ["message_identifier"; "message_string"];
     rows := map (fun a => [message_identifier_text (fst a); PyStr (snd a)])
               messages |}.

(** A store with the given metadata attributes, providers (log source and
    provider key), file associations (provider key and message file key) and
    message tables (message file key, language and content). *)
Definition winevt_store (attributes : list (string * string))
    (providers : list (string * Z)) (files : list (Z * Z))
    (tables : list (Z * Z * list (Z * string))) : Database :=
  <["metadata" := metadata_table attributes]>
    (<["event_log_providers" := event_log_providers_table providers]>
       (<["message_file_per_event_log_provider" :=
            message_file_per_event_log_provider_table files]>
          (foldr (fun t db =>
                    <[message_table_name (fst (fst t)) (snd (fst t)) :=
                        message_table (snd t)]> db)
             ∅ tables))).

(** The world with one database file, found wherever it is looked for. *)
Definition world_with (db : Database) : World :=
  {| sqlite3_connect := fun _ => Some db; os_path_isfile := fun _ => true |}.

Definition application_error_message : string :=
  "Process %1 failed with %2!s!".

(** Provider ["Application Error"] with key 7, one message file 3 and its
    table for en-US. *)
Definition store_application_error : Database :=
  winevt_store [("version", "20150315")] [("Application Error", 7)]
    [(7, 3)] [(3, 1033, [(1, application_error_message)])].

(** The same provider with two message files, the message being in the
    table of the second. *)
Definition store_two_message_files : Database :=
  winevt_store [("version", "20150315")] [("Application Error", 7)]
    [(7, 3); (7, 4)] [(4, 1033, [(1, application_error_message)])].

(** The same as [store_application_error] with provider key 0. *)
Definition store_provider_key_zero : Database :=
  winevt_store [("version", "20150315")] [("Application Error", 0)]
    [(0, 3)] [(3, 1033, [(1, application_error_message)])].

(** A store of another schema version. *)
Definition store_version_20140101 : Database :=
  winevt_store [("version", "20140101")] [("Application Error", 7)]
    [(7, 3)] [(3, 1033, [(1, application_error_message)])].

(** A store whose [string_format] attribute is the empty string. *)
Definition store_empty_string_format : Database :=
  winevt_store [("version", "20150315"); ("string_format", "")]
    [("Application Error", 7)] [(7, 3)]
    [(3, 1033, [(1, application_error_message)])].

(** A store with an unknown [string_format]. *)
Definition store_printf_string_format : Database :=
  winevt_store [("version", "20150315"); ("string_format", "printf")]
    [("Application Error", 7)] [(7, 3)]
    [(3, 1033, [(1, application_error_message)])].

(** A store in which two providers carry the same log source. *)
Definition store_ambiguous_provider : Database :=
  winevt_store [("version", "20150315")]
    [("Application Error", 7); ("Application Error", 8)] [(7, 3)] [].

(** A store in which a provider carries the name of the column it is
    looked up by. *)
Definition store_log_source_provider : Database :=
  winevt_store [("version", "20150315")]
    [("log_source", 0); ("Application Error", 7)] [(0, 3); (7, 3)]
    [(3, 1033, [(1, application_error_message)])].

(** What [Open] of the reader decides from the metadata of the store: the
    string format it retains, or the exception it raises. *)
Definition open_outcome (db : Database) : Outcome PyValue :=
  match metadata_attribute db "version" with
  | Returns version =>
      if negb (truthy version)
         || negb (PyValue_eqb version (PyStr "20150315"))
      then
        match format_s version with
        | Returns text => Raises (RuntimeError ("Unsupported version: " +:+ text))
        | Raises e => Raises e
        | OutOfFuel => OutOfFuel
        | Unspecified => Unspecified
        end
      else
        match metadata_attribute db "string_format" with
        | Returns string_format =>
            let string_format :=
              if negb (truthy string_format) then PyStr "wrc"
              else string_format in
            if negb (PyValue_eqb string_format (PyStr "pep3101")
                     || PyValue_eqb string_format (PyStr "wrc"))
            then
              match format_s string_format with
              | Returns text =>
                  Raises (RuntimeError ("Unsupported string format: " +:+ text))
              | Raises e => Raises e
              | OutOfFuel => OutOfFuel
              | Unspecified => Unspecified
              end
            else Returns string_format
        | Raises e => Raises e
        | OutOfFuel => OutOfFuel
        | Unspecified => Unspecified
        end
  | Raises e => Raises e
  | OutOfFuel => OutOfFuel
  | Unspecified => Unspecified
  end.

(** *** Texts and names in a statement *)

(** A text that the engine reads as a string literal when the reader writes
    it between double quotes into a statement on a table with the columns
    [names]: it holds no double quote and no NUL character, and it is
    neither the name of one of the columns nor a name of the row
    identifier. *)
Definition literal_text (names : list string) (text : string) : bool :=
  quotable text
  && match index_of text names with None => true | Some _ => false end
  && negb (rowid_alias text).

(** The same for a statement on a table of the store; a table that the
    store does not hold has no columns. *)
Definition literal_in (db : Database) (table text : string) : bool :=
  match db !! table with
  | Some t => literal_text (columns t) text
  | None => literal_text [] text
  end.

(** A name that, written without quotes, can only stand for a column. *)
Definition ordinary_column (name : string) : bool :=
  identifier name && negb (rowid_alias name) && negb (truth_value name).

(** A name that, written without quotes after [FROM], can only stand for a
    table of the store. *)
Definition ordinary_table (name : string) : bool :=
  identifier name && negb (engine_name name).

(** *** Texts *)

(** A character that no stage of the reformatting looks for. *)
Definition plain_char (c : ascii) : bool :=
  negb (Reader.char_in
          [Reader.percent; "{"%char; "}"%char; Reader.CR; Reader.LF] c).

Definition line_break (c : ascii) : bool :=
  Reader.char_in [Reader.CR; Reader.LF] c.

Definition curly_bracket (c : ascii) : bool :=
  Reader.char_in ["{"%char; "}"%char] c.

(** A text in which every curly bracket is written twice. *)
Inductive doubled : string -> Prop :=
| doubled_nil : doubled ""
| doubled_char c s :
    curly_bracket c = false -> doubled s -> doubled (String c s)
| doubled_bracket c s :
    curly_bracket c = true -> doubled s -> doubled (String c (String c s)).

(** A format string of [str.format] (PEP 3101) whose replacement fields are
    all of the form [{n:s}] with n from 0 to 98: literal text without curly
    brackets, the escapes [{{] and [}}], and such fields. *)
Inductive pep3101 : string -> Prop :=
| pep3101_nil : pep3101 ""
| pep3101_char c s :
    curly_bracket c = false -> pep3101 s -> pep3101 (String c s)
| pep3101_escape c s :
    curly_bracket c = true -> pep3101 s -> pep3101 (String c (String c s))
| pep3101_field n s :
    0 <= n <= 98 -> pep3101 s -> pep3101 ("{" +:+ pretty n +:+ ":s}" +:+ s).

Definition no_line_break (c : ascii) : bool := negb (line_break c).

(** A character of the decimal text of an integer. *)
Definition decimal_char (c : ascii) : bool :=
  Reader.is_digit c || Ascii.eqb c "-".

(** A lowercase hexadecimal digit. *)
Definition hex_digit_char (c : ascii) : bool :=
  Reader.is_digit c || Reader.in_range 97 102 c.

Definition hex_digit_value (c : ascii) : N :=
  if (N_of_ascii c <? 58)%N then (N_of_ascii c - 48)%N
  else (N_of_ascii c - 87)%N.

(** The number a text of hexadecimal digits stands for, continuing from
    [acc]. *)
Fixpoint hex_value_from (acc : N) (s : string) : N :=
  match s with
  | EmptyString => acc
  | String c rest => hex_value_from (acc * 16 + hex_digit_value c)%N rest
  end.

Definition hex_value (s : string) : N := hex_value_from 0 s.

(** *** Running a generator of [GetValues] to its end *)

(** The items a loop gets that calls [next] on the generator until it
    finishes, with a budget on the number of calls. *)
Fixpoint GetValues_iterate (fuel : nat) (table_names column_names : list string)
    (condition : option Condition) (g : DB.Generator)
  : Py DB.t (list (gmap string PyValue)) :=
  match fuel with
  | O => py_lift OutOfFuel
  | S fuel' =>
      let* step := DB.GetValues_next table_names column_names condition g in
      match snd step with
      | None => py_ret []
      | Some values =>
          let* others :=
            GetValues_iterate fuel' table_names column_names condition
              (fst step) in
          py_ret (values :: others)
      end
  end.

(** [values] is the dictionary of the requested columns of [row]. *)
Definition row_values (t : Table) (column_names : list string)
    (row : list PyValue) (values : gmap string PyValue) : Prop :=
  (forall name j,
      In name column_names -> index_of name (columns t) = Some j ->
      values !! name = Some (nth j row PyNone))
  /\ (forall name, ~ In name column_names -> values !! name = None).

(** *** The answer of the helper *)

(** What [GetMessageString] answers from the content of the store: the
    lookup at the configured language and, when that answers nothing, the
    lookup at the default language. *)
Definition helper_answer (db : Database) (sf : PyValue) (lcid : Z)
    (log_source : string) (message_identifier : Z) : Outcome PyValue :=
  if negb (lcid =? Helper.DEFAULT_LCID) then
    match resolve db sf log_source lcid message_identifier with
    | Returns message_string =>
        if truthy message_string then Returns message_string
        else resolve db sf log_source Helper.DEFAULT_LCID message_identifier
    | Raises e => Raises e
    | OutOfFuel => OutOfFuel
    | Unspecified => Unspecified
    end
  else resolve db sf log_source Helper.DEFAULT_LCID message_identifier.

(** A store whose German message table has two rows for one identifier. *)
Definition store_ambiguous_german : Database :=
  winevt_store [("version", "20150315")] [("Application Error", 7)]
    [(7, 3)]
    [(3, 1031, [(1, "Prozess %1"); (1, "Vorgang %1")]);
     (3, 1033, [(1, application_error_message)])].

(** A world without any file. *)
Definition empty_world : World :=
  {| sqlite3_connect := fun _ => None; os_path_isfile := fun _ => false |}.

(** * Properties *)

(** ** The message string reformatting *)

Example reformat_white_space :
  Reader._ReformatMessageString (PyStr ("A%0B%bC" +:+ String Reader.LF "D"))
  = Returns (PyStr "ABCD").
Proof. vm_compute. reflexivity. Qed.

Example reformat_text :
  Reader._ReformatMessageString (PyStr "Save %% now")
  = Returns (PyStr ("Save " +:+ String Reader.backslash "% now")).
Proof. vm_compute. reflexivity. Qed.

Example reformat_braces :
  Reader._ReformatMessageString (PyStr "a{b}c") = Returns (PyStr "a{{b}}c").
Proof. vm_compute. reflexivity. Qed.

Example reformat_nothing :
  Reader._ReformatMessageString PyNone = Returns PyNone
  /\ Reader._ReformatMessageString (PyStr "") = Returns PyNone.
Proof. split; reflexivity. Qed.

Example format_table_name :
  "message_table_" +:+ pretty 3 +:+ "_0x" +:+ format_08x 1033
  = "message_table_3_0x00000409".
Proof. vm_compute. reflexivity. Qed.

Example format_08x_examples :
  format_08x (-1) = "-0000001" /\ format_08x 4886718345 = "123456789"
  /\ format_08x 0 = "00000000" /\ format_08x 2748 = "00000abc".
Proof. vm_compute. repeat split. Qed.

(** C5: the four substitutions run in the order white space specifiers, text
    specifiers, curly brackets, place holders; on ["%1 has {0} %%"] this
    gives ["{0:s} has {{0}} \%"], which the pipeline with the last two
    stages exchanged does not. *)
Theorem C5_stage_order :
  (forall c s,
      Reader._ReformatMessageString (PyStr (String c s))
      = Returns (PyStr (Reader.sub_place_holder
                          (Reader.sub_curly_brackets
                             (Reader.sub_text_specifier
                                (Reader.sub_white_space (String c s)))))))
  /\ Reader._ReformatMessageString (PyStr "%1 has {0} %%")
     = Returns (PyStr ("{0:s} has {{0}} " +:+ String Reader.backslash "%"))
  /\ reformat_place_holder_first "%1 has {0} %%"
     = "{{0:s}} has {{0}} " +:+ String Reader.backslash "%".
Proof.
  split; [|split].
  - intros c s. reflexivity.
  - vm_compute. reflexivity.
  - vm_compute. reflexivity.
Qed.

(** C8: reformatting is not idempotent: a second pass doubles the curly
    brackets again and rewrites an escape produced by the first. *)
Theorem C8_not_idempotent :
  exists s once twice,
    Reader._ReformatMessageString (PyStr s) = Returns (PyStr once)
    /\ Reader._ReformatMessageString (PyStr once) = Returns (PyStr twice)
    /\ once <> twice
    /\ s = "a{b}c" /\ once = "a{{b}}c" /\ twice = "a{{{{b}}}}c".
Proof.
  exists "a{b}c", "a{{b}}c", "a{{{{b}}}}c".
  repeat split; try (vm_compute; reflexivity). discriminate.
Qed.

Example text_specifier_twice :
  exists once twice,
    Reader._ReformatMessageString (PyStr "Save %% now") = Returns (PyStr once)
    /\ Reader._ReformatMessageString (PyStr once) = Returns (PyStr twice)
    /\ once <> twice.
Proof.
  eexists _, _. split; [vm_compute; reflexivity|].
  split; [vm_compute; reflexivity|]. discriminate.
Qed.

(** *** Strings *)

Lemma append_cons c s t : String c s +:+ t = String c (s +:+ t).
Proof. reflexivity. Qed.

Lemma append_nil_l t : "" +:+ t = t.
Proof. reflexivity. Qed.

Lemma append_nil_r s : s +:+ "" = s.
Proof. induction s as [|c s IH]; [reflexivity|]. rewrite append_cons, IH. reflexivity. Qed.

Lemma append_assoc s t u : (s +:+ t) +:+ u = s +:+ (t +:+ u).
Proof.
  induction s as [|c s IH]; [reflexivity|].
  rewrite !append_cons, IH. reflexivity.
Qed.

Lemma length_append s t :
  String.length (s +:+ t) = (String.length s + String.length t)%nat.
Proof.
  induction s as [|c s IH]; [reflexivity|].
  rewrite append_cons. simpl. rewrite IH. reflexivity.
Qed.

(** *** Substitution and concatenation *)

Lemma sub_from_skip pattern repl x after :
  sub_from pattern repl (String.length x) (x +:+ after)
  = sub_from pattern repl 0 after.
Proof.
  induction x as [|c x IH]; [reflexivity|].
  rewrite append_cons. simpl. exact IH.
Qed.

Lemma optional_split class s :
  s = fst (Reader.optional class s) +:+ snd (Reader.optional class s).
Proof.
  destruct s as [|c s]; [reflexivity|].
  simpl. destruct (class c); reflexivity.
Qed.

Lemma optional_append class s c x :
  class c = false ->
  Reader.optional class (s +:+ String c x)
  = (fst (Reader.optional class s),
     snd (Reader.optional class s) +:+ String c x).
Proof.
  intros Hc. destruct s as [|a s].
  - rewrite append_nil_l. simpl. rewrite Hc. reflexivity.
  - rewrite append_cons. simpl. destruct (class a); reflexivity.
Qed.

Lemma optional_length class s :
  (String.length (fst (Reader.optional class s))
   + String.length (snd (Reader.optional class s)))%nat = String.length s.
Proof.
  rewrite <- length_append, <- optional_split. reflexivity.
Qed.

(** A place holder specifier never reaches over a following ["%"]. *)
Lemma place_holder_prefix c b x :
  Reader._PLACE_HOLDER_SPECIFIER_RE (String c (b +:+ String Reader.percent x))
  = Reader._PLACE_HOLDER_SPECIFIER_RE (String c b).
Proof.
  destruct b as [|d1 s1].
  - rewrite append_nil_l. simpl.
    rewrite andb_false_r. reflexivity.
  - rewrite append_cons. unfold Reader._PLACE_HOLDER_SPECIFIER_RE.
    destruct (Ascii.eqb c Reader.percent && Reader.is_1_9 d1); [|reflexivity].
    rewrite optional_append by reflexivity.
    destruct (Reader.optional Reader.is_digit s1) as [d2 s2]. simpl fst; simpl snd.
    rewrite optional_append by reflexivity.
    destruct (Reader.optional (Ascii.eqb "!") s2) as [b1 s3]. simpl fst; simpl snd.
    rewrite optional_append by reflexivity.
    destruct (Reader.optional (Ascii.eqb "s") s3) as [t s4]. simpl fst; simpl snd.
    rewrite optional_append by reflexivity.
    destruct (Reader.optional (Ascii.eqb "!") s4) as [b2 s5]. reflexivity.
Qed.

Lemma place_holder_span s m :
  Reader._PLACE_HOLDER_SPECIFIER_RE s = Some m ->
  (1 <= span m <= String.length s)%nat.
Proof.
  destruct s as [|c [|d1 s1]]; try discriminate.
  unfold Reader._PLACE_HOLDER_SPECIFIER_RE.
  destruct (Ascii.eqb c Reader.percent && Reader.is_1_9 d1); [|discriminate].
  pose proof (optional_length Reader.is_digit s1) as H1.
  destruct (Reader.optional Reader.is_digit s1) as [d2 s2].
  pose proof (optional_length (Ascii.eqb "!") s2) as H2.
  destruct (Reader.optional (Ascii.eqb "!") s2) as [b1 s3].
  pose proof (optional_length (Ascii.eqb "s") s3) as H3.
  destruct (Reader.optional (Ascii.eqb "s") s3) as [t s4].
  pose proof (optional_length (Ascii.eqb "!") s4) as H4.
  destruct (Reader.optional (Ascii.eqb "!") s4) as [b2 s5].
  intros [= <-]. simpl in *. lia.
Qed.

Lemma sub_place_holder_from_app before x :
  forall k, (k <= String.length before)%nat ->
  sub_from Reader._PLACE_HOLDER_SPECIFIER_RE
    Reader._PlaceHolderSpecifierReplacer k
    (before +:+ String Reader.percent x)
  = sub_from Reader._PLACE_HOLDER_SPECIFIER_RE
      Reader._PlaceHolderSpecifierReplacer k before
    +:+ Reader.sub_place_holder (String Reader.percent x).
Proof.
  induction before as [|c b IH]; intros k Hk.
  - simpl in Hk. assert (k = 0%nat) as -> by lia. reflexivity.
  - rewrite append_cons.
    destruct k as [|k].
    + cbn [sub_from]. rewrite place_holder_prefix.
      destruct (Reader._PLACE_HOLDER_SPECIFIER_RE (String c b)) as [m|] eqn:Hm.
      * apply place_holder_span in Hm. simpl in Hm.
        rewrite IH by lia. rewrite append_assoc. reflexivity.
      * rewrite IH by (simpl; lia). reflexivity.
    + cbn [sub_from]. apply IH. simpl in Hk. lia.
Qed.

Lemma sub_place_holder_app before x :
  Reader.sub_place_holder (before +:+ String Reader.percent x)
  = Reader.sub_place_holder before
    +:+ Reader.sub_place_holder (String Reader.percent x).
Proof. apply sub_place_holder_from_app. lia. Qed.

Lemma optional_nil class : Reader.optional class "" = ("", "").
Proof. reflexivity. Qed.

Lemma optional_hit class c r :
  class c = true -> Reader.optional class (String c r) = (String c "", r).
Proof. intros H. simpl. rewrite H. reflexivity. Qed.

Lemma optional_miss class c r :
  class c = false -> Reader.optional class (String c r) = ("", String c r).
Proof. intros H. simpl. rewrite H. reflexivity. Qed.

Ltac optional_step solve_next :=
  first [ rewrite optional_nil
        | rewrite optional_hit by (first [reflexivity | assumption])
        | rewrite optional_miss
            by (first [reflexivity | assumption | solve_next]) ];
  cbv beta iota.

Lemma place_holder_head d1 d2s decoration after :
  Reader.is_1_9 d1 = true ->
  (d2s = "" \/ exists d2, d2s = String d2 "" /\ Reader.is_digit d2 = true) ->
  In decoration decorations ->
  match after with
  | String c _ =>
      ~ In (decoration +:+ String c "") decorations
      /\ (d2s = "" -> decoration = "" -> Reader.is_digit c = false)
  | EmptyString => True
  end ->
  exists m,
    Reader._PLACE_HOLDER_SPECIFIER_RE
      (String Reader.percent (String d1 (d2s +:+ decoration +:+ after)))
    = Some m
    /\ groups m = [String d1 d2s]
    /\ span m = (2 + String.length d2s + String.length decoration)%nat.
Proof.
  intros Hd1 Hd2 Hdeco Hafter.
  unfold Reader._PLACE_HOLDER_SPECIFIER_RE.
  rewrite Ascii.eqb_refl, Hd1. cbn [andb].
  unfold decorations in Hdeco. simpl in Hdeco.
  destruct after as [|c rest].
  - (* nothing follows the specifier *)
    destruct Hd2 as [->|(d2 & -> & Hd2)];
      repeat (destruct Hdeco as [<-|Hdeco]; [|]); try contradiction;
      rewrite ?append_cons, ?append_nil_l;
      do 4 (optional_step fail);
      eexists; (split; [reflexivity|split; reflexivity]).
  - destruct Hafter as [Hnot Hdigit].
    assert (Hbang : In decoration [""; "!"; "s"; "!s"] ->
                    Ascii.eqb "!" c = false).
    { intros Hin. apply Ascii.eqb_neq. intros <-. apply Hnot.
      unfold decorations. simpl in *.
      destruct Hin as [<-|[<-|[<-|[<-|[]]]]]; simpl; tauto. }
    assert (Hs : In decoration [""; "!"] -> Ascii.eqb "s" c = false).
    { intros Hin. apply Ascii.eqb_neq. intros <-. apply Hnot.
      unfold decorations. simpl in *.
      destruct Hin as [<-|[<-|[]]]; simpl; tauto. }
    destruct Hd2 as [->|(d2 & -> & Hd2)];
      repeat (destruct Hdeco as [<-|Hdeco]; [|]); try contradiction;
      rewrite ?append_cons, ?append_nil_l;
      do 4 (optional_step
              ltac:(first [ apply Hdigit; reflexivity
                          | apply Hbang; simpl; tauto
                          | apply Hs; simpl; tauto ]));
      eexists; (split; [reflexivity|split; reflexivity]).
Qed.

(** The decimal text of a number from 1 to 99 is what the first group of the
    place holder pattern captures, and [int] reads the number back. *)
Lemma pretty_1_99 n :
  1 <= n <= 99 ->
  exists d1 d2s,
    pretty n = String d1 d2s
    /\ Reader.is_1_9 d1 = true
    /\ ((d2s = "" /\ n <= 9)
        \/ (exists d2, d2s = String d2 "" /\ Reader.is_digit d2 = true
                       /\ 10 <= n))
    /\ Reader.int_base10 (String d1 d2s) = Some n.
Proof.
  intros Hn.
  set (check := fun n : Z =>
    match pretty n with
    | String d1 "" =>
        Reader.is_1_9 d1 && (n <=? 9)
        && bool_decide (Reader.int_base10 (String d1 "") = Some n)
    | String d1 (String d2 "") =>
        Reader.is_1_9 d1 && Reader.is_digit d2 && (10 <=? n)
        && bool_decide
             (Reader.int_base10 (String d1 (String d2 "")) = Some n)
    | _ => false
    end).
  assert (Hall : forallb check (map Z.of_nat (seq 1 99)) = true)
    by (vm_compute; reflexivity).
  rewrite forallb_forall in Hall.
  assert (Hin : In n (map Z.of_nat (seq 1 99))).
  { replace n with (Z.of_nat (Z.to_nat n)) by lia.
    apply in_map, in_seq. lia. }
  apply Hall in Hin. unfold check in Hin.
  destruct (pretty n) as [|d1 [|d2 [|]]]; try discriminate.
  - apply andb_prop in Hin as [Hin H3]. apply andb_prop in Hin as [H1 H2].
    apply bool_decide_eq_true in H3.
    exists d1, "". repeat split; auto. left. split; [reflexivity|lia].
  - apply andb_prop in Hin as [Hin H4]. apply andb_prop in Hin as [Hin H3].
    apply andb_prop in Hin as [H1 H2]. apply bool_decide_eq_true in H4.
    exists d1, (String d2 ""). repeat split; auto.
    right. exists d2. repeat split; auto. lia.
Qed.

Lemma replacer_one_group group number m :
  groups m = [group] ->
  Reader.int_base10 group = Some number ->
  Reader._PlaceHolderSpecifierReplacer m
  = "{" +:+ pretty (number - 1) +:+ ":s}".
Proof.
  intros Hg Hi. unfold Reader._PlaceHolderSpecifierReplacer.
  rewrite Hg. simpl. rewrite Hi. reflexivity.
Qed.

(** C6: in the place holder stage every specifier [%n] with n from 1 to 99
    and an optional decoration out of [!], [s], [!] is replaced by the slot
    [{n-1:s}], decoration included; so ["%1 failed with %2!s!"] is
    reformatted to ["{0:s} failed with {1:s}"]. *)
Theorem C6_place_holder_conversion :
  forall (before after decoration : string) (n : Z),
    1 <= n <= 99 ->
    In decoration decorations ->
    whole_specifier n decoration after ->
    Reader.sub_place_holder
      (before +:+ "%" +:+ pretty n +:+ decoration +:+ after)
    = Reader.sub_place_holder before
      +:+ "{" +:+ pretty (n - 1) +:+ ":s}"
      +:+ Reader.sub_place_holder after
    /\ Reader._ReformatMessageString (PyStr "%1 failed with %2!s!")
       = Returns (PyStr "{0:s} failed with {1:s}").
Proof.
  intros before after decoration n Hn Hdeco Hwhole.
  split; [|vm_compute; reflexivity].
  destruct (pretty_1_99 n Hn) as (d1 & d2s & Hp & Hd1 & Hd2 & Hint).
  rewrite Hp.
  change ("%" +:+ String d1 d2s +:+ decoration +:+ after)
    with (String Reader.percent (String d1 (d2s +:+ decoration +:+ after))).
  rewrite sub_place_holder_app. f_equal.
  destruct (place_holder_head d1 d2s decoration after) as (m & Hm & Hg & Hspan).
  - exact Hd1.
  - destruct Hd2 as [[-> _]|(d2 & -> & H & _)]; [left|right; exists d2]; auto.
  - exact Hdeco.
  - unfold whole_specifier in Hwhole. destruct after as [|c rest]; [exact I|].
    destruct Hwhole as [Hnot Hdigit]. split; [exact Hnot|].
    intros -> Hd. apply Hdigit; [|exact Hd].
    destruct Hd2 as [[_ Hle]|(d2 & Habs & _)]; [exact Hle|discriminate].
  - unfold Reader.sub_place_holder, sub. cbn [sub_from]. rewrite Hm.
    rewrite (replacer_one_group _ n m Hg Hint).
    rewrite !append_assoc. do 3 f_equal.
    rewrite Hspan.
    change (Nat.pred (2 + String.length d2s + String.length decoration))
      with (S (String.length d2s + String.length decoration)).
    rewrite <- length_append.
    change (S (String.length (d2s +:+ decoration)))
      with (String.length (String d1 (d2s +:+ decoration))).
    rewrite <- sub_from_skip
      with (x := String d1 (d2s +:+ decoration)) (after := after).
    rewrite append_cons, append_assoc. reflexivity.
Qed.

Lemma C6_witness :
  Reader.sub_place_holder ("x" +:+ "%" +:+ pretty 12 +:+ "!s!" +:+ "y%3")
  = Reader.sub_place_holder "x" +:+ "{" +:+ pretty (12 - 1) +:+ ":s}"
    +:+ Reader.sub_place_holder "y%3"
  /\ Reader._ReformatMessageString (PyStr "%1 failed with %2!s!")
     = Returns (PyStr "{0:s} failed with {1:s}").
Proof.
  apply (C6_place_holder_conversion "x" "y%3" "!s!" 12).
  - lia.
  - unfold decorations. simpl. tauto.
  - unfold whole_specifier, decorations. split.
    + simpl. intros H. repeat (destruct H as [H|H]; [discriminate H|]). exact H.
    + intros _ H. discriminate H.
Defined.
(** ** The database file *)

Lemma both_done {A B} (a : Reply A) (b : Reply B) x y :
  both a b = Done (x, y) <-> a = Done x /\ b = Done y.
Proof.
  destruct a, b; simpl; split; try discriminate;
    try (intros [H1 H2]; discriminate).
  - intros [= -> ->]. split; reflexivity.
  - intros [[= ->] [= ->]]. reflexivity.
Qed.

(** A selection of one column answers rows of one value. *)
Lemma project_one i (selected : list (list PyValue)) :
  map (project [i]) selected
  = map (fun v => [v]) (map (fun row => nth i row PyNone) selected).
Proof. rewrite map_map. reflexivity. Qed.

Lemma select_one_column t value_column condition result :
  select t [value_column] condition = Done result ->
  exists values, result = map (fun v => [v]) values.
Proof.
  unfold select. cbn [bare_columns length Nat.ltb Nat.leb].
  destruct (bare_column (columns t) value_column) as [i| |];
    destruct (where_clause (columns t) condition) as [test| |];
    cbn; try discriminate.
  intros [= <-]. eexists. apply project_one.
Qed.

Lemma execute_one_column db table value_column condition result :
  sqlite3_execute db (SelectStatement [table] [value_column] condition)
  = Done result ->
  exists values, result = map (fun v => [v]) values.
Proof.
  cbn [sqlite3_execute].
  destruct (from_table db table) as [t| |]; [|
    destruct (both _ _); discriminate | discriminate].
  apply select_one_column.
Qed.

Lemma execute_select db table value_column condition :
  sqlite3_execute db (SelectStatement [table] [value_column] condition)
  = match select_values db table value_column condition with
    | Done values => Done (map (fun v => [v]) values)
    | Refused => Refused
    | Outside => Outside
    end.
Proof.
  unfold select_values.
  destruct (sqlite3_execute db _) as [result| |] eqn:Hresult;
    [|reflexivity|reflexivity].
  destruct (execute_one_column _ _ _ _ _ Hresult) as [values ->].
  f_equal. f_equal. clear Hresult.
  induction values as [|v values IH]; [reflexivity|].
  cbn [map nth]. rewrite <- IH. reflexivity.
Qed.

Lemma quoted_literal names text :
  literal_text names text = true ->
  quoted names text = Done (Literal (PyStr text)).
Proof.
  unfold literal_text, quoted.
  destruct (quotable text); [|discriminate].
  destruct (index_of text names); [discriminate|].
  destruct (rowid_alias text); [discriminate|reflexivity].
Qed.

Lemma quoted_not_literal names text :
  literal_text names text = false ->
  quoted names text = Outside \/ exists i, quoted names text = Done (ColumnRef i).
Proof.
  unfold literal_text, quoted.
  destruct (quotable text); [|left; reflexivity].
  destruct (index_of text names) as [i|]; [right; exists i; reflexivity|].
  destruct (rowid_alias text); [left; reflexivity|discriminate].
Qed.

(** The table existence query: only a text that the engine reads as a
    string literal is compared with the names of the tables. *)
Lemma execute_has_table db table_name :
  sqlite3_execute db (HasTableStatement table_name)
  = if literal_text sqlite_master_columns table_name
    then Done (match db !! table_name with
               | Some _ => [[PyStr table_name]]
               | None => []
               end)
    else Outside.
Proof.
  cbn [sqlite3_execute].
  destruct (literal_text sqlite_master_columns table_name) eqn:Hliteral.
  - rewrite (quoted_literal _ _ Hliteral).
    destruct (db !! table_name); reflexivity.
  - destruct (quoted_not_literal _ _ Hliteral) as [->|[i ->]]; reflexivity.
Qed.

Lemma drain_one value_column vs :
  DB.drain [value_column] (map (fun v => [v]) vs)
  = ([], Returns (map (fun v => <[value_column := v]> (∅ : gmap string PyValue)) vs)).
Proof.
  induction vs as [|v vs IH]; [reflexivity|].
  cbn [map DB.drain]. rewrite IH. reflexivity.
Qed.

Lemma HasTable_open db p fn ro table_name :
  DB.HasTable table_name (open_file db p fn ro)
  = (open_file db [] fn ro,
     if literal_text sqlite_master_columns table_name
     then Returns (match db !! table_name with
                   | Some _ => true
                   | None => false
                   end)
     else Unspecified).
Proof.
  unfold DB.HasTable, open_file. cbn [DB._connection].
  unfold py_bind, DB.cursor_execute. cbn [DB._cursor cursor_database].
  rewrite execute_has_table.
  destruct (literal_text sqlite_master_columns table_name); [|reflexivity].
  destruct (db !! table_name); reflexivity.
Qed.

Lemma GetValues_list_open db p fn ro table value_column condition :
  DB.GetValues_list [table] [value_column] condition (open_file db p fn ro)
  = (open_file db [] fn ro,
     match select_values db table value_column condition with
     | Done vs =>
         Returns (map (fun v => <[value_column := v]> (∅ : gmap string PyValue)) vs)
     | Refused => Raises OperationalError
     | Outside => Unspecified
     end).
Proof.
  unfold DB.GetValues_list, DB.GetValues_start, py_bind, DB.cursor_execute,
    open_file.
  cbn [DB._connection DB._cursor cursor_database].
  rewrite execute_select.
  destruct (select_values db table value_column condition) as [vs| |];
    [|reflexivity|reflexivity].
  unfold DB.set_cursor.
  cbn [DB._connection DB._cursor DB.filename DB.read_only cursor_database
       pending].
  rewrite drain_one. reflexivity.
Qed.

Lemma on_database_file_open {A} (m : Py DB.t A) db p fn ro sf :
  Reader.on_database_file m (open_reader db p fn ro sf)
  = ({| Reader._database_file := fst (m (open_file db p fn ro));
        Reader._string_format := sf |},
     snd (m (open_file db p fn ro))).
Proof.
  unfold Reader.on_database_file, open_reader.
  cbn [Reader._database_file Reader._string_format].
  destruct (m (open_file db p fn ro)). reflexivity.
Qed.

Lemma subscript_insert value_column (v : PyValue) :
  Reader.subscript (<[value_column := v]> ∅) value_column = Returns v.
Proof. unfold Reader.subscript. rewrite lookup_insert_eq. reflexivity. Qed.

(** ** The reader on an opened store *)

Ltac one_of vs :=
  destruct vs as [|? [|? ?]];
  [ reflexivity
  | cbn; unfold py_lift; rewrite subscript_insert; reflexivity
  | reflexivity ].

Lemma _GetEventLogProviderKey_open db p fn ro sf log_source :
  Reader._GetEventLogProviderKey log_source (open_reader db p fn ro sf)
  = (open_reader db [] fn ro sf,
     one_selected (provider_key_query db log_source)).
Proof.
  unfold Reader._GetEventLogProviderKey, py_bind, provider_key_query.
  rewrite on_database_file_open, GetValues_list_open. cbn [fst snd].
  fold (open_reader db [] fn ro sf).
  destruct (select_values db "event_log_providers" "event_log_provider_key" _)
    as [vs| |]; [|reflexivity|reflexivity].
  one_of vs.
Qed.

(** What the reader does after the table existence query. *)
Lemma queried_value_open db table key_column key value_column :
  queried_value db table key_column key value_column
  = if literal_text sqlite_master_columns table then
      match db !! table with
      | Some _ =>
          one_selected
            (select_values db table value_column
               (Some {| cond_column := key_column; cond_operand := key |}))
      | None => Returns PyNone
      end
    else Unspecified.
Proof.
  unfold queried_value. rewrite execute_has_table.
  destruct (literal_text sqlite_master_columns table); [|reflexivity].
  destruct (db !! table); reflexivity.
Qed.

Lemma GetMetadataAttribute_open db p fn ro sf attribute_name :
  Reader.GetMetadataAttribute attribute_name (open_reader db p fn ro sf)
  = (open_reader db [] fn ro sf, metadata_attribute db attribute_name).
Proof.
  unfold Reader.GetMetadataAttribute, py_bind, metadata_attribute.
  rewrite queried_value_open.
  rewrite on_database_file_open, HasTable_open. cbn [fst snd].
  fold (open_reader db [] fn ro sf).
  change (literal_text sqlite_master_columns "metadata") with true.
  cbv iota.
  destruct (db !! "metadata") as [t|] eqn:Ht; [|reflexivity].
  cbn [negb]. rewrite on_database_file_open, GetValues_list_open.
  cbn [fst snd]. fold (open_reader db [] fn ro sf).
  destruct (select_values db "metadata" "value" _) as [vs| |];
    [|reflexivity|reflexivity].
  one_of vs.
Qed.

Lemma _GetMessage_open db p fn ro sf k lcid message_identifier :
  Reader._GetMessage (PyInt k) lcid message_identifier
    (open_reader db p fn ro sf)
  = (open_reader db [] fn ro sf,
     message_query db (PyInt k) lcid message_identifier).
Proof.
  unfold Reader._GetMessage, py_bind, message_query, message_table_name.
  rewrite queried_value_open.
  cbn [py_lift format_d].
  rewrite on_database_file_open, HasTable_open. cbn [fst snd].
  fold (open_reader db [] fn ro sf).
  destruct (literal_text sqlite_master_columns _); [|reflexivity].
  destruct (db !! ("message_table_" +:+ pretty k +:+ "_0x" +:+ format_08x lcid))
    as [t|] eqn:Ht; [|reflexivity].
  cbn [negb]. rewrite on_database_file_open, GetValues_list_open.
  cbn [fst snd]. fold (open_reader db [] fn ro sf).
  destruct (select_values db _ "message_string" _) as [vs| |];
    [|reflexivity|reflexivity].
  one_of vs.
Qed.

Lemma _GetMessage_not_int db p fn ro sf key lcid message_identifier :
  (forall k, key <> PyInt k) ->
  Reader._GetMessage key lcid message_identifier (open_reader db p fn ro sf)
  = (open_reader db p fn ro sf, message_query db key lcid message_identifier).
Proof.
  intros Hkey. destruct key as [|k|s]; [reflexivity| |reflexivity].
  destruct (Hkey k). reflexivity.
Qed.
(** *** The generator of message file keys and the loop over it *)

Lemma _GetMessageFileKeys_next_created db p fn ro sf key text :
  format_d key = Returns text ->
  Reader._GetMessageFileKeys_next key DB.Created (open_reader db p fn ro sf)
  = match message_file_key_query db text with
    | Refused => (open_reader db [] fn ro sf, Raises OperationalError)
    | Outside => (open_reader db [] fn ro sf, Unspecified)
    | Done [] => (open_reader db [] fn ro sf, Returns (DB.Finished, None))
    | Done (v :: vs) =>
        (open_reader db (map (fun v => [v]) vs) fn ro sf,
         Returns (DB.Suspended, Some v))
    end.
Proof.
  intros Hkey.
  unfold Reader._GetMessageFileKeys_next, py_bind, message_file_key_query.
  rewrite Hkey. cbn [py_lift].
  rewrite on_database_file_open.
  unfold DB.GetValues_next, DB.GetValues_start, py_bind, DB.cursor_execute.
  cbn [open_file DB._connection DB._cursor cursor_database].
  rewrite execute_select.
  destruct (select_values db "message_file_per_event_log_provider"
              "message_file_key" _) as [[|v vs]| |];
    reflexivity.
Qed.

Lemma _GetMessageFileKeys_next_error db p fn ro sf key e :
  format_d key = Raises e ->
  Reader._GetMessageFileKeys_next key DB.Created (open_reader db p fn ro sf)
  = (open_reader db p fn ro sf, Raises e).
Proof.
  intros Hkey. unfold Reader._GetMessageFileKeys_next, py_bind.
  rewrite Hkey. reflexivity.
Qed.

(** Resumed on a cursor without pending rows the generator finishes. *)
Lemma _GetMessageFileKeys_next_exhausted db fn ro sf key :
  Reader._GetMessageFileKeys_next key DB.Suspended
    (open_reader db [] fn ro sf)
  = (open_reader db [] fn ro sf, Returns (DB.Finished, None)).
Proof. reflexivity. Qed.

Lemma message_of_file db p fn ro sf key lcid message_identifier :
  exists p',
    Reader._GetMessage key lcid message_identifier (open_reader db p fn ro sf)
    = (open_reader db p' fn ro sf,
       message_query db key lcid message_identifier)
    /\ (forall m, message_query db key lcid message_identifier = Returns m ->
                  p' = []).
Proof.
  destruct key as [|k|s].
  - exists p. split; [reflexivity|]. discriminate.
  - exists []. split; [apply _GetMessage_open|]. reflexivity.
  - exists p. split; [reflexivity|]. discriminate.
Qed.

(** The loop of [GetMessage] resumes the generator at most twice: after its
    first turn the cursor it iterates over has been executed anew by
    [_GetMessage] and has no pending row. *)
Lemma GetMessage_for_open fuel db p fn ro sf key text lcid message_identifier :
  format_d key = Returns text ->
  exists p',
    Reader.GetMessage_for (S (S fuel)) key lcid message_identifier
      DB.Created PyNone (open_reader db p fn ro sf)
    = (open_reader db p' fn ro sf,
       match message_file_key_query db text with
       | Refused => Raises OperationalError
       | Outside => Unspecified
       | Done [] => Returns PyNone
       | Done (first :: _) => message_query db first lcid message_identifier
       end).
Proof.
  intros Hkey. cbn [Reader.GetMessage_for]. unfold py_bind at 1.
  rewrite (_GetMessageFileKeys_next_created _ _ _ _ _ _ _ Hkey).
  destruct (message_file_key_query db text) as [[|first rest]| |].
  - exists []. reflexivity.
  - cbn [snd fst]. unfold py_bind at 1.
    destruct (message_of_file db (map (fun v => [v]) rest) fn ro sf first
                lcid message_identifier) as (p' & -> & Hp').
    destruct (message_query db first lcid message_identifier) as [m|e| |].
    + rewrite (Hp' m eq_refl).
      destruct (truthy m); [exists []; reflexivity|].
      exists []. unfold py_bind.
      rewrite _GetMessageFileKeys_next_exhausted. reflexivity.
    + exists p'. reflexivity.
    + exists p'. reflexivity.
    + exists p'. reflexivity.
  - exists []. reflexivity.
  - exists []. reflexivity.
Qed.

(** [GetMessage] on an opened store computes [resolve]; the budget of the
    loop is never used up. *)
Lemma GetMessage_open fuel db p fn ro sf log_source lcid message_identifier :
  exists p',
    Reader.GetMessage (S (S fuel)) log_source lcid message_identifier
      (open_reader db p fn ro sf)
    = (open_reader db p' fn ro sf,
       resolve db sf log_source lcid message_identifier).
Proof.
  unfold Reader.GetMessage, resolve. unfold py_bind at 1.
  rewrite _GetEventLogProviderKey_open.
  destruct (one_selected (provider_key_query db log_source)) as [key|e| |];
    try (exists []; reflexivity).
  destruct (truthy key) eqn:Htruthy; cbn [negb];
    [|exists []; reflexivity].
  destruct (format_d key) as [text|e| |] eqn:Hkey.
  - unfold py_bind.
    destruct (GetMessage_for_open fuel db [] fn ro sf key text lcid
                message_identifier Hkey) as (p' & ->).
    exists p'. unfold finalize.
    destruct (message_file_key_query db text) as [[|first rest]| |];
      [|destruct (message_query db first lcid message_identifier)| |];
      try reflexivity;
      cbn [open_reader Reader._string_format];
      destruct (PyValue_eqb sf (PyStr "wrc")); reflexivity.
  - exists []. unfold py_bind. cbn [Reader.GetMessage_for].
    unfold py_bind. rewrite (_GetMessageFileKeys_next_error _ _ _ _ _ _ _ Hkey).
    reflexivity.
  - destruct key; discriminate.
  - destruct key; discriminate.
Qed.

Lemma finalize_returns_or_raises sf m : finalize sf m <> OutOfFuel.
Proof.
  unfold finalize, Reader._ReformatMessageString.
  destruct (PyValue_eqb sf (PyStr "wrc")); [|discriminate].
  destruct (negb (truthy m)); [discriminate|].
  destruct m; discriminate.
Qed.

Lemma one_value_returns_or_raises selected : one_value selected <> OutOfFuel.
Proof. destruct selected as [[|v [|v' vs]]|]; discriminate. Qed.

Lemma one_selected_within_budget answer : one_selected answer <> OutOfFuel.
Proof.
  destruct answer; [apply one_value_returns_or_raises|
                    apply one_value_returns_or_raises|discriminate].
Qed.

Lemma message_query_within_budget db key lcid message_identifier :
  message_query db key lcid message_identifier <> OutOfFuel.
Proof.
  unfold message_query. destruct key; try discriminate.
  rewrite queried_value_open.
  destruct (literal_text _ _); [|discriminate].
  destruct (db !! _); [apply one_selected_within_budget|discriminate].
Qed.

(** The budget of the loop is never used up whenever the loop may resume
    the generator twice. *)
Lemma resolve_returns_or_raises db sf log_source lcid message_identifier :
  resolve db sf log_source lcid message_identifier <> OutOfFuel.
Proof.
  unfold resolve.
  destruct (one_selected (provider_key_query db log_source)) as [key|e| |]
    eqn:Hone;
    [|discriminate|destruct (one_selected_within_budget _ Hone)|discriminate].
  destruct (negb (truthy key)); [discriminate|].
  destruct (format_d key) as [text|e| |] eqn:Hkey;
    [|discriminate|destruct key; discriminate|discriminate].
  destruct (message_file_key_query db text) as [[|first rest]| |];
    [| |discriminate|discriminate].
  - apply finalize_returns_or_raises.
  - destruct (message_query db first lcid message_identifier) eqn:Hm;
      [apply finalize_returns_or_raises|discriminate| |discriminate].
    destruct (message_query_within_budget _ _ _ _ Hm).
Qed.
(** ** Statements the engine reads as the reader means them *)

Lemma bare_column_ordinary names name :
  ordinary_column name = true ->
  bare_column names name
  = match index_of name names with Some i => Done i | None => Refused end.
Proof.
  unfold ordinary_column, bare_column.
  destruct (identifier name); [|discriminate].
  destruct (rowid_alias name); [discriminate|].
  destruct (truth_value name); [discriminate|]. reflexivity.
Qed.

Lemma from_table_found db table t :
  ordinary_table table = true -> db !! table = Some t ->
  from_table db table = Done t.
Proof.
  unfold ordinary_table, from_table. intros Hname ->.
  destruct (identifier table); [|discriminate].
  destruct (engine_name table); [discriminate|]. reflexivity.
Qed.

(** A selection filtered by a comparison with a literal gives what the
    store holds under that key. *)
Lemma select_by_literal db table t value_column key_column key v :
  ordinary_table table = true -> db !! table = Some t ->
  ordinary_column value_column = true -> ordinary_column key_column = true ->
  operand (columns t) key = Done (Literal v) ->
  select_values db table value_column
    (Some {| cond_column := key_column; cond_operand := key |})
  = match lookup db table key_column v value_column with
    | Some values => Done values
    | None => Refused
    end.
Proof.
  intros Htable Hdb Hvalue Hkey Hoperand.
  unfold select_values. cbn [sqlite3_execute].
  rewrite (from_table_found _ _ _ Htable Hdb).
  unfold select, where_clause.
  cbn [bare_columns cond_column cond_operand length Nat.ltb Nat.leb].
  rewrite (bare_column_ordinary _ _ Hvalue), (bare_column_ordinary _ _ Hkey), Hoperand.
  unfold lookup. rewrite Hdb.
  destruct (index_of value_column (columns t)) as [j|];
    destruct (index_of key_column (columns t)) as [i|]; cbn [both];
    try reflexivity.
  rewrite map_map. reflexivity.
Qed.

Lemma select_values_literal db table t value_column key_column text :
  ordinary_table table = true -> db !! table = Some t ->
  ordinary_column value_column = true -> ordinary_column key_column = true ->
  literal_text (columns t) text = true ->
  select_values db table value_column
    (Some {| cond_column := key_column; cond_operand := Quoted text |})
  = match lookup db table key_column (PyStr text) value_column with
    | Some values => Done values
    | None => Refused
    end.
Proof.
  intros Htable Hdb Hvalue Hkey Hliteral.
  apply (select_by_literal _ _ t); try assumption.
  apply quoted_literal, Hliteral.
Qed.

(** *** Decimal integers *)

Lemma pretty_N_char_value d :
  (d < 10)%N ->
  char_between 48 57 (pretty_N_char d) = true
  /\ Z.of_N (N_of_ascii (pretty_N_char d)) - 48 = Z.of_N d.
Proof.
  intros Hd.
  assert (d = 0 \/ d = 1 \/ d = 2 \/ d = 3 \/ d = 4 \/ d = 5 \/ d = 6
          \/ d = 7 \/ d = 8 \/ d = 9)%N as Hcases by lia.
  repeat (destruct Hcases as [->|Hcases]; [split; reflexivity|]).
  subst d. split; reflexivity.
Qed.

Lemma pretty_N_go_value x :
  exists k, 0 <= k
    /\ forall acc s,
         digits_value acc (pretty_N_go x s)
         = digits_value (acc * 10 ^ k + Z.of_N x) s.
Proof.
  induction (N.lt_wf_0 x) as [x _ IH].
  destruct (decide (0 < x)%N) as [Hpos|Hzero].
  - destruct (IH (x / 10)%N) as (k & Hk & Hvalue).
    { apply N.div_lt; [exact Hpos|reflexivity]. }
    exists (k + 1). split; [lia|]. intros acc s.
    rewrite pretty_N_go_step by exact Hpos. rewrite Hvalue.
    cbn [digits_value].
    destruct (pretty_N_char_value (x mod 10)%N) as [-> ->].
    { apply N.mod_lt. discriminate. }
    f_equal. rewrite Z.pow_add_r, Z.pow_1_r by lia.
    pose proof (N.div_mod x 10 ltac:(discriminate)) as Hdiv.
    remember (acc * 10 ^ k) as a eqn:Ha.
    replace (acc * (10 ^ k * 10)) with (10 * a) by (subst a; ring).
    lia.
  - assert (x = 0%N) as -> by lia. exists 0. split; [lia|]. intros acc s.
    rewrite pretty_N_go_0. f_equal. change (10 ^ 0) with 1. cbn. lia.
Qed.

Lemma digits_value_pretty p :
  digits_value 0 (pretty (Npos p)) = Some (Zpos p).
Proof.
  unfold pretty, pretty_N.
  destruct (decide (Npos p = 0%N)) as [Heq|_]; [discriminate Heq|].
  destruct (pretty_N_go_value (Npos p)) as (k & _ & ->). reflexivity.
Qed.

(** The integer literal that ['{0:d}'] writes is read back as the
    integer. *)
Lemma integer_literal_pretty (z : Z) : integer_literal (pretty z) = Some z.
Proof.
  destruct z as [|p|p]; [reflexivity| |].
  - change (pretty (Zpos p)) with (pretty (Npos p)).
    pose proof (digits_value_pretty p) as Hvalue.
    unfold integer_literal.
    destruct (pretty (Npos p)) as [|c rest]; [discriminate Hvalue|].
    destruct (Ascii.eqb_spec c "-") as [->|_]; [discriminate Hvalue|].
    exact Hvalue.
  - change (pretty (Zneg p)) with ("-" +:+ pretty (Npos p)).
    pose proof (digits_value_pretty p) as Hvalue.
    destruct (pretty (Npos p)) as [|c rest] eqn:Htext; [discriminate Hvalue|].
    change ("-" +:+ String c rest) with (String "-" (String c rest)).
    unfold integer_literal. cbn [Ascii.eqb Bool.eqb].
    rewrite Hvalue. reflexivity.
Qed.

Lemma select_values_integer db table t value_column key_column z :
  ordinary_table table = true -> db !! table = Some t ->
  ordinary_column value_column = true -> ordinary_column key_column = true ->
  select_values db table value_column
    (Some {| cond_column := key_column; cond_operand := Unquoted (pretty z) |})
  = match lookup db table key_column (PyInt z) value_column with
    | Some values => Done values
    | None => Refused
    end.
Proof.
  intros Htable Hdb Hvalue Hkey.
  apply (select_by_literal _ _ t); try assumption.
  cbn [operand]. rewrite integer_literal_pretty. reflexivity.
Qed.

Lemma lookup_table db table key_column key value_column values :
  lookup db table key_column key value_column = Some values ->
  exists t, db !! table = Some t.
Proof.
  unfold lookup. destruct (db !! table) as [t|]; [eauto|discriminate].
Qed.

Lemma literal_in_table db table t text :
  db !! table = Some t ->
  literal_in db table text = literal_text (columns t) text.
Proof. unfold literal_in. intros ->. reflexivity. Qed.

(** The statement of [_GetEventLogProviderKey] for a log source that the
    engine reads as a string literal. *)
Lemma provider_key_query_literal db log_source stored :
  literal_in db "event_log_providers" log_source = true ->
  provider_keys db log_source = Some stored ->
  provider_key_query db log_source = Done stored.
Proof.
  intros Hliteral Hstored.
  destruct (lookup_table _ _ _ _ _ _ Hstored) as [t Hdb].
  rewrite (literal_in_table _ _ _ _ Hdb) in Hliteral.
  unfold provider_key_query.
  rewrite (select_values_literal _ _ t) by (try assumption; reflexivity).
  unfold provider_keys in Hstored. rewrite Hstored. reflexivity.
Qed.

Lemma message_file_key_query_integer db z stored :
  message_file_keys db (PyInt z) = Some stored ->
  message_file_key_query db (pretty z) = Done stored.
Proof.
  intros Hstored.
  destruct (lookup_table _ _ _ _ _ _ Hstored) as [t Hdb].
  unfold message_file_key_query.
  rewrite (select_values_integer _ _ t) by (try assumption; reflexivity).
  unfold message_file_keys in Hstored. rewrite Hstored. reflexivity.
Qed.

(** [GetMetadataAttribute] for an attribute name that the engine reads as a
    string literal. *)
Lemma metadata_attribute_literal db attribute_name :
  is_Some (db !! "metadata") ->
  literal_in db "metadata" attribute_name = true ->
  metadata_attribute db attribute_name
  = one_value (lookup db "metadata" "name" (PyStr attribute_name) "value").
Proof.
  intros [t Hdb] Hliteral.
  rewrite (literal_in_table _ _ _ _ Hdb) in Hliteral.
  unfold metadata_attribute. rewrite queried_value_open.
  change (literal_text sqlite_master_columns "metadata") with true.
  cbv iota. rewrite Hdb.
  rewrite (select_values_literal _ _ t) by (try assumption; reflexivity).
  destruct (lookup db "metadata" "name" (PyStr attribute_name) "value");
    reflexivity.
Qed.

(** For such an attribute name the value the store gives is the value it
    holds under the name. *)
Lemma metadata_attribute_store db attribute_name :
  literal_in db "metadata" attribute_name = true ->
  metadata_attribute db attribute_name
  = value_if_table db "metadata" "name" (PyStr attribute_name) "value".
Proof.
  intros Hliteral. unfold value_if_table.
  destruct (db !! "metadata") as [t|] eqn:Hdb.
  - apply metadata_attribute_literal; [rewrite Hdb; eauto|exact Hliteral].
  - unfold metadata_attribute. rewrite queried_value_open.
    change (literal_text sqlite_master_columns "metadata") with true.
    cbv iota. rewrite Hdb. reflexivity.
Qed.

(** ** The accessor *)

(** C9: before a successful [Open] the methods [HasTable], [GetValues] (when
    its generator is first resumed, or run by [list]) and [Close] raise
    [RuntimeError]; [Open] on an opened accessor raises [RuntimeError];
    [Close] on an opened accessor clears connection, cursor, file name and
    read-only flag, after which [Open] succeeds again.  An [Open] that fails
    leaves the accessor unopened. *)
Theorem C9_accessor_usage :
  forall (world : World) (closed opened : DB.t) (db : Database),
    DB._connection closed = None ->
    DB._connection opened = Some db ->
    (forall table_name,
        DB.HasTable table_name closed
        = (closed, Raises (RuntimeError
             "Cannot determine if table exists database not opened.")))
    /\ (forall table_names column_names condition,
           DB.GetValues_next table_names column_names condition DB.Created
             closed
           = (closed, Raises (RuntimeError
                "Cannot retrieve values database not opened."))
           /\ DB.GetValues_list table_names column_names condition closed
              = (closed, Raises (RuntimeError
                   "Cannot retrieve values database not opened.")))
    /\ DB.Close closed
       = (closed, Raises (RuntimeError "Cannot close database not opened."))
    /\ (forall filename read_only,
           DB.Open world filename read_only opened
           = (opened, Raises (RuntimeError
                "Cannot open database already opened.")))
    /\ DB.Close opened = (DB.__init__, Returns tt)
    /\ (forall filename read_only db',
           sqlite3_connect world filename = Some db' ->
           DB.Open world filename read_only (fst (DB.Close opened))
           = (open_file db' [] (Some filename) (Some read_only),
              Returns true))
    /\ (forall filename read_only,
           sqlite3_connect world filename = None ->
           snd (DB.Open world filename read_only closed) = Returns false
           /\ DB._connection (fst (DB.Open world filename read_only closed))
              = None).
Proof.
  intros world closed opened db Hclosed Hopened.
  split; [|split; [|split; [|split; [|split; [|split]]]]].
  - intros table_name. unfold DB.HasTable. rewrite Hclosed. reflexivity.
  - intros table_names column_names condition. split.
    + unfold DB.GetValues_next, DB.GetValues_start, py_bind.
      rewrite Hclosed. reflexivity.
    + unfold DB.GetValues_list, DB.GetValues_start, py_bind.
      rewrite Hclosed. reflexivity.
  - unfold DB.Close. rewrite Hclosed. reflexivity.
  - intros filename read_only. unfold DB.Open. rewrite Hopened. reflexivity.
  - unfold DB.Close. rewrite Hopened. reflexivity.
  - intros filename read_only db' Hconnect.
    unfold DB.Close. rewrite Hopened. cbn [fst].
    unfold DB.Open. cbn. rewrite Hconnect. reflexivity.
  - intros filename read_only Hconnect.
    unfold DB.Open. rewrite Hclosed, Hconnect. split; reflexivity.
Qed.

Lemma C9_witness :
  DB.HasTable "metadata" DB.__init__
  = (DB.__init__, Raises (RuntimeError
       "Cannot determine if table exists database not opened."))
  /\ DB.Close (open_file store_application_error [] (Some "winevt-rc.db")
                 (Some true))
     = (DB.__init__, Returns tt).
Proof.
  pose proof (C9_accessor_usage (world_with store_application_error)
                DB.__init__
                (open_file store_application_error [] (Some "winevt-rc.db")
                   (Some true))
                store_application_error eq_refl eq_refl)
    as (Hhas & _ & _ & _ & Hclose & _).
  split; [apply Hhas|exact Hclose].
Defined.

(** ** The reader *)

Lemma sql_equal_text stored s :
  sql_equal stored (PyStr s) = true <-> stored = PyStr s.
Proof.
  destruct stored as [|z|t]; simpl; split; try discriminate.
  - intros H. apply String.eqb_eq in H. subst. reflexivity.
  - intros [= ->]. apply String.eqb_refl.
Qed.

(** The claim C4 as stated does not hold: no row of the store has the log
    source ["log_source"], and the lookup answers the key of another
    provider.  The text is written between double quotes into the
    statement, where the engine reads the name of the column. *)
Lemma C4_counterexample :
  provider_keys store_application_error "log_source" = Some []
  /\ snd (Reader._GetEventLogProviderKey "log_source"
            (open_reader store_application_error [] None None (PyStr "wrc")))
     = Returns (PyInt 7).
Proof. split; vm_compute; reflexivity. Qed.

(** C4 (amended): for a log source that the engine reads as a string
    literal (it holds no double quote and no NUL character and is neither
    the name of a column of [event_log_providers] nor a name of the row
    identifier), the provider key lookup answers [None] when no row of
    [event_log_providers] has the log source, the stored key when one row
    has it, and raises [RuntimeError] when several rows have it. *)
Theorem C4_provider_key_lookup :
  forall db p fn ro sf log_source (stored : list PyValue),
    literal_in db "event_log_providers" log_source = true ->
    provider_keys db log_source = Some stored ->
    let outcome :=
      snd (Reader._GetEventLogProviderKey log_source
             (open_reader db p fn ro sf)) in
    (stored = [] -> outcome = Returns PyNone)
    /\ (forall key, stored = [key] -> outcome = Returns key)
    /\ ((2 <= length stored)%nat ->
        outcome = Raises (RuntimeError
                            "More than one value found in database.")).
Proof.
  intros db p fn ro sf log_source stored Hliteral Hstored outcome.
  subst outcome. rewrite _GetEventLogProviderKey_open.
  rewrite (provider_key_query_literal _ _ _ Hliteral Hstored).
  cbn [snd one_selected].
  repeat split.
  - intros ->. reflexivity.
  - intros key ->. reflexivity.
  - intros Hlen. destruct stored as [|v [|v' vs]]; simpl in Hlen; try lia.
    reflexivity.
Qed.

Lemma C4_witness :
  snd (Reader._GetEventLogProviderKey "Application Error"
         (open_reader store_ambiguous_provider [] None None (PyStr "wrc")))
  = Raises (RuntimeError "More than one value found in database.").
Proof.
  pose proof (C4_provider_key_lookup store_ambiguous_provider [] None None
                (PyStr "wrc") "Application Error" [PyInt 7; PyInt 8]
                ltac:(vm_compute; reflexivity)
                ltac:(vm_compute; reflexivity)) as (_ & _ & Hmany).
  apply Hmany. simpl. lia.
Defined.

Example provider_key_found :
  snd (Reader._GetEventLogProviderKey "Application Error"
         (open_reader store_application_error [] None None (PyStr "wrc")))
  = Returns (PyInt 7)
  /\ snd (Reader._GetEventLogProviderKey "application error"
            (open_reader store_application_error [] None None (PyStr "wrc")))
     = Returns PyNone.
Proof. split; vm_compute; reflexivity. Qed.

(** The claim C10 as stated does not hold: the provider key of the log
    source ["log_source"] is stored as the integer 0, and [GetMessage]
    raises [RuntimeError], as the condition of the statement then compares
    the column with itself and selects every provider. *)
Lemma C10_counterexample :
  provider_keys store_log_source_provider "log_source" = Some [PyInt 0]
  /\ snd (Reader.GetMessage 2 "log_source" 1033 1
            (open_reader store_log_source_provider [] None None
               (PyStr "wrc")))
     = Raises (RuntimeError "More than one value found in database.").
Proof. split; vm_compute; reflexivity. Qed.

(** C10 (amended): for a log source that the engine reads as a string
    literal, a provider key stored as the integer 0 is taken for a missing
    provider: [GetMessage] answers [None] whatever the message tables
    hold. *)
Theorem C10_provider_key_zero :
  forall fuel db p fn ro sf log_source lcid message_identifier,
    literal_in db "event_log_providers" log_source = true ->
    provider_keys db log_source = Some [PyInt 0] ->
    snd (Reader.GetMessage fuel log_source lcid message_identifier
           (open_reader db p fn ro sf))
    = Returns PyNone.
Proof.
  intros fuel db p fn ro sf log_source lcid message_identifier
    Hliteral Hkey.
  unfold Reader.GetMessage, py_bind.
  rewrite _GetEventLogProviderKey_open.
  rewrite (provider_key_query_literal _ _ _ Hliteral Hkey).
  reflexivity.
Qed.

Lemma C10_witness :
  message_of store_provider_key_zero (PyInt 3) 1033 1
  = Returns (PyStr application_error_message)
  /\ snd (Reader.GetMessage 2 "Application Error" 1033 1
            (open_reader store_provider_key_zero [] None None (PyStr "wrc")))
     = Returns PyNone.
Proof.
  split; [vm_compute; reflexivity|].
  apply (C10_provider_key_zero 2 store_provider_key_zero [] None None
           (PyStr "wrc") "Application Error" 1033 1);
    vm_compute; reflexivity.
Defined.

Lemma GetMessage_outcome fuel db p fn ro sf log_source lcid message_identifier :
  snd (Reader.GetMessage (S (S fuel)) log_source lcid message_identifier
         (open_reader db p fn ro sf))
  = resolve db sf log_source lcid message_identifier.
Proof.
  destruct (GetMessage_open fuel db p fn ro sf log_source lcid
              message_identifier) as (p' & ->).
  reflexivity.
Qed.

(** [GetMessage] returns or raises as soon as the loop may resume the
    generator twice, and a larger budget changes nothing. *)
Lemma GetMessage_total fuel db p fn ro sf log_source lcid message_identifier :
  let outcome :=
    snd (Reader.GetMessage (S (S fuel)) log_source lcid message_identifier
           (open_reader db p fn ro sf)) in
  outcome <> OutOfFuel
  /\ outcome
     = snd (Reader.GetMessage 2 log_source lcid message_identifier
              (open_reader db p fn ro sf)).
Proof.
  cbv zeta. rewrite !GetMessage_outcome.
  split; [apply resolve_returns_or_raises|reflexivity].
Qed.

(** Whatever the message files after the first hold, the answer comes from
    the first message file of the provider. *)
Lemma GetMessage_first_file_only fuel db p fn ro sf log_source lcid
    message_identifier key text first others m :
  provider_key_query db log_source = Done [key] ->
  truthy key = true ->
  format_d key = Returns text ->
  message_file_key_query db text = Done (first :: others) ->
  message_query db first lcid message_identifier = Returns m ->
  snd (Reader.GetMessage (S (S fuel)) log_source lcid message_identifier
         (open_reader db p fn ro sf))
  = finalize sf m.
Proof.
  intros Hprovider Htruthy Hformat Hfiles Hmessage.
  rewrite GetMessage_outcome. unfold resolve.
  rewrite Hprovider. cbn [one_selected one_value]. rewrite Htruthy.
  cbn [negb]. rewrite Hformat, Hfiles, Hmessage. reflexivity.
Qed.

(** The rows of the message file query that are pending when the generator
    is suspended are gone once [_GetMessage] has run its own statements on
    the cursor. *)
Example cursor_is_shared :
  let r0 := open_reader store_two_message_files [] None None (PyStr "wrc") in
  let r1 := open_reader store_two_message_files [[PyInt 4]] None None
              (PyStr "wrc") in
  Reader._GetMessageFileKeys_next (PyInt 7) DB.Created r0
  = (r1, Returns (DB.Suspended, Some (PyInt 3)))
  /\ Reader._GetMessage (PyInt 3) 1033 1 r1 = (r0, Returns PyNone)
  /\ Reader._GetMessageFileKeys_next (PyInt 7) DB.Suspended r0
     = (r0, Returns (DB.Finished, None)).
Proof. repeat split; vm_compute; reflexivity. Qed.

(** The end-to-end example of the specification: one message file. *)
Example end_to_end :
  (forall fuel p fn ro,
      snd (Reader.GetMessage (S (S fuel)) "Application Error" 1033 1
             (open_reader store_application_error p fn ro (PyStr "wrc")))
      = Returns (PyStr "Process {0:s} failed with {1:s}"))
  /\ (forall fuel p fn ro,
         snd (Reader.GetMessage (S (S fuel)) "Application Error" 1033 1
                (open_reader store_application_error p fn ro (PyStr "pep3101")))
         = Returns (PyStr application_error_message))
  /\ snd (Helper.GetMessageString (world_with store_application_error) 2
            "Application Error" 1 (Helper.__init__ (Some "/data") None))
     = Returns (PyStr "Process {0:s} failed with {1:s}").
Proof.
  split; [|split].
  - intros. rewrite GetMessage_outcome. vm_compute. reflexivity.
  - intros. rewrite GetMessage_outcome. vm_compute. reflexivity.
  - vm_compute. reflexivity.
Qed.

(** C2 (the code differs): with message files 3 and 4 for the provider and
    the message only in the table of file 4, [GetMessage] answers [None]:
    the second message file key is never tried. *)
Theorem C2_second_message_file_not_tried :
  provider_keys store_two_message_files "Application Error" = Some [PyInt 7]
  /\ message_file_keys store_two_message_files (PyInt 7)
     = Some [PyInt 3; PyInt 4]
  /\ message_of store_two_message_files (PyInt 3) 1033 1 = Returns PyNone
  /\ message_of store_two_message_files (PyInt 4) 1033 1
     = Returns (PyStr application_error_message)
  /\ (forall fuel p fn ro,
         snd (Reader.GetMessage (S (S fuel)) "Application Error" 1033 1
                (open_reader store_two_message_files p fn ro (PyStr "wrc")))
         = Returns PyNone)
  /\ snd (Helper.GetMessageString (world_with store_two_message_files) 2
            "Application Error" 1 (Helper.__init__ (Some "/data") None))
     = Returns PyNone.
Proof.
  repeat split; try (vm_compute; reflexivity).
Qed.

(** ** The helper *)

Lemma reader_available world dl lcid db p fn ro sf :
  Helper._GetWinevtRcDatabaseReader world (helper_with dl lcid db p fn ro sf)
  = (helper_with dl lcid db p fn ro sf,
     Returns (Some (open_reader db p fn ro sf))).
Proof. reflexivity. Qed.

Lemma on_reader_GetMessage fuel dl lcid db p fn ro sf log_source l
    message_identifier :
  exists p',
    Helper.on_reader
      (Reader.GetMessage (S (S fuel)) log_source l message_identifier)
      (helper_with dl lcid db p fn ro sf)
    = (helper_with dl lcid db p' fn ro sf,
       resolve db sf log_source l message_identifier).
Proof.
  destruct (GetMessage_open fuel db p fn ro sf log_source l
              message_identifier) as (p' & Heq).
  exists p'. unfold Helper.on_reader, helper_with.
  cbn [Helper._winevt_database_reader]. rewrite Heq. reflexivity.
Qed.



Example language_fallback :
  snd (Helper.GetMessageString (world_with store_application_error) 2
         "Application Error" 1 (Helper.__init__ (Some "/data") (Some 1031)))
  = Returns (PyStr "Process {0:s} failed with {1:s}").
Proof. vm_compute. reflexivity. Qed.

(** ** Opening the reader *)

Lemma PyValue_eqb_eq a b : PyValue_eqb a b = true <-> a = b.
Proof.
  destruct a as [|x|x], b as [|y|y]; simpl; split;
    try discriminate; try reflexivity.
  - intros H. apply Z.eqb_eq in H. subst. reflexivity.
  - intros [= ->]. apply Z.eqb_refl.
  - intros H. apply String.eqb_eq in H. subst. reflexivity.
  - intros [= ->]. apply String.eqb_refl.
Qed.

Lemma PyValue_eqb_neq a b : a <> b -> PyValue_eqb a b = false.
Proof.
  intros Hne. destruct (PyValue_eqb a b) eqn:Heq; [|reflexivity].
  apply PyValue_eqb_eq in Heq. contradiction.
Qed.

(** [Open] of the reader on a file that [sqlite3.connect] opens. *)
Lemma Reader_Open_connected world filename db self :
  sqlite3_connect world filename = Some db ->
  DB._connection (Reader._database_file self) = None ->
  Reader.Open world filename self
  = match open_outcome db with
    | Returns string_format =>
        (open_reader db [] (Some filename) (Some true) string_format,
         Returns true)
    | Raises e =>
        (open_reader db [] (Some filename) (Some true)
           (Reader._string_format self), Raises e)
    | OutOfFuel =>
        (open_reader db [] (Some filename) (Some true)
           (Reader._string_format self), OutOfFuel)
    | Unspecified =>
        (open_reader db [] (Some filename) (Some true)
           (Reader._string_format self), Unspecified)
    end.
Proof.
  intros Hconnect Hclosed.
  unfold Reader.Open, open_outcome. unfold py_bind at 1.
  unfold Reader.on_database_file, DB.Open. rewrite Hclosed, Hconnect.
  cbn [negb DB.filename DB.read_only].
  fold (open_file db [] (Some filename) (Some true)).
  fold (open_reader db [] (Some filename) (Some true)
          (Reader._string_format self)).
  unfold py_bind at 1. rewrite GetMetadataAttribute_open.
  destruct (metadata_attribute db "version") as [version|e| |];
    [|reflexivity|reflexivity|reflexivity].
  destruct (negb (truthy version)
            || negb (PyValue_eqb version (PyStr "20150315"))).
  - unfold py_bind, py_lift. destruct (format_s version); reflexivity.
  - unfold py_bind at 1. rewrite GetMetadataAttribute_open.
    destruct (metadata_attribute db "string_format") as [string_format|e| |];
      [|reflexivity|reflexivity|reflexivity].
    destruct (negb (PyValue_eqb _ (PyStr "pep3101") || PyValue_eqb _ (PyStr "wrc"))).
    + unfold py_bind, py_lift. destruct (format_s _); reflexivity.
    + reflexivity.
Qed.

Lemma format_s_returns_or_raises v : format_s v <> OutOfFuel.
Proof. destruct v; discriminate. Qed.

(** The claim C3 as stated does not hold: an empty [string_format]
    attribute is present and is neither ['pep3101'] nor ['wrc'], and [Open]
    succeeds, with the ['wrc'] format. *)
Lemma C3_counterexample :
  lookup store_empty_string_format "metadata" "name" (PyStr "string_format")
    "value" = Some [PyStr ""]
  /\ PyStr "" <> PyStr "pep3101" /\ PyStr "" <> PyStr "wrc"
  /\ Reader.Open (world_with store_empty_string_format) "winevt-rc.db"
       Reader.__init__
     = (open_reader store_empty_string_format [] (Some "winevt-rc.db")
          (Some true) (PyStr "wrc"), Returns true).
Proof.
  split; [vm_compute; reflexivity|].
  split; [discriminate|]. split; [discriminate|].
  vm_compute. reflexivity.
Qed.

(** C3 (amended): a store whose [version] attribute is absent or differs
    from ['20150315'] makes [Open] raise; with the supported version, a
    [string_format] attribute that is present, not empty and neither
    ['pep3101'] nor ['wrc'] makes [Open] raise, an absent or empty one makes
    [Open] succeed with the ['wrc'] format, and one of the two supported
    values is retained. *)
Theorem C3_open_compatibility :
  forall world filename db self,
    sqlite3_connect world filename = Some db ->
    DB._connection (Reader._database_file self) = None ->
    let opened := Reader.Open world filename self in
    (forall version,
        metadata_attribute db "version" = Returns version ->
        version <> PyStr "20150315" ->
        exists e, snd opened = Raises e)
    /\ (metadata_attribute db "version" = Returns (PyStr "20150315") ->
        forall string_format,
          metadata_attribute db "string_format" = Returns string_format ->
          (truthy string_format = true ->
           string_format <> PyStr "pep3101" ->
           string_format <> PyStr "wrc" ->
           exists e, snd opened = Raises e)
          /\ (truthy string_format = false ->
              snd opened = Returns true
              /\ Reader._string_format (fst opened) = PyStr "wrc")
          /\ (string_format = PyStr "pep3101" \/ string_format = PyStr "wrc" ->
              snd opened = Returns true
              /\ Reader._string_format (fst opened) = string_format)).
Proof.
  intros world filename db self Hconnect Hclosed opened. subst opened.
  rewrite (Reader_Open_connected _ _ _ _ Hconnect Hclosed).
  unfold open_outcome. split.
  - intros version -> Hversion.
    rewrite (PyValue_eqb_neq _ _ Hversion), orb_true_r.
    destruct (format_s version) as [text|e| |] eqn:Hformat.
    + eexists. reflexivity.
    + eexists. reflexivity.
    + destruct (format_s_returns_or_raises _ Hformat).
    + destruct version; discriminate Hformat.
  - intros -> string_format ->. cbn [truthy PyValue_eqb negb orb].
    rewrite String.eqb_refl. cbn [negb orb String.eqb Ascii.eqb].
    split; [|split].
    + intros Htruthy Hpep Hwrc. rewrite Htruthy. cbn [negb].
      rewrite (PyValue_eqb_neq _ _ Hpep), (PyValue_eqb_neq _ _ Hwrc).
      cbn [negb orb].
      destruct (format_s string_format) as [text|e| |] eqn:Hformat.
      * eexists. reflexivity.
      * eexists. reflexivity.
      * destruct (format_s_returns_or_raises _ Hformat).
      * destruct string_format; discriminate Hformat.
    + intros Htruthy. rewrite Htruthy. split; reflexivity.
    + intros [-> | ->]; split; reflexivity.
Qed.

Lemma C3_witness :
  (exists e,
      snd (Reader.Open (world_with store_version_20140101) "winevt-rc.db"
             Reader.__init__) = Raises e)
  /\ (exists e,
         snd (Reader.Open (world_with store_printf_string_format)
                "winevt-rc.db" Reader.__init__) = Raises e)
  /\ snd (Reader.Open (world_with store_application_error) "winevt-rc.db"
            Reader.__init__) = Returns true.
Proof.
  split; [|split].
  - pose proof (C3_open_compatibility (world_with store_version_20140101)
                  "winevt-rc.db" store_version_20140101 Reader.__init__
                  eq_refl eq_refl) as [Hversion _].
    apply (Hversion (PyStr "20140101")); [vm_compute; reflexivity|discriminate].
  - pose proof (C3_open_compatibility (world_with store_printf_string_format)
                  "winevt-rc.db" store_printf_string_format Reader.__init__
                  eq_refl eq_refl) as [_ Hformat].
    destruct (Hformat ltac:(vm_compute; reflexivity) (PyStr "printf")
                ltac:(vm_compute; reflexivity)) as (Hunknown & _ & _).
    apply Hunknown; [reflexivity|discriminate|discriminate].
  - pose proof (C3_open_compatibility (world_with store_application_error)
                  "winevt-rc.db" store_application_error Reader.__init__
                  eq_refl eq_refl) as [_ Hformat].
    destruct (Hformat ltac:(vm_compute; reflexivity) PyNone
                ltac:(vm_compute; reflexivity)) as (_ & Habsent & _).
    apply Habsent. reflexivity.
Defined.

Example open_version_20140101 :
  snd (Reader.Open (world_with store_version_20140101) "winevt-rc.db"
         Reader.__init__)
  = Raises (RuntimeError "Unsupported version: 20140101").
Proof. vm_compute. reflexivity. Qed.

Example open_without_metadata :
  snd (Reader.Open (world_with (delete "metadata" store_application_error))
         "winevt-rc.db" Reader.__init__)
  = Raises TypeError.
Proof. vm_compute. reflexivity. Qed.

Example open_unknown_string_format :
  snd (Reader.Open (world_with store_printf_string_format) "winevt-rc.db"
         Reader.__init__)
  = Raises (RuntimeError "Unsupported string format: printf").
Proof. vm_compute. reflexivity. Qed.

(** An [Open] of the accessor that fails is a soft miss of the reader. *)
Example open_soft_miss world filename self :
  sqlite3_connect world filename = None ->
  DB._connection (Reader._database_file self) = None ->
  snd (Reader.Open world filename self) = Returns false.
Proof.
  intros Hconnect Hclosed. unfold Reader.Open, py_bind at 1.
  unfold Reader.on_database_file, DB.Open. rewrite Hclosed, Hconnect.
  reflexivity.
Qed.

(** ** Acquiring the reader *)

(** The claim C1 as stated does not hold: the exception raised by [Open]
    reaches the caller of [GetMessageString], and the next call is answered
    from the store that was refused. *)
Lemma C1_counterexample :
  let world := world_with store_version_20140101 in
  let helper := Helper.__init__ (Some "/data") None in
  let first := Helper.GetMessageString world 2 "Application Error" 1 helper in
  snd first = Raises (RuntimeError "Unsupported version: 20140101")
  /\ snd (Helper.GetMessageString world 2 "Application Error" 1 (fst first))
     = Returns (PyStr "Process {0:s} failed with {1:s}").
Proof. split; vm_compute; reflexivity. Qed.

(** C1 (amended): when the store file exists and [Open] of the reader
    raises, the first call of [GetMessageString] raises the same exception;
    the helper keeps the reader it created and does not open it again. *)
Theorem C1_open_error_propagates :
  forall world fuel data_location lcid log_source message_identifier reader e,
    data_location <> "" ->
    let database_path :=
      os_path_join data_location Helper._WINEVT_RC_DATABASE in
    os_path_isfile world database_path = true ->
    Reader.Open world database_path Reader.__init__ = (reader, Raises e) ->
    let helper := Helper.__init__ (Some data_location) lcid in
    let helper' := Helper.set_reader helper (Some reader) in
    Helper.GetMessageString world fuel log_source message_identifier helper
    = (helper', Raises e)
    /\ Helper._GetWinevtRcDatabaseReader world helper'
       = (helper', Returns (Some reader)).
Proof.
  intros world fuel data_location lcid log_source message_identifier reader e
    Hlocation database_path Hisfile Hopen helper helper'.
  split; [|reflexivity].
  unfold Helper.GetMessageString, py_bind, Helper._GetWinevtRcDatabaseReader.
  subst helper helper'. cbn [Helper.__init__ Helper._winevt_database_reader
                              Helper._data_location].
  apply String.eqb_neq in Hlocation. rewrite Hlocation.
  fold database_path. rewrite Hisfile. cbn [negb].
  unfold Helper.on_reader, Helper.set_reader.
  cbn [Helper._winevt_database_reader Helper._data_location Helper._lcid].
  rewrite Hopen. reflexivity.
Qed.

Lemma C1_witness :
  snd (Helper.GetMessageString (world_with store_version_20140101) 2
         "Application Error" 1 (Helper.__init__ (Some "/data") None))
  = Raises (RuntimeError "Unsupported version: 20140101").
Proof.
  pose proof (C1_open_error_propagates (world_with store_version_20140101) 2
                "/data" None "Application Error" 1
                (open_reader store_version_20140101 [] (Some "/data/winevt-rc.db")
                   (Some true) (PyStr "wrc"))
                (RuntimeError "Unsupported version: 20140101")
                ltac:(discriminate) eq_refl
                ltac:(vm_compute; reflexivity)) as [Hfirst _].
  rewrite Hfirst. reflexivity.
Defined.

(** * Further properties *)

(** ** Reformatting: plain text, line breaks, format strings *)

Lemma all_chars_cons test c s :
  all_chars test (String c s) = test c && all_chars test s.
Proof. reflexivity. Qed.

Lemma all_chars_append test s t :
  all_chars test (s +:+ t) = all_chars test s && all_chars test t.
Proof.
  induction s as [|c s IH]; [reflexivity|].
  rewrite append_cons, !all_chars_cons, IH, andb_assoc. reflexivity.
Qed.

Lemma char_in_cons a set c :
  Reader.char_in (a :: set) c = Ascii.eqb c a || Reader.char_in set c.
Proof. reflexivity. Qed.

Lemma plain_char_spec c :
  plain_char c = true ->
  Ascii.eqb c Reader.percent = false
  /\ curly_bracket c = false /\ line_break c = false.
Proof.
  unfold plain_char, curly_bracket, line_break.
  rewrite !char_in_cons. unfold Reader.char_in. cbn [existsb].
  destruct (Ascii.eqb c Reader.percent), (Ascii.eqb c "{"),
    (Ascii.eqb c "}"), (Ascii.eqb c Reader.CR), (Ascii.eqb c Reader.LF);
    cbn; intros H; try discriminate H; auto.
Qed.

(** A substitution whose pattern matches nowhere copies its input. *)
Lemma sub_no_match pattern repl (test : ascii -> bool) :
  (forall c r, test c = true -> pattern (String c r) = None) ->
  forall s, all_chars test s = true -> sub pattern repl s = s.
Proof.
  intros Hnone s. unfold sub.
  induction s as [|c s IH]; intros Hall; [reflexivity|].
  rewrite all_chars_cons in Hall. apply andb_prop in Hall as [Hc Hs].
  cbn [sub_from]. rewrite (Hnone c s Hc), (IH Hs). reflexivity.
Qed.

Lemma white_space_plain c r :
  plain_char c = true -> Reader._WHITE_SPACE_SPECIFIER_RE (String c r) = None.
Proof.
  intros H. apply plain_char_spec in H as (Hp & _ & Hl).
  unfold Reader._WHITE_SPACE_SPECIFIER_RE. rewrite Hp.
  unfold line_break in Hl. rewrite Hl. reflexivity.
Qed.

Lemma text_specifier_plain c r :
  plain_char c = true -> Reader._TEXT_SPECIFIER_RE (String c r) = None.
Proof.
  intros H. apply plain_char_spec in H as (Hp & _ & _).
  unfold Reader._TEXT_SPECIFIER_RE. rewrite Hp. destruct r; reflexivity.
Qed.

Lemma curly_brackets_plain c r :
  plain_char c = true -> Reader._CURLY_BRACKETS (String c r) = None.
Proof.
  intros H. apply plain_char_spec in H as (_ & Hb & _).
  unfold Reader._CURLY_BRACKETS. unfold curly_bracket in Hb. rewrite Hb.
  reflexivity.
Qed.

Lemma place_holder_plain c r :
  plain_char c = true -> Reader._PLACE_HOLDER_SPECIFIER_RE (String c r) = None.
Proof.
  intros H. apply plain_char_spec in H as (Hp & _ & _).
  unfold Reader._PLACE_HOLDER_SPECIFIER_RE. rewrite Hp. destruct r; reflexivity.
Qed.

(** X1: a message string without percent sign, curly bracket, carriage
    return or line feed is returned as it is. *)
Theorem X1_plain_text_unchanged :
  forall c s,
    all_chars plain_char (String c s) = true ->
    Reader._ReformatMessageString (PyStr (String c s))
    = Returns (PyStr (String c s)).
Proof.
  intros c s Hplain.
  unfold Reader._ReformatMessageString. cbn [truthy String.eqb negb].
  unfold Reader.sub_white_space, Reader.sub_text_specifier,
    Reader.sub_curly_brackets, Reader.sub_place_holder.
  rewrite (sub_no_match _ _ plain_char white_space_plain _ Hplain).
  rewrite (sub_no_match _ _ plain_char text_specifier_plain _ Hplain).
  rewrite (sub_no_match _ _ plain_char curly_brackets_plain _ Hplain).
  rewrite (sub_no_match _ _ plain_char place_holder_plain _ Hplain).
  reflexivity.
Qed.

Lemma X1_witness :
  Reader._ReformatMessageString (PyStr "The service entered the running state.")
  = Returns (PyStr "The service entered the running state.").
Proof.
  apply (X1_plain_text_unchanged "T" "he service entered the running state.").
  vm_compute. reflexivity.
Defined.

Lemma all_chars_impl (test test' : ascii -> bool) s :
  (forall c, test c = true -> test' c = true) ->
  all_chars test s = true -> all_chars test' s = true.
Proof.
  intros Himpl. induction s as [|c s IH]; [reflexivity|].
  rewrite !all_chars_cons. intros H. apply andb_prop in H as [Hc Hs].
  rewrite (Himpl c Hc), (IH Hs). reflexivity.
Qed.

(** The characters of a substitution result come from the input or from a
    replacement. *)
Lemma sub_from_all_chars pattern repl test :
  (forall s m, pattern s = Some m -> all_chars test s = true ->
               all_chars test (repl m) = true) ->
  forall s k, all_chars test s = true ->
              all_chars test (sub_from pattern repl k s) = true.
Proof.
  intros Hrepl s. induction s as [|c s IH]; intros k Hall; [reflexivity|].
  pose proof Hall as Hcs. rewrite all_chars_cons in Hcs.
  apply andb_prop in Hcs as [Hc Hs].
  destruct k as [|k]; cbn [sub_from]; [|apply IH; exact Hs].
  destruct (pattern (String c s)) as [m|] eqn:Hm.
  - rewrite all_chars_append, (Hrepl _ _ Hm Hall), (IH _ Hs). reflexivity.
  - rewrite all_chars_cons, Hc, (IH _ Hs). reflexivity.
Qed.

Lemma pretty_N_char_decimal d : decimal_char (pretty_N_char d) = true.
Proof. unfold pretty_N_char. repeat case_match; reflexivity. Qed.

Lemma pretty_N_go_decimal x :
  forall s, all_chars decimal_char s = true ->
            all_chars decimal_char (pretty_N_go x s) = true.
Proof.
  induction (N.lt_wf_0 x) as [x _ IH]. intros s Hs.
  destruct (decide (0 < x)%N) as [Hpos|Hzero].
  - rewrite pretty_N_go_step by exact Hpos. apply IH.
    + apply N.div_lt; [exact Hpos|reflexivity].
    + rewrite all_chars_cons, pretty_N_char_decimal, Hs. reflexivity.
  - assert (x = 0%N) as -> by lia. rewrite pretty_N_go_0. exact Hs.
Qed.

Lemma pretty_N_decimal (x : N) : all_chars decimal_char (pretty x) = true.
Proof.
  unfold pretty, pretty_N. destruct (decide (x = 0%N)); [reflexivity|].
  apply pretty_N_go_decimal. reflexivity.
Qed.

(** The decimal text of an integer consists of digits and a minus sign. *)
Lemma pretty_Z_decimal (z : Z) : all_chars decimal_char (pretty z) = true.
Proof.
  destruct z as [|p|p]; [reflexivity| |].
  - exact (pretty_N_decimal (Npos p)).
  - change (pretty (Zneg p)) with ("-" +:+ pretty (Npos p)).
    rewrite all_chars_append, (pretty_N_decimal (Npos p)). reflexivity.
Qed.

Lemma decimal_no_line_break c :
  decimal_char c = true -> no_line_break c = true.
Proof.
  unfold decimal_char, no_line_break, line_break.
  rewrite !char_in_cons. unfold Reader.char_in. cbn [existsb].
  destruct (Ascii.eqb_spec c Reader.CR) as [->|_]; [discriminate|].
  destruct (Ascii.eqb_spec c Reader.LF) as [->|_]; [discriminate|].
  reflexivity.
Qed.

Lemma white_space_no_line_break s :
  forall k, all_chars no_line_break
              (sub_from Reader._WHITE_SPACE_SPECIFIER_RE (fun _ => "") k s)
            = true.
Proof.
  induction s as [|c s IH]; intros k; [reflexivity|].
  destruct k as [|k]; cbn [sub_from]; [|apply IH].
  destruct (Reader._WHITE_SPACE_SPECIFIER_RE (String c s)) as [m|] eqn:Hm.
  - rewrite append_nil_l. apply IH.
  - rewrite all_chars_cons, IH, andb_true_r.
    unfold Reader._WHITE_SPACE_SPECIFIER_RE in Hm.
    unfold no_line_break, line_break.
    destruct (Ascii.eqb_spec c Reader.percent) as [->|_]; [reflexivity|].
    destruct (Reader.char_in [Reader.CR; Reader.LF] c);
      [discriminate Hm|reflexivity].
Qed.

Lemma text_specifier_no_line_break s m :
  Reader._TEXT_SPECIFIER_RE s = Some m ->
  all_chars no_line_break s = true ->
  all_chars no_line_break (String Reader.backslash (Reader.group1 m)) = true.
Proof.
  destruct s as [|c [|d r]]; try discriminate.
  unfold Reader._TEXT_SPECIFIER_RE.
  destruct (_ && _); [|discriminate]. intros [= <-].
  rewrite !all_chars_cons. intros H.
  apply andb_prop in H as [_ H]. apply andb_prop in H as [Hd _].
  cbn [Reader.group1 groups nth]. rewrite !all_chars_cons, Hd. reflexivity.
Qed.

Lemma curly_brackets_no_line_break s m :
  Reader._CURLY_BRACKETS s = Some m ->
  all_chars no_line_break s = true ->
  all_chars no_line_break (Reader.group1 m +:+ Reader.group1 m) = true.
Proof.
  destruct s as [|c r]; try discriminate.
  unfold Reader._CURLY_BRACKETS.
  destruct (Reader.char_in _ c); [|discriminate]. intros [= <-].
  rewrite all_chars_cons. intros H. apply andb_prop in H as [Hc _].
  cbn [Reader.group1 groups nth].
  rewrite append_cons, append_nil_l, !all_chars_cons, Hc. reflexivity.
Qed.

Lemma place_holder_group s m :
  Reader._PLACE_HOLDER_SPECIFIER_RE s = Some m ->
  exists d1 d2 r,
    s = String Reader.percent (String d1 r)
    /\ groups m = [String d1 d2]
    /\ Reader.is_1_9 d1 = true
    /\ (d2 = "" \/ exists c r', d2 = String c "" /\ r = String c r'
                                /\ Reader.is_digit c = true).
Proof.
  destruct s as [|c [|d1 s1]]; try discriminate.
  unfold Reader._PLACE_HOLDER_SPECIFIER_RE.
  destruct (Ascii.eqb_spec c Reader.percent) as [->|_]; [|discriminate].
  destruct (Reader.is_1_9 d1) eqn:Hd1; [|discriminate]. cbn [andb].
  assert (Hd2 : fst (Reader.optional Reader.is_digit s1) = ""
                \/ exists c r', fst (Reader.optional Reader.is_digit s1)
                                = String c ""
                                /\ s1 = String c r'
                                /\ Reader.is_digit c = true).
  { destruct s1 as [|c r']; [left; reflexivity|]. simpl.
    destruct (Reader.is_digit c) eqn:Hc; [right; eauto|left; reflexivity]. }
  destruct (Reader.optional Reader.is_digit s1) as [d2 s2].
  destruct (Reader.optional (Ascii.eqb "!") s2) as [b1 s3].
  destruct (Reader.optional (Ascii.eqb "s") s3) as [t s4].
  destruct (Reader.optional (Ascii.eqb "!") s4) as [b2 s5].
  intros [= <-]. exists d1, d2, s1. cbn [groups fst] in *. auto.
Qed.

Lemma replacer_no_line_break s m :
  Reader._PLACE_HOLDER_SPECIFIER_RE s = Some m ->
  all_chars no_line_break s = true ->
  all_chars no_line_break (Reader._PlaceHolderSpecifierReplacer m) = true.
Proof.
  intros Hm Hs.
  destruct (place_holder_group s m Hm) as (d1 & d2 & r & -> & Hg & _ & Hd2).
  unfold Reader._PlaceHolderSpecifierReplacer. rewrite Hg.
  cbn [map String.concat].
  destruct (Reader.int_base10 (String d1 d2)) as [number|].
  - rewrite !all_chars_append.
    rewrite (all_chars_impl _ _ _ decimal_no_line_break
               (pretty_Z_decimal (number - 1))).
    reflexivity.
  - rewrite !all_chars_cons in Hs.
    apply andb_prop in Hs as [_ Hs]. apply andb_prop in Hs as [Hd1 Hr].
    destruct Hd2 as [->|(c & r' & -> & -> & _)].
    + rewrite !all_chars_cons, Hd1. reflexivity.
    + rewrite all_chars_cons in Hr. apply andb_prop in Hr as [Hc _].
      rewrite !all_chars_cons, Hd1, Hc. reflexivity.
Qed.

(** X2: a reformatted message string holds no carriage return and no line
    feed, whatever the stored message string is. *)
Theorem X2_no_line_break :
  forall c s,
  exists reformatted,
    Reader._ReformatMessageString (PyStr (String c s))
    = Returns (PyStr reformatted)
    /\ all_chars no_line_break reformatted = true.
Proof.
  intros c s. eexists. split; [reflexivity|].
  unfold Reader.sub_place_holder, Reader.sub_curly_brackets,
    Reader.sub_text_specifier, Reader.sub_white_space, sub.
  apply sub_from_all_chars; [exact replacer_no_line_break|].
  apply sub_from_all_chars; [exact curly_brackets_no_line_break|].
  apply sub_from_all_chars; [exact text_specifier_no_line_break|].
  apply white_space_no_line_break.
Qed.

Lemma curly_brackets_doubled s : doubled (Reader.sub_curly_brackets s).
Proof.
  unfold Reader.sub_curly_brackets, sub.
  induction s as [|c s IH]; [constructor|].
  cbn [sub_from]. unfold Reader._CURLY_BRACKETS.
  destruct (Reader.char_in ["{"%char; "}"%char] c) eqn:Hc.
  - cbn [Reader.group1 groups nth span Nat.pred].
    rewrite !append_cons, !append_nil_l.
    apply doubled_bracket; [exact Hc|exact IH].
  - apply doubled_char; [exact Hc|exact IH].
Qed.

Lemma doubled_after_plain consumed rest :
  all_chars (fun c => negb (curly_bracket c)) consumed = true ->
  doubled (consumed +:+ rest) -> doubled rest.
Proof.
  induction consumed as [|a cs IH]; intros Hplain Hd; [exact Hd|].
  rewrite all_chars_cons in Hplain. apply andb_prop in Hplain as [Ha Hcs].
  rewrite append_cons in Hd. inversion Hd as [|c s Hc Hs|c s Hc Hs]; subst.
  - apply IH; assumption.
  - rewrite Hc in Ha. discriminate Ha.
Qed.

Lemma optional_class class s :
  all_chars class (fst (Reader.optional class s)) = true.
Proof.
  destruct s as [|c r]; [reflexivity|]. simpl.
  destruct (class c) eqn:Hc; [|reflexivity].
  cbn [fst]. rewrite all_chars_cons, Hc. reflexivity.
Qed.

Lemma is_digit_no_bracket c :
  Reader.is_digit c = true -> negb (curly_bracket c) = true.
Proof.
  intros H. unfold curly_bracket. rewrite !char_in_cons.
  unfold Reader.char_in. cbn [existsb].
  destruct (Ascii.eqb_spec c "{") as [->|_]; [discriminate H|].
  destruct (Ascii.eqb_spec c "}") as [->|_]; [discriminate H|].
  reflexivity.
Qed.

Lemma is_1_9_is_digit c : Reader.is_1_9 c = true -> Reader.is_digit c = true.
Proof.
  unfold Reader.is_1_9, Reader.is_digit, Reader.in_range. intros H.
  apply andb_prop in H as [Hlo Hhi]. apply N.leb_le in Hlo.
  rewrite Hhi, andb_true_r. apply N.leb_le. lia.
Qed.

Lemma eqb_char_no_bracket (a : ascii) :
  curly_bracket a = false ->
  forall c, Ascii.eqb a c = true -> negb (curly_bracket c) = true.
Proof. intros Ha c Heq. apply Ascii.eqb_eq in Heq. subst. rewrite Ha. reflexivity. Qed.

(** The text a place holder specifier spans holds no curly bracket. *)
Lemma place_holder_consumed s m :
  Reader._PLACE_HOLDER_SPECIFIER_RE s = Some m ->
  exists c consumed rest,
    s = String c (consumed +:+ rest)
    /\ String.length consumed = Nat.pred (span m)
    /\ all_chars (fun c => negb (curly_bracket c)) (String c consumed) = true.
Proof.
  destruct s as [|c [|d1 s1]]; try discriminate.
  unfold Reader._PLACE_HOLDER_SPECIFIER_RE.
  destruct (Ascii.eqb_spec c Reader.percent) as [->|_]; [|discriminate].
  destruct (Reader.is_1_9 d1) eqn:Hd1; [|discriminate]. cbn [andb].
  pose proof (optional_split Reader.is_digit s1) as E1.
  pose proof (optional_class Reader.is_digit s1) as C1.
  destruct (Reader.optional Reader.is_digit s1) as [d2 s2].
  pose proof (optional_split (Ascii.eqb "!") s2) as E2.
  pose proof (optional_class (Ascii.eqb "!") s2) as C2.
  destruct (Reader.optional (Ascii.eqb "!") s2) as [b1 s3].
  pose proof (optional_split (Ascii.eqb "s") s3) as E3.
  pose proof (optional_class (Ascii.eqb "s") s3) as C3.
  destruct (Reader.optional (Ascii.eqb "s") s3) as [t s4].
  pose proof (optional_split (Ascii.eqb "!") s4) as E4.
  pose proof (optional_class (Ascii.eqb "!") s4) as C4.
  destruct (Reader.optional (Ascii.eqb "!") s4) as [b2 s5].
  cbn [fst snd] in *. intros [= <-]. cbn [span].
  exists Reader.percent, (String d1 (d2 +:+ b1 +:+ t +:+ b2)), s5.
  split; [|split].
  - rewrite append_cons, !append_assoc, <- E4, <- E3, <- E2, <- E1.
    reflexivity.
  - cbn [String.length]. rewrite !length_append. simpl. lia.
  - rewrite !all_chars_cons, !all_chars_append.
    rewrite (is_digit_no_bracket d1 (is_1_9_is_digit d1 Hd1)).
    rewrite (all_chars_impl _ _ _ is_digit_no_bracket C1).
    rewrite (all_chars_impl _ _ _ (eqb_char_no_bracket "!" eq_refl) C2).
    rewrite (all_chars_impl _ _ _ (eqb_char_no_bracket "s" eq_refl) C3).
    rewrite (all_chars_impl _ _ _ (eqb_char_no_bracket "!" eq_refl) C4).
    reflexivity.
Qed.

Lemma digit_value c :
  Reader.is_digit c = true -> 0 <= Z.of_N (N_of_ascii c) - 48 <= 9.
Proof.
  unfold Reader.is_digit, Reader.in_range. intros H.
  apply andb_prop in H as [Hlo Hhi].
  apply N.leb_le in Hlo. apply N.leb_le in Hhi. lia.
Qed.

(** The number a place holder specifier captures is read back by [int] and
    lies between 1 and 99. *)
Lemma place_holder_number s m :
  Reader._PLACE_HOLDER_SPECIFIER_RE s = Some m ->
  exists number,
    1 <= number <= 99
    /\ Reader._PlaceHolderSpecifierReplacer m
       = "{" +:+ pretty (number - 1) +:+ ":s}".
Proof.
  intros Hm.
  destruct (place_holder_group s m Hm) as (d1 & d2 & r & _ & Hg & Hd1 & Hd2).
  pose proof (is_1_9_is_digit d1 Hd1) as Hdigit.
  assert (H1 : 1 <= Z.of_N (N_of_ascii d1) - 48 <= 9).
  { unfold Reader.is_1_9, Reader.in_range in Hd1.
    apply andb_prop in Hd1 as [Hlo Hhi].
    apply N.leb_le in Hlo. apply N.leb_le in Hhi. lia. }
  destruct Hd2 as [->|(c & r' & -> & _ & Hc)].
  - exists (Z.of_N (N_of_ascii d1) - 48). split; [lia|].
    apply (replacer_one_group (String d1 "") _ m Hg).
    unfold Reader.int_base10, Reader.int_digits. rewrite Hdigit.
    f_equal; lia.
  - pose proof (digit_value c Hc) as H2.
    exists (10 * (Z.of_N (N_of_ascii d1) - 48) + (Z.of_N (N_of_ascii c) - 48)).
    split; [lia|].
    apply (replacer_one_group (String d1 (String c "")) _ m Hg).
    unfold Reader.int_base10, Reader.int_digits. rewrite Hdigit, Hc.
    f_equal; lia.
Qed.

Lemma place_holder_on_doubled s :
  forall skipped rest,
    s = skipped +:+ rest ->
    doubled rest ->
    pep3101 (sub_from Reader._PLACE_HOLDER_SPECIFIER_RE
               Reader._PlaceHolderSpecifierReplacer
               (String.length skipped) s).
Proof.
  induction s as [|c r IH]; intros skipped rest Hs Hd; [constructor|].
  destruct skipped as [|c' skipped].
  - rewrite append_nil_l in Hs. subst rest. cbn [String.length sub_from].
    destruct (Reader._PLACE_HOLDER_SPECIFIER_RE (String c r)) as [m|] eqn:Hm.
    + destruct (place_holder_number _ _ Hm) as (number & Hn & ->).
      destruct (place_holder_consumed _ _ Hm)
        as (c0 & consumed & rest & Heq & Hlen & Hplain).
      injection Heq as <- ->. rewrite <- Hlen.
      rewrite !append_assoc. apply pep3101_field; [lia|].
      apply (IH consumed rest eq_refl).
      apply (doubled_after_plain (String c consumed)); [exact Hplain|].
      exact Hd.
    + inversion Hd as [|c0 s0 Hc Hs0|c0 s0 Hc Hs0]; subst.
      * apply pep3101_char; [exact Hc|].
        apply (IH "" r eq_refl Hs0).
      * assert (Hnone : Reader._PLACE_HOLDER_SPECIFIER_RE (String c s0) = None).
        { unfold Reader._PLACE_HOLDER_SPECIFIER_RE.
          destruct (Ascii.eqb_spec c Reader.percent) as [->|_];
            [discriminate Hc|]. destruct s0; reflexivity. }
        cbn [sub_from]. rewrite Hnone.
        apply pep3101_escape; [exact Hc|].
        exact (IH (String c "") s0 eq_refl Hs0).
  - rewrite append_cons in Hs. injection Hs as <- ->.
    cbn [String.length sub_from]. apply (IH skipped rest eq_refl Hd).
Qed.

(** X3: a reformatted message string is a format string of [str.format]:
    outside the fields [{n:s}], with n from 0 to 98, that replace the place
    holders, every curly bracket is doubled. *)
Theorem X3_reformatted_is_format_string :
  forall c s,
  exists reformatted,
    Reader._ReformatMessageString (PyStr (String c s))
    = Returns (PyStr reformatted)
    /\ pep3101 reformatted.
Proof.
  intros c s. eexists. split; [reflexivity|].
  unfold Reader.sub_place_holder, sub.
  apply (place_holder_on_doubled _ "" _ eq_refl).
  apply curly_brackets_doubled.
Qed.

(** ** The names of the message tables *)

Lemma hex_char_digit d :
  (d < 16)%N ->
  hex_digit_char (hex_char d) = true /\ hex_digit_value (hex_char d) = d.
Proof.
  intros Hd.
  assert (Hcases : In d [0; 1; 2; 3; 4; 5; 6; 7; 8; 9; 10; 11; 12; 13; 14; 15]%N).
  { replace d with (N.of_nat (N.to_nat d)) by lia.
    change [0; 1; 2; 3; 4; 5; 6; 7; 8; 9; 10; 11; 12; 13; 14; 15]%N
      with (map N.of_nat (seq 0 16)).
    apply in_map, in_seq. lia. }
  simpl in Hcases.
  repeat (destruct Hcases as [<-|Hcases]; [split; reflexivity|]).
  contradiction.
Qed.

Lemma hex_value_from_append a s t :
  hex_value_from a (s +:+ t) = hex_value_from (hex_value_from a s) t.
Proof.
  revert a. induction s as [|c s IH]; intros a; [reflexivity|].
  rewrite append_cons. cbn [hex_value_from]. apply IH.
Qed.

(** The digits [hex_pos] puts in front of [acc] stand for the number. *)
Lemma hex_pos_digits fuel :
  forall n acc,
    (n < 2 ^ N.of_nat fuel)%N ->
    exists digits,
      hex_pos fuel n acc = digits +:+ acc
      /\ hex_value digits = n
      /\ all_chars hex_digit_char digits = true
      /\ forall k, (n < 16 ^ N.of_nat k)%N -> (String.length digits <= k)%nat.
Proof.
  induction fuel as [|fuel IH]; intros n acc Hn.
  - assert (n = 0%N) as -> by (simpl in Hn; lia).
    exists "". repeat split. intros k _. simpl. lia.
  - cbn [hex_pos]. destruct (N.eqb_spec n 0) as [->|Hne].
    + exists "". repeat split. intros k _. simpl. lia.
    + assert (Hdiv : (n / 16 < 2 ^ N.of_nat fuel)%N).
      { apply N.Div0.div_lt_upper_bound.
        rewrite Nat2N.inj_succ, N.pow_succ_r' in Hn. lia. }
      destruct (IH (n / 16)%N (String (hex_char (n mod 16)) acc) Hdiv)
        as (digits & Heq & Hvalue & Hchars & Hlen).
      assert (Hmod : (n mod 16 < 16)%N) by (apply N.mod_lt; lia).
      destruct (hex_char_digit _ Hmod) as [Hc Hv].
      exists (digits +:+ String (hex_char (n mod 16)) "").
      split; [|split; [|split]].
      * rewrite Heq, append_assoc. reflexivity.
      * unfold hex_value in *. rewrite hex_value_from_append, Hvalue.
        cbn [hex_value_from]. rewrite Hv.
        pose proof (N.div_mod n 16). lia.
      * rewrite all_chars_append, Hchars, all_chars_cons, Hc. reflexivity.
      * intros k Hk. rewrite length_append. cbn [String.length].
        destruct k as [|k]; [simpl in Hk; lia|].
        assert ((n / 16 < 16 ^ N.of_nat k)%N).
        { apply N.Div0.div_lt_upper_bound.
          rewrite Nat2N.inj_succ, N.pow_succ_r' in Hk. lia. }
        specialize (Hlen k ltac:(assumption)). lia.
Qed.

Lemma pos_below_size p : (Npos p < 2 ^ N.of_nat (Pos.size_nat p))%N.
Proof.
  induction p as [p IH|p IH|]; cbn [Pos.size_nat];
    rewrite ?Nat2N.inj_succ, ?N.pow_succ_r'; lia.
Qed.

Lemma hex_N_digits n :
  hex_value (hex_N n) = n
  /\ all_chars hex_digit_char (hex_N n) = true
  /\ forall k, (0 < k)%nat -> (n < 16 ^ N.of_nat k)%N ->
               (String.length (hex_N n) <= k)%nat.
Proof.
  unfold hex_N. destruct (N.eqb_spec n 0) as [->|Hne].
  - repeat split. intros k Hk _. simpl. lia.
  - assert (Hn : (n < 2 ^ N.of_nat (S (N.size_nat n)))%N).
    { destruct n as [|p]; [lia|]. cbn [N.size_nat].
      rewrite Nat2N.inj_succ, N.pow_succ_r'.
      pose proof (pos_below_size p). lia. }
    destruct (hex_pos_digits _ n "" Hn) as (digits & -> & Hv & Hc & Hl).
    rewrite append_nil_r. repeat split; auto.
Qed.

Lemma zeros_digits count s :
  hex_value_from 0 (zeros count s) = hex_value_from 0 s
  /\ all_chars hex_digit_char (zeros count s) = all_chars hex_digit_char s
  /\ String.length (zeros count s) = (count + String.length s)%nat.
Proof.
  induction count as [|count (IH1 & IH2 & IH3)]; [repeat split|].
  cbn [zeros]. repeat split.
  - cbn [hex_value_from]. exact IH1.
  - rewrite all_chars_cons, IH2. reflexivity.
  - cbn [String.length]. rewrite IH3. reflexivity.
Qed.

Lemma zero_pad_digits width n :
  hex_value (zero_pad width (hex_N n)) = n
  /\ all_chars hex_digit_char (zero_pad width (hex_N n)) = true.
Proof.
  unfold zero_pad, hex_value.
  destruct (zeros_digits (width - String.length (hex_N n)) (hex_N n))
    as (-> & -> & _).
  destruct (hex_N_digits n) as (Hv & Hc & _). split; assumption.
Qed.

Lemma hex_digit_not_minus s r :
  all_chars hex_digit_char s = true -> s <> String "-" r.
Proof. intros H ->. discriminate H. Qed.

(** ['{0:08x}'] gives different texts for different integers. *)
Lemma format_08x_inj z1 z2 : format_08x z1 = format_08x z2 -> z1 = z2.
Proof.
  assert (Hpos : forall z, 0 <= z ->
            hex_value (format_08x z) = Z.to_N z
            /\ all_chars hex_digit_char (format_08x z) = true).
  { intros z Hz. destruct z as [|p|p]; [| |lia];
      apply (zero_pad_digits 8). }
  assert (Hneg : forall p,
            format_08x (Zneg p) = String "-" (zero_pad 7 (hex_N (Npos p)))).
  { reflexivity. }
  intros Heq.
  destruct (Z.le_gt_cases 0 z1) as [H1|H1], (Z.le_gt_cases 0 z2) as [H2|H2].
  - destruct (Hpos z1 H1) as [V1 _], (Hpos z2 H2) as [V2 _].
    rewrite Heq in V1. lia.
  - destruct z2 as [|p|p]; try lia. rewrite Hneg in Heq.
    destruct (Hpos z1 H1) as [_ C1].
    destruct (hex_digit_not_minus _ _ C1 Heq).
  - destruct z1 as [|p|p]; try lia. rewrite Hneg in Heq.
    destruct (Hpos z2 H2) as [_ C2]. symmetry in Heq.
    destruct (hex_digit_not_minus _ _ C2 Heq).
  - destruct z1 as [|p1|p1], z2 as [|p2|p2]; try lia.
    rewrite !Hneg in Heq. injection Heq as Heq.
    destruct (zero_pad_digits 7 (Npos p1)) as [V1 _].
    destruct (zero_pad_digits 7 (Npos p2)) as [V2 _].
    rewrite Heq in V1. congruence.
Qed.

Lemma split_at_underscore s1 :
  forall s2 t1 t2,
    all_chars decimal_char s1 = true ->
    all_chars decimal_char s2 = true ->
    s1 +:+ String "_" t1 = s2 +:+ String "_" t2 ->
    s1 = s2 /\ t1 = t2.
Proof.
  induction s1 as [|c s1 IH]; intros [|c' s2] t1 t2 H1 H2 Heq.
  - rewrite !append_nil_l in Heq. injection Heq as ->. split; reflexivity.
  - rewrite append_nil_l, append_cons in Heq. injection Heq as <- _.
    discriminate H2.
  - rewrite append_nil_l, append_cons in Heq. injection Heq as -> _.
    discriminate H1.
  - rewrite !append_cons in Heq. injection Heq as -> Heq.
    rewrite all_chars_cons in H1, H2.
    apply andb_prop in H1 as [_ H1]. apply andb_prop in H2 as [_ H2].
    destruct (IH s2 t1 t2 H1 H2 Heq) as [-> ->]. split; reflexivity.
Qed.

(** Two message tables have the same name only when they belong to the same
    message file and the same language. *)
Lemma message_table_name_inj k1 l1 k2 l2 :
  message_table_name k1 l1 = message_table_name k2 l2 ->
  k1 = k2 /\ l1 = l2.
Proof.
  unfold message_table_name. intros Heq.
  apply (String.app_inj "message_table_") in Heq.
  change ("_0x" +:+ format_08x l1) with (String "_" ("0x" +:+ format_08x l1))
    in Heq.
  change ("_0x" +:+ format_08x l2) with (String "_" ("0x" +:+ format_08x l2))
    in Heq.
  apply split_at_underscore in Heq as [Hk Hl];
    [|apply pretty_Z_decimal|apply pretty_Z_decimal].
  split.
  - apply (inj pretty). exact Hk.
  - apply (String.app_inj "0x") in Hl. apply format_08x_inj. exact Hl.
Qed.
(** A selection reads the one table it names. *)
Lemma select_values_same_table (db db' : Database) table (t : Table)
    value_column condition :
  db !! table = Some t -> db' !! table = Some t ->
  select_values db table value_column condition
  = select_values db' table value_column condition.
Proof.
  intros Hdb Hdb'. unfold select_values. cbn [sqlite3_execute].
  unfold from_table. rewrite Hdb, Hdb'. reflexivity.
Qed.

(** X4: the message table of one message file and language is never read
    for another: adding the table of the pair (k, l) to a store leaves what
    [_GetMessage] answers for any other pair (k', l') as it was. *)
Theorem X4_message_tables_do_not_mix :
  forall (db : Database) (t : Table) p fn ro sf k l k' l' message_identifier,
    k <> k' \/ l <> l' ->
    snd (Reader._GetMessage (PyInt k') l' message_identifier
           (open_reader (<[message_table_name k l := t]> db) p fn ro sf))
    = snd (Reader._GetMessage (PyInt k') l' message_identifier
             (open_reader db p fn ro sf)).
Proof.
  intros db t p fn ro sf k l k' l' message_identifier Hne.
  rewrite !_GetMessage_open. cbn [snd].
  assert (Hname : message_table_name k l <> message_table_name k' l').
  { intros Heq. apply message_table_name_inj in Heq as [-> ->].
    destruct Hne as [Hne|Hne]; apply Hne; reflexivity. }
  unfold message_query. rewrite !queried_value_open.
  destruct (literal_text sqlite_master_columns (message_table_name k' l'));
    [|reflexivity].
  rewrite lookup_insert_ne by exact Hname.
  destruct (db !! message_table_name k' l') as [t'|] eqn:Htable;
    [|reflexivity].
  f_equal. apply (select_values_same_table _ _ _ t'); [|exact Htable].
  rewrite lookup_insert_ne by exact Hname. exact Htable.
Qed.

Lemma X4_witness :
  snd (Reader._GetMessage (PyInt 3) 1031 1
         (open_reader store_application_error [] None None (PyStr "wrc")))
  = Returns PyNone.
Proof.
  pose proof (X4_message_tables_do_not_mix
                (delete (message_table_name 3 1033) store_application_error)
                (message_table [(1, application_error_message)])
                [] None None (PyStr "wrc") 3 1033 3 1031 1
                ltac:(right; discriminate)) as H.
  etransitivity; [|etransitivity; [exact H|]]; vm_compute; reflexivity.
Defined.

(** X5: message identifiers and language identifiers below 2^32 are
    written with exactly eight lowercase hexadecimal digits, which read back
    as the number; larger ones get more digits, and two different integers
    never get the same text. *)
Theorem X5_eight_hexadecimal_digits :
  forall z z',
    (0 <= z < 2 ^ 32 ->
     String.length (format_08x z) = 8%nat
     /\ all_chars hex_digit_char (format_08x z) = true
     /\ hex_value (format_08x z) = Z.to_N z)
    /\ (format_08x z = format_08x z' -> z = z')
    /\ (message_identifier_text z = message_identifier_text z' -> z = z').
Proof.
  intros z z'. split; [|split].
  - intros Hz.
    assert (Heq : format_08x z = zero_pad 8 (hex_N (Z.to_N z)))
      by (destruct z; [reflexivity|reflexivity|lia]).
    rewrite Heq. destruct (zero_pad_digits 8 (Z.to_N z)) as [Hv Hc].
    split; [|split; assumption].
    unfold zero_pad.
    destruct (zeros_digits (8 - String.length (hex_N (Z.to_N z)))
                (hex_N (Z.to_N z))) as (_ & _ & ->).
    destruct (hex_N_digits (Z.to_N z)) as (_ & _ & Hlen).
    assert (String.length (hex_N (Z.to_N z)) <= 8)%nat; [|lia].
    apply Hlen; [lia|]. change (16 ^ N.of_nat 8)%N with 4294967296%N. lia.
  - apply format_08x_inj.
  - unfold message_identifier_text. intros [= Heq].
    apply format_08x_inj. exact Heq.
Qed.

Lemma X5_witness :
  String.length (format_08x 3221225494) = 8%nat
  /\ all_chars hex_digit_char (format_08x 3221225494) = true
  /\ hex_value (format_08x 3221225494) = Z.to_N 3221225494.
Proof.
  destruct (X5_eight_hexadecimal_digits 3221225494 0) as [H _].
  apply H. lia.
Defined.

Example large_identifier_not_truncated :
  format_08x 4294967296 = "100000000".
Proof. vm_compute. reflexivity. Qed.

(** ** Rows, dictionaries and the shared cursor *)

Lemma bare_columns_exist names all :
  (forall name, In name names ->
                ordinary_column name = true /\ is_Some (index_of name all)) ->
  exists indexes,
    bare_columns all names = Done indexes
    /\ Forall2 (fun name i => index_of name all = Some i) names indexes.
Proof.
  induction names as [|n names IH]; intros Hall.
  - exists []. split; [reflexivity|constructor].
  - destruct (Hall n (or_introl eq_refl)) as [Hname [i Hi]].
    destruct IH as (indexes & Heq & Hforall).
    { intros name Hin. apply Hall. right. exact Hin. }
    exists (i :: indexes). cbn [bare_columns].
    rewrite (bare_column_ordinary _ _ Hname), Hi, Heq.
    split; [reflexivity|constructor; assumption].
Qed.

Lemma row_dict_project all row names :
  forall indexes before (acc : gmap string PyValue),
    Forall2 (fun name i => index_of name all = Some i) names indexes ->
    exists values,
      DB.row_dict names (length before) (before ++ project indexes row) acc
      = Returns values
      /\ (forall name j,
             In name names -> index_of name all = Some j ->
             values !! name = Some (nth j row PyNone))
      /\ (forall name, ~ In name names -> values !! name = acc !! name).
Proof.
  induction names as [|n names IH]; intros indexes before acc Hforall.
  - exists acc. split; [reflexivity|]. split; [intros ? ? []|reflexivity].
  - inversion Hforall as [|? i ? others Hi Hrest]; subst.
    cbn [DB.row_dict].
    change (project (i :: others) row)
      with (nth i row PyNone :: project others row).
    rewrite (list_lookup_middle before _ _ (length before) eq_refl).
    specialize (IH others (before ++ [nth i row PyNone])
                  (<[n := nth i row PyNone]> acc) Hrest).
    rewrite length_app in IH. cbn [length] in IH.
    rewrite Nat.add_1_r, <- app_assoc in IH. cbn [app] in IH.
    destruct IH as (values & -> & Hin & Hout).
    exists values. split; [reflexivity|]. split.
    + intros name j [<-|Hname] Hj.
      * destruct (in_dec String.string_dec n names) as [Hn|Hn].
        -- apply Hin; assumption.
        -- rewrite Hout by exact Hn. rewrite lookup_insert_eq. congruence.
      * apply Hin; assumption.
    + intros name Hname.
      rewrite Hout by (intros H; apply Hname; right; exact H).
      apply lookup_insert_ne. intros <-. apply Hname. left. reflexivity.
Qed.

Lemma drain_project (t : Table) column_names indexes selected :
  Forall2 (fun name i => index_of name (columns t) = Some i)
    column_names indexes ->
  exists dicts,
    DB.drain column_names (map (project indexes) selected)
    = ([], Returns dicts)
    /\ Forall2 (row_values t column_names) selected dicts.
Proof.
  intros Hforall. induction selected as [|row selected (dicts & Heq & Hrows)].
  - exists []. split; [reflexivity|constructor].
  - destruct (row_dict_project (columns t) row column_names indexes [] ∅
                Hforall) as (values & Hvalues & Hin & Hout).
    exists (values :: dicts). cbn [map DB.drain].
    cbn [length app] in Hvalues. rewrite Hvalues, Heq.
    split; [reflexivity|]. constructor; [|exact Hrows].
    split; [exact Hin|]. intros name Hname. rewrite Hout by exact Hname.
    apply lookup_empty.
Qed.

(** X6: on an opened accessor, [list(GetValues(...))] for a table of the
    store, a list of names of its columns that is not empty and not longer
    than the engine allows, and a condition the engine accepts gives one
    dictionary for each row the condition selects, in the order of the
    table; each dictionary has the requested column names as its keys and
    the values of the row under them. *)
Theorem X6_GetValues_dictionaries :
  forall (db : Database) p fn ro table (t : Table) column_names condition
         test,
    from_table db table = Done t ->
    column_names <> [] ->
    (length column_names <= 2000)%nat ->
    (forall name, In name column_names ->
                  ordinary_column name = true
                  /\ is_Some (index_of name (columns t))) ->
    where_clause (columns t) condition = Done test ->
    exists dicts,
      DB.GetValues_list [table] column_names condition (open_file db p fn ro)
      = (open_file db [] fn ro, Returns dicts)
      /\ Forall2 (row_values t column_names) (List.filter test (rows t))
           dicts.
Proof.
  intros db p fn ro table t column_names condition test Ht Hnames Hlength
    Hcolumns Htest.
  destruct (bare_columns_exist _ _ Hcolumns) as (indexes & Hindexes & Hforall).
  destruct (drain_project t column_names indexes (List.filter test (rows t))
              Hforall) as (dicts & Hdrain & Hrows).
  exists dicts. split; [|exact Hrows].
  unfold DB.GetValues_list, DB.GetValues_start, py_bind, DB.cursor_execute,
    open_file.
  cbn [DB._connection DB._cursor cursor_database sqlite3_execute].
  rewrite Ht. unfold select.
  destruct (Nat.ltb_spec 2000 (length column_names)) as [Hlong|_]; [lia|].
  rewrite Hindexes, Htest.
  destruct column_names as [|name names]; [destruct (Hnames eq_refl)|].
  cbn [both]. unfold DB.set_cursor.
  cbn [DB._connection DB._cursor DB.filename DB.read_only cursor_database
       pending].
  rewrite Hdrain. reflexivity.
Qed.

Lemma X6_witness :
  exists dicts,
    DB.GetValues_list ["metadata"] ["value"; "name"]
      (Some {| cond_column := "name"; cond_operand := Quoted "version" |})
      (open_file store_printf_string_format [] None None)
    = (open_file store_printf_string_format [] None None, Returns dicts)
    /\ Forall2
         (row_values
            (metadata_table [("version", "20150315");
                             ("string_format", "printf")])
            ["value"; "name"])
         [[PyStr "version"; PyStr "20150315"]]
         dicts.
Proof.
  apply (X6_GetValues_dictionaries store_printf_string_format [] None None
           "metadata"
           (metadata_table [("version", "20150315");
                            ("string_format", "printf")])
           ["value"; "name"]
           (Some {| cond_column := "name"; cond_operand := Quoted "version" |})
           (fun row => sql_equal (nth 0 row PyNone) (PyStr "version"))).
  - vm_compute. reflexivity.
  - discriminate.
  - simpl. lia.
  - intros name [<-|[<-|[]]]; split; vm_compute; eauto.
  - reflexivity.
Defined.

Lemma GetValues_resume_row column_names conn db row rows fn ro :
  DB.GetValues_resume column_names
    {| DB._connection := conn;
       DB._cursor := Some {| cursor_database := db; pending := row :: rows |};
       DB.filename := fn; DB.read_only := ro |}
  = ({| DB._connection := conn;
        DB._cursor := Some {| cursor_database := db; pending := rows |};
        DB.filename := fn; DB.read_only := ro |},
     match DB.row_dict column_names 0 row ∅ with
     | Returns values => Returns (Some values)
     | Raises e => Raises e
     | OutOfFuel => OutOfFuel
     | Unspecified => Unspecified
     end).
Proof.
  unfold DB.GetValues_resume, py_bind, DB.cursor_fetchone, DB.set_cursor,
    py_lift.
  cbn [DB._cursor DB._connection DB.filename DB.read_only pending
       cursor_database].
  destruct (DB.row_dict column_names 0 row ∅); reflexivity.
Qed.

Lemma GetValues_next_suspended table_names column_names condition self :
  DB.GetValues_next table_names column_names condition DB.Suspended self
  = match DB.GetValues_resume column_names self with
    | (self', Returns item) => (self', Returns (DB.after item, item))
    | (self', Raises e) => (self', Raises e)
    | (self', OutOfFuel) => (self', OutOfFuel)
    | (self', Unspecified) => (self', Unspecified)
    end.
Proof. reflexivity. Qed.

Lemma GetValues_iterate_step fuel table_names column_names condition g self :
  GetValues_iterate (S fuel) table_names column_names condition g self
  = match DB.GetValues_next table_names column_names condition g self with
    | (self', Returns step) =>
        match snd step with
        | None => (self', Returns [])
        | Some values =>
            match GetValues_iterate fuel table_names column_names condition
                    (fst step) self' with
            | (self'', Returns others) => (self'', Returns (values :: others))
            | (self'', Raises e) => (self'', Raises e)
            | (self'', OutOfFuel) => (self'', OutOfFuel)
            | (self'', Unspecified) => (self'', Unspecified)
            end
        end
    | (self', Raises e) => (self', Raises e)
    | (self', OutOfFuel) => (self', OutOfFuel)
    | (self', Unspecified) => (self', Unspecified)
    end.
Proof.
  cbn [GetValues_iterate]. unfold py_bind at 1.
  destruct (DB.GetValues_next table_names column_names condition g self)
    as [self' [step|e| |]]; try reflexivity.
  destruct (snd step); reflexivity.
Qed.

Lemma GetValues_iterate_suspended table_names column_names condition rows :
  forall fuel conn db fn ro,
    (length rows < fuel)%nat ->
    GetValues_iterate fuel table_names column_names condition DB.Suspended
      {| DB._connection := conn;
         DB._cursor := Some {| cursor_database := db; pending := rows |};
         DB.filename := fn; DB.read_only := ro |}
    = ({| DB._connection := conn;
          DB._cursor :=
            Some {| cursor_database := db;
                    pending := fst (DB.drain column_names rows) |};
          DB.filename := fn; DB.read_only := ro |},
       snd (DB.drain column_names rows)).
Proof.
  induction rows as [|row rows IH]; intros fuel conn db fn ro Hfuel;
    (destruct fuel as [|fuel]; [simpl in Hfuel; lia|]).
  - reflexivity.
  - rewrite GetValues_iterate_step, GetValues_next_suspended,
      GetValues_resume_row.
    cbn [DB.drain].
    destruct (DB.row_dict column_names 0 row ∅) as [values|e| |];
      [|reflexivity|reflexivity|reflexivity].
    cbn [DB.after snd fst].
    rewrite IH by (simpl in Hfuel; lia).
    destruct (DB.drain column_names rows) as [unread [l|e| |]]; reflexivity.
Qed.

Lemma GetValues_next_created table_names column_names condition connection
    db p fn ro rows :
  sqlite3_execute db (SelectStatement table_names column_names condition)
  = Done rows ->
  DB.GetValues_next table_names column_names condition DB.Created
    {| DB._connection := Some connection;
       DB._cursor := Some {| cursor_database := db; pending := p |};
       DB.filename := fn; DB.read_only := ro |}
  = DB.GetValues_next table_names column_names condition DB.Suspended
      {| DB._connection := Some connection;
         DB._cursor := Some {| cursor_database := db; pending := rows |};
         DB.filename := fn; DB.read_only := ro |}.
Proof.
  intros Hexecute. cbn [DB.GetValues_next]. unfold py_bind at 1.
  unfold DB.GetValues_start, DB.cursor_execute.
  cbn [DB._connection DB._cursor cursor_database]. rewrite Hexecute.
  reflexivity.
Qed.

Lemma GetValues_list_rows table_names column_names condition connection
    db p fn ro rows :
  sqlite3_execute db (SelectStatement table_names column_names condition)
  = Done rows ->
  DB.GetValues_list table_names column_names condition
    {| DB._connection := Some connection;
       DB._cursor := Some {| cursor_database := db; pending := p |};
       DB.filename := fn; DB.read_only := ro |}
  = ({| DB._connection := Some connection;
        DB._cursor :=
          Some {| cursor_database := db;
                  pending := fst (DB.drain column_names rows) |};
        DB.filename := fn; DB.read_only := ro |},
     snd (DB.drain column_names rows)).
Proof.
  intros Hexecute.
  unfold DB.GetValues_list, py_bind, DB.GetValues_start, DB.cursor_execute,
    DB.set_cursor.
  cbn [DB._connection DB._cursor cursor_database DB.filename DB.read_only
       pending].
  rewrite Hexecute.
  cbn [DB._connection DB._cursor cursor_database DB.filename DB.read_only
       pending].
  destruct (DB.drain column_names rows) as [unread o]. reflexivity.
Qed.

(** X7: calling [next] on a generator of [GetValues] until it finishes,
    with nothing else done on the accessor in between, gives the items and
    leaves the accessor as [list] of the generator does; this holds as well
    when the accessor is not opened or the statement fails. *)
Theorem X7_next_until_finished_is_list :
  forall table_names column_names condition self,
  exists turns,
  forall fuel,
    (turns <= fuel)%nat ->
    GetValues_iterate fuel table_names column_names condition DB.Created self
    = DB.GetValues_list table_names column_names condition self.
Proof.
  intros table_names column_names condition [conn cur fn ro].
  destruct conn as [connection|];
    [|exists 1%nat; intros [|fuel] Hfuel; [lia|reflexivity]].
  destruct cur as [[db p]|];
    [|exists 1%nat; intros [|fuel] Hfuel; [lia|reflexivity]].
  destruct (sqlite3_execute db
              (SelectStatement table_names column_names condition))
    as [rows| |] eqn:Hexecute.
  - exists (S (length rows)). intros [|fuel] Hfuel; [lia|].
    rewrite (GetValues_list_rows _ _ _ _ _ _ _ _ _ Hexecute).
    rewrite <- (GetValues_iterate_suspended table_names column_names
                  condition rows (S fuel) (Some connection) db fn ro)
      by lia.
    rewrite !GetValues_iterate_step.
    rewrite (GetValues_next_created _ _ _ _ _ _ _ _ _ Hexecute).
    reflexivity.
  - exists 1%nat. intros [|fuel] Hfuel; [lia|].
    cbn [GetValues_iterate DB.GetValues_next]. unfold DB.GetValues_list.
    unfold py_bind, DB.GetValues_start, DB.cursor_execute.
    cbn [DB._connection DB._cursor cursor_database].
    rewrite Hexecute. reflexivity.
  - exists 1%nat. intros [|fuel] Hfuel; [lia|].
    cbn [GetValues_iterate DB.GetValues_next]. unfold DB.GetValues_list.
    unfold py_bind, DB.GetValues_start, DB.cursor_execute.
    cbn [DB._connection DB._cursor cursor_database].
    rewrite Hexecute. reflexivity.
Qed.

Lemma X7_witness :
  exists fuel,
    GetValues_iterate fuel ["event_log_providers"] ["log_source"] None
      DB.Created (open_file store_ambiguous_provider [] None None)
    = DB.GetValues_list ["event_log_providers"] ["log_source"] None
        (open_file store_ambiguous_provider [] None None).
Proof.
  destruct (X7_next_until_finished_is_list ["event_log_providers"]
              ["log_source"] None
              (open_file store_ambiguous_provider [] None None))
    as [turns Hturns].
  exists turns. apply Hturns. lia.
Defined.

Lemma drain_returns column_names rows unread dicts :
  DB.drain column_names rows = (unread, Returns dicts) -> unread = [].
Proof.
  revert unread dicts.
  induction rows as [|row rows IH]; intros unread dicts.
  - intros [= <- _]. reflexivity.
  - cbn [DB.drain]. destruct (DB.row_dict column_names 0 row ∅);
      [|discriminate|discriminate|discriminate].
    destruct (DB.drain column_names rows) as [u [l|e| |]] eqn:Hd;
      intros [= <- _]. exact (IH _ _ eq_refl).
Qed.

(** X8: the cursor is shared.  Whatever rows a suspended generator of
    [GetValues] has not yielded yet, once [HasTable] was called with a text
    that the engine compares with the names of the tables, or once a
    [list(GetValues(...))] was completed on the same accessor, the generator
    finishes at its next turn without yielding them. *)
Theorem X8_shared_cursor_ends_generator :
  forall (db : Database) p fn ro table_names column_names condition,
    (forall table_name,
        literal_text sqlite_master_columns table_name = true ->
        DB.GetValues_next table_names column_names condition DB.Suspended
          (fst (DB.HasTable table_name (open_file db p fn ro)))
        = (open_file db [] fn ro, Returns (DB.Finished, None)))
    /\ (forall table_names' column_names' condition' self' dicts,
           DB.GetValues_list table_names' column_names' condition'
             (open_file db p fn ro) = (self', Returns dicts) ->
           DB.GetValues_next table_names column_names condition DB.Suspended
             self'
           = (open_file db [] fn ro, Returns (DB.Finished, None))).
Proof.
  intros db p fn ro table_names column_names condition. split.
  - intros table_name Hliteral. rewrite HasTable_open. reflexivity.
  - intros table_names' column_names' condition' self' dicts.
    unfold DB.GetValues_list, DB.GetValues_start, py_bind, DB.cursor_execute,
      open_file.
    cbn [DB._connection DB._cursor cursor_database].
    destruct (sqlite3_execute db _) as [rows| |]; [|discriminate|discriminate].
    unfold DB.set_cursor.
    cbn [DB._connection DB._cursor DB.filename DB.read_only cursor_database
         pending].
    destruct (DB.drain column_names' rows) as [unread o] eqn:Hdrain.
    intros [= <- ->]. apply drain_returns in Hdrain as ->. reflexivity.
Qed.

Lemma X8_witness :
  DB.GetValues_next ["message_file_per_event_log_provider"]
    ["message_file_key"] None DB.Suspended
    (fst (DB.HasTable "message_table_3_0x00000409"
            (open_file store_two_message_files [[PyInt 4]] None None)))
  = (open_file store_two_message_files [] None None,
     Returns (DB.Finished, None))
  /\ DB.GetValues_next ["message_file_per_event_log_provider"]
       ["message_file_key"] None DB.Suspended
       (fst (DB.GetValues_list ["metadata"] ["value"] None
               (open_file store_two_message_files [[PyInt 4]] None None)))
     = (open_file store_two_message_files [] None None,
        Returns (DB.Finished, None)).
Proof.
  destruct (X8_shared_cursor_ends_generator store_two_message_files
              [[PyInt 4]] None None
              ["message_file_per_event_log_provider"] ["message_file_key"]
              None) as [Hhas Hlist].
  split; [apply Hhas; reflexivity|].
  apply (Hlist ["metadata"] ["value"] None _
           [<["value" := PyStr "20150315"]> ∅]).
  vm_compute. reflexivity.
Defined.

(** Left alone, the suspended generator yields the pending row. *)
Example suspended_generator_undisturbed :
  snd (DB.GetValues_next ["message_file_per_event_log_provider"]
         ["message_file_key"] None DB.Suspended
         (open_file store_two_message_files [[PyInt 4]] None None))
  = Returns (DB.Suspended, Some (<["message_file_key" := PyInt 4]> ∅)).
Proof. vm_compute. reflexivity. Qed.
(** ** Texts and names as the engine reads them *)

Lemma lower_append s t : lower (s +:+ t) = lower s +:+ lower t.
Proof.
  induction s as [|c s IH]; [reflexivity|].
  rewrite append_cons. cbn [lower]. rewrite IH, append_cons. reflexivity.
Qed.

Lemma pretty_N_go_chars (test : ascii -> bool) :
  (forall d, test (pretty_N_char d) = true) ->
  forall x s, all_chars test s = true ->
              all_chars test (pretty_N_go x s) = true.
Proof.
  intros Hchar x. induction (N.lt_wf_0 x) as [x _ IH]. intros s Hs.
  destruct (decide (0 < x)%N) as [Hpos|Hzero].
  - rewrite pretty_N_go_step by exact Hpos. apply IH.
    + apply N.div_lt; [exact Hpos|reflexivity].
    + rewrite all_chars_cons, Hchar, Hs. reflexivity.
  - assert (x = 0%N) as -> by lia. rewrite pretty_N_go_0. exact Hs.
Qed.

(** The decimal text of a number that is not negative consists of digits. *)
Lemma pretty_digits (z : Z) :
  0 <= z -> all_chars (char_between 48 57) (pretty z) = true.
Proof.
  intros Hz. destruct z as [|p|p]; [reflexivity| |lia].
  change (pretty (Zpos p)) with (pretty (Npos p)).
  unfold pretty, pretty_N.
  destruct (decide (Npos p = 0%N)); [reflexivity|].
  apply pretty_N_go_chars; [|reflexivity].
  intros d. unfold pretty_N_char. repeat case_match; reflexivity.
Qed.

Lemma digit_identifier_char c :
  char_between 48 57 c = true -> identifier_char c = true.
Proof.
  intros H. unfold identifier_char. rewrite H, orb_true_r. reflexivity.
Qed.

Lemma hex_digit_identifier_char c :
  hex_digit_char c = true -> identifier_char c = true.
Proof.
  unfold hex_digit_char. intros H. apply orb_prop in H as [H|H].
  - apply digit_identifier_char. exact H.
  - assert (Hletter : char_between 97 122 c = true).
    { unfold Reader.in_range in H. unfold char_between.
      apply andb_prop in H as [Hlo Hhi]. rewrite Hlo. cbn [andb].
      apply N.leb_le in Hhi. apply N.leb_le. lia. }
    unfold identifier_char, letter. rewrite Hletter, orb_true_r.
    reflexivity.
Qed.

Lemma format_08x_identifier_chars l :
  0 <= l -> all_chars identifier_char (format_08x l) = true.
Proof.
  intros Hl. destruct l as [|p|p]; [reflexivity| |lia].
  apply (all_chars_impl hex_digit_char); [apply hex_digit_identifier_char|].
  apply zero_pad_digits.
Qed.

Lemma decimal_quote_free c : decimal_char c = true -> quote_free c = true.
Proof.
  intros H. unfold quote_free.
  destruct (Ascii.eqb_spec c (ascii_of_N 34)) as [->|_]; [discriminate H|].
  destruct (Ascii.eqb_spec c (ascii_of_N 0)) as [->|_]; [discriminate H|].
  reflexivity.
Qed.

Lemma hex_digit_quote_free c : hex_digit_char c = true -> quote_free c = true.
Proof.
  intros H. unfold quote_free.
  destruct (Ascii.eqb_spec c (ascii_of_N 34)) as [->|_]; [discriminate H|].
  destruct (Ascii.eqb_spec c (ascii_of_N 0)) as [->|_]; [discriminate H|].
  reflexivity.
Qed.

Lemma format_08x_quotable l : all_chars quote_free (format_08x l) = true.
Proof.
  destruct l as [|p|p]; [reflexivity| |].
  - apply (all_chars_impl hex_digit_char); [apply hex_digit_quote_free|].
    apply zero_pad_digits.
  - cbn [format_08x]. rewrite all_chars_cons.
    rewrite (all_chars_impl hex_digit_char quote_free _ hex_digit_quote_free);
      [reflexivity|apply zero_pad_digits].
Qed.

Lemma message_table_name_quotable k l :
  quotable (message_table_name k l) = true.
Proof.
  unfold quotable, message_table_name.
  rewrite !all_chars_append.
  rewrite (all_chars_impl decimal_char quote_free _ decimal_quote_free
             (pretty_Z_decimal k)).
  rewrite format_08x_quotable. reflexivity.
Qed.

Lemma message_table_name_lower k l :
  exists rest,
    lower (message_table_name k l) = String "m" (String "e" rest).
Proof.
  eexists. unfold message_table_name. rewrite lower_append. reflexivity.
Qed.

(** Whatever the numbers, the table existence query compares the name of a
    message table with the names of the tables. *)
Lemma message_table_name_literal k l :
  literal_text sqlite_master_columns (message_table_name k l) = true.
Proof.
  unfold literal_text. rewrite message_table_name_quotable.
  destruct (message_table_name_lower k l) as [rest Hlower].
  unfold rowid_alias, sqlite_master_columns. cbn [index_of existsb].
  unfold same_name. rewrite Hlower. reflexivity.
Qed.

(** For numbers that are not negative the name of a message table is a name
    the engine reads as one table name. *)
Lemma message_table_name_table k l :
  0 <= k -> 0 <= l -> ordinary_table (message_table_name k l) = true.
Proof.
  intros Hk Hl.
  destruct (message_table_name_lower k l) as [rest Hlower].
  assert (Hkeyword :
            existsb (String.eqb (lower (message_table_name k l))) keywords
            = false).
  { rewrite Hlower. reflexivity. }
  assert (Hengine : engine_name (message_table_name k l) = false).
  { unfold engine_name. cbn [existsb]. unfold same_name.
    rewrite Hlower. reflexivity. }
  unfold ordinary_table. rewrite Hengine. cbn [negb]. rewrite andb_true_r.
  assert (Hchars :
            all_chars identifier_char
              ("essage_table_" +:+ pretty k +:+ "_0x" +:+ format_08x l)
            = true).
  { rewrite !all_chars_append.
    rewrite (all_chars_impl _ identifier_char _ digit_identifier_char
               (pretty_digits k Hk)).
    rewrite (format_08x_identifier_chars l Hl). reflexivity. }
  change (identifier (message_table_name k l))
    with ((letter "m" || Ascii.eqb "m" "_")
          && all_chars identifier_char
               ("essage_table_" +:+ pretty k +:+ "_0x" +:+ format_08x l)
          && negb (existsb (String.eqb (lower (message_table_name k l)))
                     keywords)).
  rewrite Hchars, Hkeyword. reflexivity.
Qed.

(** ** The statements of the reader and the content of the store *)

(** On a table that the store does not hold, in any spelling, a selection
    the engine reads as meant is refused. *)
Lemma select_values_missing db table value_column key_column key v :
  from_table db table = Refused ->
  ordinary_column value_column = true -> ordinary_column key_column = true ->
  operand [] key = Done (Literal v) ->
  select_values db table value_column
    (Some {| cond_column := key_column; cond_operand := key |})
  = Refused.
Proof.
  intros Htable Hvalue Hkey Hoperand.
  unfold select_values. cbn [sqlite3_execute]. rewrite Htable.
  unfold where_clause. cbn [bare_columns cond_column cond_operand].
  rewrite (bare_column_ordinary _ _ Hvalue), (bare_column_ordinary _ _ Hkey), Hoperand.
  reflexivity.
Qed.

Lemma from_table_refused db table :
  from_table db table = Refused -> db !! table = None.
Proof.
  unfold from_table.
  destruct (negb (identifier table) || engine_name table); [discriminate|].
  destruct (db !! table); [discriminate|reflexivity].
Qed.

(** [_GetMessage] for numbers that are not negative and a message
    identifier that the engine reads as a string literal. *)
Lemma message_query_literal db k lcid message_identifier :
  0 <= k -> 0 <= lcid ->
  literal_in db (message_table_name k lcid)
    ("0x" +:+ format_08x message_identifier) = true ->
  message_query db (PyInt k) lcid message_identifier
  = message_of db (PyInt k) lcid message_identifier.
Proof.
  intros Hk Hlcid Hliteral.
  unfold message_query, message_of, value_if_table, message_identifier_text.
  rewrite queried_value_open, message_table_name_literal.
  destruct (db !! message_table_name k lcid) as [t|] eqn:Hdb; [|reflexivity].
  rewrite (literal_in_table _ _ _ _ Hdb) in Hliteral.
  rewrite (select_values_literal _ _ t)
    by (try assumption; try reflexivity;
        apply message_table_name_table; assumption).
  destruct (lookup db _ "message_identifier" _ "message_string"); reflexivity.
Qed.

(** Without the table, [_GetMessage] answers [None] whatever the numbers. *)
Lemma message_query_no_table db k lcid message_identifier :
  db !! message_table_name k lcid = None ->
  message_query db (PyInt k) lcid message_identifier = Returns PyNone.
Proof.
  intros Hdb. unfold message_query.
  rewrite queried_value_open, message_table_name_literal, Hdb. reflexivity.
Qed.

(** ** Lookups of the reader *)

Lemma one_value_cases stored :
  (stored = [] -> one_value (Some stored) = Returns PyNone)
  /\ (forall v, stored = [v] -> one_value (Some stored) = Returns v)
  /\ ((2 <= length stored)%nat ->
      one_value (Some stored)
      = Raises (RuntimeError "More than one value found in database.")).
Proof.
  split; [|split].
  - intros ->. reflexivity.
  - intros v ->. reflexivity.
  - intros Hlen. destruct stored as [|v [|v' vs]]; simpl in Hlen; try lia.
    reflexivity.
Qed.

(** X9: [GetMetadataAttribute] takes a store without [metadata] table for a
    store without the attribute and answers [None].  With the table, for an
    attribute name that the engine reads as a string literal (no double
    quote, no NUL character, not the name of a column of the table or of
    the row identifier), it answers [None] for no row of that name, the
    value for one row, and raises [RuntimeError] for several; it raises
    [OperationalError] when the table lacks the column [name] or [value]. *)
Theorem X9_metadata_attribute :
  forall (db : Database) p fn ro sf attribute_name,
    let result :=
      Reader.GetMetadataAttribute attribute_name (open_reader db p fn ro sf) in
    let stored :=
      lookup db "metadata" "name" (PyStr attribute_name) "value" in
    (db !! "metadata" = None ->
     result = (open_reader db [] fn ro sf, Returns PyNone))
    /\ (is_Some (db !! "metadata") ->
        literal_in db "metadata" attribute_name = true ->
        fst result = open_reader db [] fn ro sf
        /\ (stored = None -> snd result = Raises OperationalError)
        /\ (stored = Some [] -> snd result = Returns PyNone)
        /\ (forall v, stored = Some [v] -> snd result = Returns v)
        /\ (forall values, stored = Some values ->
                           (2 <= length values)%nat ->
                           snd result
                           = Raises (RuntimeError
                                       "More than one value found in database."))).
Proof.
  intros db p fn ro sf attribute_name result stored. subst result stored.
  rewrite GetMetadataAttribute_open. cbn [fst snd]. split.
  - intros Hdb. unfold metadata_attribute. rewrite queried_value_open.
    change (literal_text sqlite_master_columns "metadata") with true.
    cbv iota. rewrite Hdb. reflexivity.
  - intros Htable Hliteral.
    rewrite (metadata_attribute_literal _ _ Htable Hliteral).
    split; [reflexivity|]. repeat split.
    + intros ->. reflexivity.
    + intros ->. reflexivity.
    + intros v ->. reflexivity.
    + intros values -> Hlen. apply one_value_cases. exact Hlen.
Qed.

Lemma X9_witness :
  snd (Reader.GetMetadataAttribute "string_format"
         (open_reader store_printf_string_format [] None None (PyStr "wrc")))
  = Returns (PyStr "printf")
  /\ snd (Reader.GetMetadataAttribute "version"
            (open_reader (delete "metadata" store_application_error) [] None
               None (PyStr "wrc")))
     = Returns PyNone.
Proof.
  split.
  - destruct (X9_metadata_attribute store_printf_string_format [] None None
                (PyStr "wrc") "string_format") as (_ & Htable).
    destruct (Htable ltac:(vm_compute; eauto) ltac:(vm_compute; reflexivity))
      as (_ & _ & _ & Hone & _).
    apply Hone. vm_compute. reflexivity.
  - destruct (X9_metadata_attribute
                (delete "metadata" store_application_error) [] None None
                (PyStr "wrc") "version") as (Hmissing & _).
    rewrite Hmissing; [reflexivity|]. vm_compute. reflexivity.
Defined.

(** X10: the tables [event_log_providers] and
    [message_file_per_event_log_provider] are queried without a test for
    their existence: on a store that lacks one of them, for a log source
    that the engine reads as a string literal, [GetMessage] raises
    [OperationalError] where a missing message table is a miss. *)
Theorem X10_missing_tables_raise :
  forall fuel (db : Database) p fn ro sf log_source lcid message_identifier,
    literal_in db "event_log_providers" log_source = true ->
    let outcome :=
      snd (Reader.GetMessage (S (S fuel)) log_source lcid message_identifier
             (open_reader db p fn ro sf)) in
    (from_table db "event_log_providers" = Refused ->
     outcome = Raises OperationalError)
    /\ (forall key,
           provider_keys db log_source = Some [PyInt key] -> key <> 0 ->
           from_table db "message_file_per_event_log_provider" = Refused ->
           outcome = Raises OperationalError).
Proof.
  intros fuel db p fn ro sf log_source lcid message_identifier Hliteral
    outcome.
  subst outcome. rewrite GetMessage_outcome. unfold resolve. split.
  - intros Hnone. unfold provider_key_query.
    rewrite (select_values_missing _ _ _ _ _ (PyStr log_source) Hnone);
      [reflexivity|reflexivity|reflexivity|].
    apply quoted_literal. unfold literal_in in Hliteral.
    rewrite (from_table_refused _ _ Hnone) in Hliteral. exact Hliteral.
  - intros key Hprovider Hkey Hnone.
    rewrite (provider_key_query_literal _ _ _ Hliteral Hprovider).
    cbn [one_selected one_value truthy format_d].
    apply Z.eqb_neq in Hkey. rewrite Hkey. cbn [negb].
    unfold message_file_key_query.
    rewrite (select_values_missing _ _ _ _ _ (PyInt key) Hnone);
      [reflexivity|reflexivity|reflexivity|].
    cbn [operand]. rewrite integer_literal_pretty. reflexivity.
Qed.

Lemma X10_witness :
  snd (Reader.GetMessage 2 "Application Error" 1033 1
         (open_reader (delete "event_log_providers" store_application_error)
            [] None None (PyStr "wrc")))
  = Raises OperationalError
  /\ snd (Reader.GetMessage 2 "Application Error" 1033 1
            (open_reader
               (delete "message_file_per_event_log_provider"
                  store_application_error)
               [] None None (PyStr "wrc")))
     = Raises OperationalError.
Proof.
  split.
  - assert (Hliteral :
              literal_in (delete "event_log_providers" store_application_error)
                "event_log_providers" "Application Error" = true)
      by (vm_compute; reflexivity).
    destruct (X10_missing_tables_raise 0 _ [] None None (PyStr "wrc")
                "Application Error" 1033 1 Hliteral) as [Hproviders _].
    apply Hproviders. vm_compute. reflexivity.
  - assert (Hliteral :
              literal_in
                (delete "message_file_per_event_log_provider"
                   store_application_error)
                "event_log_providers" "Application Error" = true)
      by (vm_compute; reflexivity).
    destruct (X10_missing_tables_raise 0 _ [] None None (PyStr "wrc")
                "Application Error" 1033 1 Hliteral) as [_ Hfiles].
    apply (Hfiles 7); [vm_compute; reflexivity|discriminate|].
    vm_compute. reflexivity.
Defined.

(** X11: [_GetMessage] reads the table named after the message file key in
    decimal and the language identifier in hexadecimal.  It answers [None]
    when the store has no such table.  With the table, for numbers that are
    not negative and a message identifier whose text the engine reads as a
    string literal, it answers [None] when the table has no row for the
    identifier, the message string of the one row, and raises
    [RuntimeError] for several rows; in each case the cursor is left
    without pending rows.  A message file key that is not an integer makes
    it raise before the cursor is used. *)
Theorem X11_message_of_one_table :
  forall (db : Database) p fn ro sf k lcid message_identifier,
    let table :=
      "message_table_" +:+ pretty k +:+ "_0x" +:+ format_08x lcid in
    let stored :=
      lookup db table "message_identifier"
        (PyStr ("0x" +:+ format_08x message_identifier)) "message_string" in
    let result :=
      Reader._GetMessage (PyInt k) lcid message_identifier
        (open_reader db p fn ro sf) in
    (db !! table = None ->
     result = (open_reader db [] fn ro sf, Returns PyNone))
    /\ (is_Some (db !! table) ->
        0 <= k -> 0 <= lcid ->
        literal_in db table ("0x" +:+ format_08x message_identifier) = true ->
        fst result = open_reader db [] fn ro sf
        /\ (stored = None -> snd result = Raises OperationalError)
        /\ (stored = Some [] -> snd result = Returns PyNone)
        /\ (forall v, stored = Some [v] -> snd result = Returns v)
        /\ (forall values, stored = Some values ->
                           (2 <= length values)%nat ->
                           snd result
                           = Raises (RuntimeError
                                       "More than one value found in database.")))
    /\ Reader._GetMessage PyNone lcid message_identifier
         (open_reader db p fn ro sf)
       = (open_reader db p fn ro sf, Raises TypeError)
    /\ (forall text,
           Reader._GetMessage (PyStr text) lcid message_identifier
             (open_reader db p fn ro sf)
           = (open_reader db p fn ro sf, Raises ValueError)).
Proof.
  intros db p fn ro sf k lcid message_identifier table stored result.
  subst table stored result.
  rewrite _GetMessage_open. cbn [fst snd].
  fold (message_table_name k lcid).
  split; [|split; [|split]].
  - intros Hdb. rewrite (message_query_no_table _ _ _ _ Hdb). reflexivity.
  - intros [t Hdb] Hk Hlcid Hliteral.
    rewrite (message_query_literal _ _ _ _ Hk Hlcid Hliteral).
    unfold message_of, value_if_table, message_identifier_text.
    rewrite Hdb. split; [reflexivity|]. repeat split.
    + intros ->. reflexivity.
    + intros ->. reflexivity.
    + intros v ->. reflexivity.
    + intros values -> Hlen. apply one_value_cases. exact Hlen.
  - reflexivity.
  - reflexivity.
Qed.

Lemma X11_witness :
  snd (Reader._GetMessage (PyInt 3) 1033 1
         (open_reader store_application_error [[PyInt 4]] None None
            (PyStr "wrc")))
  = Returns (PyStr application_error_message)
  /\ snd (Reader._GetMessage (PyInt 3) 1033 2
            (open_reader store_application_error [[PyInt 4]] None None
               (PyStr "wrc")))
     = Returns PyNone.
Proof.
  destruct (X11_message_of_one_table store_application_error [[PyInt 4]] None
              None (PyStr "wrc") 3 1033 1) as (_ & Htable1 & _).
  destruct (X11_message_of_one_table store_application_error [[PyInt 4]] None
              None (PyStr "wrc") 3 1033 2) as (_ & Htable2 & _).
  split.
  - destruct (Htable1 ltac:(vm_compute; eauto) ltac:(lia) ltac:(lia)
                ltac:(vm_compute; reflexivity)) as (_ & _ & _ & Hone & _).
    apply Hone. vm_compute. reflexivity.
  - destruct (Htable2 ltac:(vm_compute; eauto) ltac:(lia) ltac:(lia)
                ltac:(vm_compute; reflexivity)) as (_ & _ & Hnone & _).
    apply Hnone. vm_compute. reflexivity.
Defined.

(** ** The answer of [GetMessage] *)

Lemma finalize_none sf : finalize sf PyNone = Returns PyNone.
Proof. unfold finalize. destruct (PyValue_eqb sf (PyStr "wrc")); reflexivity. Qed.

(** X12: when the provider has message files, [GetMessage] answers from the
    table of the first of them: what that table holds for the identifier is
    reformatted under the ['wrc'] format and returned as it is under any
    other, whatever the tables of the other message files hold.  This is
    for a log source and a message identifier that the engine reads as
    string literals, and a message file key and language identifier that are
    not negative. *)
Theorem X12_first_message_file_answers :
  forall fuel (db : Database) p fn ro sf log_source lcid message_identifier
         key first others m,
    literal_in db "event_log_providers" log_source = true ->
    provider_keys db log_source = Some [PyInt key] ->
    key <> 0 ->
    message_file_keys db (PyInt key) = Some (PyInt first :: others) ->
    0 <= first -> 0 <= lcid ->
    literal_in db (message_table_name first lcid)
      ("0x" +:+ format_08x message_identifier) = true ->
    value_if_table db (message_table_name first lcid) "message_identifier"
      (message_identifier_text message_identifier) "message_string"
    = Returns m ->
    let outcome :=
      snd (Reader.GetMessage (S (S fuel)) log_source lcid message_identifier
             (open_reader db p fn ro sf)) in
    (sf = PyStr "wrc" -> outcome = Reader._ReformatMessageString m)
    /\ (sf <> PyStr "wrc" -> outcome = Returns m).
Proof.
  intros fuel db p fn ro sf log_source lcid message_identifier key first
    others m Hsource Hprovider Hkey Hfiles Hfirst Hlcid Hidentifier Hmessage
    outcome.
  subst outcome.
  rewrite (GetMessage_first_file_only fuel db p fn ro sf log_source lcid
             message_identifier (PyInt key) (pretty key) (PyInt first) others
             m);
    [|apply provider_key_query_literal; assumption
     |cbn [truthy]; apply Z.eqb_neq in Hkey; rewrite Hkey; reflexivity
     |reflexivity
     |apply message_file_key_query_integer; exact Hfiles
     |rewrite message_query_literal by assumption; exact Hmessage].
  unfold finalize. split.
  - intros ->. reflexivity.
  - intros Hsf. rewrite (PyValue_eqb_neq _ _ Hsf). reflexivity.
Qed.

Lemma X12_witness :
  snd (Reader.GetMessage 2 "Application Error" 1033 1
         (open_reader store_application_error [] None None (PyStr "pep3101")))
  = Returns (PyStr application_error_message).
Proof.
  destruct (X12_first_message_file_answers 0 store_application_error [] None
              None (PyStr "pep3101") "Application Error" 1033 1 7 3 []
              (PyStr application_error_message)
              ltac:(vm_compute; reflexivity)
              ltac:(vm_compute; reflexivity) ltac:(discriminate)
              ltac:(vm_compute; reflexivity) ltac:(lia) ltac:(lia)
              ltac:(vm_compute; reflexivity) ltac:(vm_compute; reflexivity))
    as [_ Hother].
  apply Hother. discriminate.
Defined.

(** X13: misses are answered with [None] and never raise: no provider row
    for the log source, no message file for the provider, no message table
    of the first message file for the language, or no row for the
    identifier in that table.  This is for a log source and a message
    identifier that the engine reads as string literals, and, where the
    message table is read, a message file key and a language identifier
    that are not negative. *)
Theorem X13_misses_answer_none :
  forall fuel (db : Database) p fn ro sf log_source lcid message_identifier,
    literal_in db "event_log_providers" log_source = true ->
    let outcome :=
      snd (Reader.GetMessage (S (S fuel)) log_source lcid message_identifier
             (open_reader db p fn ro sf)) in
    (provider_keys db log_source = Some [] -> outcome = Returns PyNone)
    /\ (forall key,
           provider_keys db log_source = Some [PyInt key] -> key <> 0 ->
           (message_file_keys db (PyInt key) = Some [] ->
            outcome = Returns PyNone)
           /\ (forall first others,
                  message_file_keys db (PyInt key)
                  = Some (PyInt first :: others) ->
                  (db !! message_table_name first lcid = None ->
                   outcome = Returns PyNone)
                  /\ (is_Some (db !! message_table_name first lcid) ->
                      0 <= first -> 0 <= lcid ->
                      literal_in db (message_table_name first lcid)
                        ("0x" +:+ format_08x message_identifier) = true ->
                      lookup db (message_table_name first lcid)
                        "message_identifier"
                        (message_identifier_text message_identifier)
                        "message_string" = Some [] ->
                      outcome = Returns PyNone))).
Proof.
  intros fuel db p fn ro sf log_source lcid message_identifier Hsource
    outcome.
  subst outcome. rewrite GetMessage_outcome. unfold resolve. split.
  - intros Hprovider.
    rewrite (provider_key_query_literal _ _ _ Hsource Hprovider).
    reflexivity.
  - intros key Hprovider Hkey.
    rewrite (provider_key_query_literal _ _ _ Hsource Hprovider).
    cbn [one_selected one_value truthy format_d].
    apply Z.eqb_neq in Hkey. rewrite Hkey. cbn [negb]. split.
    + intros Hfiles. rewrite (message_file_key_query_integer _ _ _ Hfiles).
      apply finalize_none.
    + intros first others Hfiles.
      rewrite (message_file_key_query_integer _ _ _ Hfiles). split.
      * intros Hdb. rewrite (message_query_no_table _ _ _ _ Hdb).
        apply finalize_none.
      * intros [t Hdb] Hfirst Hlcid Hidentifier Hstored.
        rewrite message_query_literal by assumption.
        unfold message_of, value_if_table. rewrite Hdb, Hstored.
        apply finalize_none.
Qed.

Lemma X13_witness :
  snd (Reader.GetMessage 2 "Security" 1033 1
         (open_reader store_application_error [] None None (PyStr "wrc")))
  = Returns PyNone
  /\ snd (Reader.GetMessage 2 "Application Error" 1031 1
            (open_reader store_application_error [] None None (PyStr "wrc")))
     = Returns PyNone.
Proof.
  split.
  - destruct (X13_misses_answer_none 0 store_application_error [] None None
                (PyStr "wrc") "Security" 1033 1
                ltac:(vm_compute; reflexivity)) as [Hprovider _].
    apply Hprovider. vm_compute. reflexivity.
  - destruct (X13_misses_answer_none 0 store_application_error [] None None
                (PyStr "wrc") "Application Error" 1031 1
                ltac:(vm_compute; reflexivity)) as [_ Hfiles].
    destruct (Hfiles 7 ltac:(vm_compute; reflexivity) ltac:(discriminate))
      as [_ Hfirst].
    destruct (Hfirst 3 [] ltac:(vm_compute; reflexivity)) as [Htable _].
    apply Htable. vm_compute. reflexivity.
Defined.

(** ** The helper: errors, misses and reuse *)

Lemma GetMessageString_with world fuel dl lcid db p fn ro sf log_source
    message_identifier :
  exists p',
    Helper.GetMessageString world (S (S fuel)) log_source message_identifier
      (helper_with dl lcid db p fn ro sf)
    = (helper_with dl lcid db p' fn ro sf,
       helper_answer db sf lcid log_source message_identifier).
Proof.
  unfold Helper.GetMessageString, helper_answer. unfold py_bind at 1.
  rewrite reader_available. cbn [helper_with Helper._lcid].
  fold (helper_with dl lcid db p fn ro sf).
  destruct (negb (lcid =? Helper.DEFAULT_LCID)).
  - unfold py_bind.
    destruct (on_reader_GetMessage fuel dl lcid db p fn ro sf log_source lcid
                message_identifier) as (p' & ->).
    destruct (resolve db sf log_source lcid message_identifier) as [m|e| |];
      [|exists p'; reflexivity|exists p'; reflexivity|exists p'; reflexivity].
    destruct (truthy m); [exists p'; reflexivity|].
    apply on_reader_GetMessage.
  - apply on_reader_GetMessage.
Qed.

(** X14: an exception raised by the lookup at the configured language
    reaches the caller of [GetMessageString]; the default language is not
    tried in its place. *)
Theorem X14_lookup_error_propagates :
  forall world fuel dl lcid (db : Database) p fn ro sf log_source
         message_identifier e,
    lcid <> Helper.DEFAULT_LCID ->
    snd (Reader.GetMessage (S (S fuel)) log_source lcid message_identifier
           (open_reader db p fn ro sf)) = Raises e ->
    snd (Helper.GetMessageString world (S (S fuel)) log_source
           message_identifier (helper_with dl lcid db p fn ro sf))
    = Raises e.
Proof.
  intros world fuel dl lcid db p fn ro sf log_source message_identifier e
    Hlcid Hraises.
  rewrite GetMessage_outcome in Hraises.
  destruct (GetMessageString_with world fuel dl lcid db p fn ro sf log_source
              message_identifier) as (p' & ->).
  cbn [snd]. unfold helper_answer.
  apply Z.eqb_neq in Hlcid. rewrite Hlcid. cbn [negb].
  rewrite Hraises. reflexivity.
Qed.

Lemma X14_witness :
  snd (Helper.GetMessageString empty_world 2 "Application Error" 1
         (helper_with (Some "/data") 1031 store_ambiguous_german [] None None
            (PyStr "wrc")))
  = Raises (RuntimeError "More than one value found in database.")
  /\ snd (Reader.GetMessage 2 "Application Error" Helper.DEFAULT_LCID 1
            (open_reader store_ambiguous_german [] None None (PyStr "wrc")))
     = Returns (PyStr "Process {0:s} failed with {1:s}").
Proof.
  split; [|vm_compute; reflexivity].
  apply (X14_lookup_error_propagates empty_world 0 (Some "/data") 1031
           store_ambiguous_german [] None None (PyStr "wrc")
           "Application Error" 1).
  - discriminate.
  - vm_compute. reflexivity.
Defined.

(** X15: without a data location, without the file [winevt-rc.db] in it, or
    when the file cannot be opened, [GetMessageString] answers [None] and
    leaves the helper as it was: the miss is not remembered and the next
    call looks for the file again. *)
Theorem X15_missing_store_is_a_miss :
  forall world fuel lcid log_source message_identifier data_location,
    data_location = None
    \/ data_location = Some ""
    \/ (exists d,
           data_location = Some d
           /\ (os_path_isfile world
                 (os_path_join d Helper._WINEVT_RC_DATABASE) = false
               \/ sqlite3_connect world
                    (os_path_join d Helper._WINEVT_RC_DATABASE) = None)) ->
    Helper.GetMessageString world fuel log_source message_identifier
      (Helper.__init__ data_location lcid)
    = (Helper.__init__ data_location lcid, Returns PyNone).
Proof.
  intros world fuel lcid log_source message_identifier data_location
    [->|[->|(d & -> & Hmissing)]]; [reflexivity|reflexivity|].
  unfold Helper.GetMessageString, py_bind, Helper._GetWinevtRcDatabaseReader.
  cbn [Helper.__init__ Helper._winevt_database_reader Helper._data_location].
  destruct (String.eqb d ""); [reflexivity|].
  destruct (os_path_isfile world (os_path_join d Helper._WINEVT_RC_DATABASE))
    eqn:Hisfile; [|reflexivity].
  destruct Hmissing as [Hfalse|Hconnect]; [discriminate Hfalse|].
  cbn [negb]. unfold Helper.on_reader, Helper.set_reader.
  cbn [Helper._winevt_database_reader Helper._data_location Helper._lcid].
  unfold Reader.Open, py_bind, Reader.on_database_file, DB.Open.
  cbn [Reader.__init__ Reader._database_file DB.__init__ DB._connection].
  rewrite Hconnect. reflexivity.
Qed.

Lemma X15_witness :
  Helper.GetMessageString empty_world 2 "Application Error" 1
    (Helper.__init__ (Some "/data") None)
  = (Helper.__init__ (Some "/data") None, Returns PyNone).
Proof.
  apply (X15_missing_store_is_a_miss empty_world 2 None "Application Error" 1
           (Some "/data")).
  right. right. exists "/data". split; [reflexivity|]. left. reflexivity.
Defined.

(** The file that was missing is found by a later call. *)
Example store_found_later :
  let helper :=
    fst (Helper.GetMessageString empty_world 2 "Application Error" 1
           (Helper.__init__ (Some "/data") None)) in
  snd (Helper.GetMessageString (world_with store_application_error) 2
         "Application Error" 1 helper)
  = Returns (PyStr "Process {0:s} failed with {1:s}").
Proof. vm_compute. reflexivity. Qed.

Lemma first_call_opens world d lcid db sf :
  d <> "" ->
  os_path_isfile world (os_path_join d Helper._WINEVT_RC_DATABASE) = true ->
  sqlite3_connect world (os_path_join d Helper._WINEVT_RC_DATABASE)
  = Some db ->
  open_outcome db = Returns sf ->
  Helper._GetWinevtRcDatabaseReader world (Helper.__init__ (Some d) lcid)
  = Helper._GetWinevtRcDatabaseReader world
      (helper_with (Some d) (Helper._lcid (Helper.__init__ (Some d) lcid)) db
         [] (Some (os_path_join d Helper._WINEVT_RC_DATABASE)) (Some true) sf).
Proof.
  intros Hd Hisfile Hconnect Hopen. rewrite reader_available.
  unfold Helper._GetWinevtRcDatabaseReader.
  cbn [Helper.__init__ Helper._winevt_database_reader Helper._data_location].
  apply String.eqb_neq in Hd. rewrite Hd, Hisfile. cbn [negb].
  unfold Helper.on_reader, Helper.set_reader.
  cbn [Helper._winevt_database_reader Helper._data_location Helper._lcid].
  rewrite (Reader_Open_connected world _ db Reader.__init__ Hconnect eq_refl).
  rewrite Hopen. reflexivity.
Qed.

(** X16: the first call of [GetMessageString] on a store that [Open]
    accepts opens it and keeps the reader in the helper, with the string
    format of the store; a later call gives the same answer without opening
    or looking for the file again, whatever has become of the file. *)
Theorem X16_reader_is_kept :
  forall world world' fuel d lcid log_source message_identifier
         (db : Database) sf,
    d <> "" ->
    let database_path := os_path_join d Helper._WINEVT_RC_DATABASE in
    os_path_isfile world database_path = true ->
    sqlite3_connect world database_path = Some db ->
    open_outcome db = Returns sf ->
    let helper := Helper.__init__ (Some d) lcid in
    let first :=
      Helper.GetMessageString world (S (S fuel)) log_source message_identifier
        helper in
    (exists p,
        fst first
        = helper_with (Some d) (Helper._lcid helper) db p (Some database_path)
            (Some true) sf)
    /\ snd (Helper.GetMessageString world' (S (S fuel)) log_source
              message_identifier (fst first))
       = snd first.
Proof.
  intros world world' fuel d lcid log_source message_identifier db sf Hd
    database_path Hisfile Hconnect Hopen helper first.
  assert (Hfirst : exists p,
             first
             = (helper_with (Some d) (Helper._lcid helper) db p
                  (Some database_path) (Some true) sf,
                helper_answer db sf (Helper._lcid helper) log_source
                  message_identifier)).
  { subst first helper. unfold Helper.GetMessageString at 1.
    unfold py_bind at 1.
    rewrite (first_call_opens world d lcid db sf Hd Hisfile Hconnect Hopen).
    apply (GetMessageString_with world fuel). }
  destruct Hfirst as (p & ->). cbn [fst snd]. split; [exists p; reflexivity|].
  destruct (GetMessageString_with world' fuel (Some d) (Helper._lcid helper)
              db p (Some database_path) (Some true) sf log_source
              message_identifier) as (p' & ->).
  reflexivity.
Qed.

Lemma X16_witness :
  let first :=
    Helper.GetMessageString (world_with store_application_error) 2
      "Application Error" 1 (Helper.__init__ (Some "/data") (Some 1031)) in
  snd (Helper.GetMessageString empty_world 2 "Application Error" 1 (fst first))
  = snd first.
Proof.
  destruct (X16_reader_is_kept (world_with store_application_error)
              empty_world 0 "/data" (Some 1031) "Application Error" 1
              store_application_error (PyStr "wrc")
              ltac:(discriminate) eq_refl eq_refl
              ltac:(vm_compute; reflexivity)) as [_ Hsame].
  exact Hsame.
Defined.

(** ** The life cycle of the reader *)

(** X17: when [Open] of the reader raises for the version or the string
    format of the store, the database file stays opened and the string
    format of the reader is not changed: another [Open] raises
    [RuntimeError] for an opened database until [Close] is called, which
    succeeds and leaves the reader unopened. *)
Theorem X17_refused_store_stays_opened :
  forall world filename filename' (db : Database) self e,
    sqlite3_connect world filename = Some db ->
    DB._connection (Reader._database_file self) = None ->
    open_outcome db = Raises e ->
    let refused := Reader.Open world filename self in
    refused
    = (open_reader db [] (Some filename) (Some true)
         (Reader._string_format self), Raises e)
    /\ Reader.Open world filename' (fst refused)
       = (fst refused,
          Raises (RuntimeError "Cannot open database already opened."))
    /\ Reader.Close (fst refused)
       = ({| Reader._database_file := DB.__init__;
             Reader._string_format := Reader._string_format self |},
          Returns tt).
Proof.
  intros world filename filename' db self e Hconnect Hclosed Hopen refused.
  subst refused.
  rewrite (Reader_Open_connected world filename db self Hconnect Hclosed).
  rewrite Hopen. cbn [fst]. split; [reflexivity|]. split; reflexivity.
Qed.

Lemma X17_witness :
  let refused :=
    Reader.Open (world_with store_version_20140101) "winevt-rc.db"
      Reader.__init__ in
  snd refused = Raises (RuntimeError "Unsupported version: 20140101")
  /\ snd (Reader.Open (world_with store_application_error) "other.db"
            (fst refused))
     = Raises (RuntimeError "Cannot open database already opened.")
  /\ snd (Reader.Open (world_with store_application_error) "other.db"
            (fst (Reader.Close (fst refused))))
     = Returns true.
Proof.
  destruct (X17_refused_store_stays_opened
              (world_with store_version_20140101) "winevt-rc.db" "other.db"
              store_version_20140101 Reader.__init__
              (RuntimeError "Unsupported version: 20140101")
              eq_refl eq_refl ltac:(vm_compute; reflexivity))
    as (Hrefused & _ & Hclose).
  cbv zeta. rewrite Hrefused. cbn [fst snd].
  split; [reflexivity|]. split; [reflexivity|].
  rewrite Hrefused in Hclose. cbn [fst] in Hclose. rewrite Hclose.
  vm_compute. reflexivity.
Defined.

(** X18: on a reader that is not opened, [GetMessage],
    [GetMetadataAttribute], [_GetMessage] and [Close] raise [RuntimeError]
    and leave the reader as it is; this is the state [Close] leaves an
    opened reader in. *)
Theorem X18_unopened_reader_raises :
  forall self,
    DB._connection (Reader._database_file self) = None ->
    (forall fuel log_source lcid message_identifier,
        Reader.GetMessage fuel log_source lcid message_identifier self
        = (self, Raises (RuntimeError
             "Cannot retrieve values database not opened.")))
    /\ (forall attribute_name,
           Reader.GetMetadataAttribute attribute_name self
           = (self, Raises (RuntimeError
                "Cannot determine if table exists database not opened.")))
    /\ (forall k lcid message_identifier,
           Reader._GetMessage (PyInt k) lcid message_identifier self
           = (self, Raises (RuntimeError
                "Cannot determine if table exists database not opened.")))
    /\ Reader.Close self
       = (self, Raises (RuntimeError "Cannot close database not opened."))
    /\ (forall db p fn ro sf,
           DB._connection
             (Reader._database_file
                (fst (Reader.Close (open_reader db p fn ro sf))))
           = None).
Proof.
  intros [[conn cur fn ro] sf] Hclosed. cbn in Hclosed. subst conn.
  split; [|split; [|split; [|split]]]; reflexivity.
Qed.

Lemma X18_witness :
  let closed :=
    fst (Reader.Close
           (open_reader store_application_error [] (Some "winevt-rc.db")
              (Some true) (PyStr "wrc"))) in
  Reader.GetMessage 2 "Application Error" 1033 1 closed
  = (closed,
     Raises (RuntimeError "Cannot retrieve values database not opened.")).
Proof.
  cbv zeta.
  destruct (X18_unopened_reader_raises
              (fst (Reader.Close
                      (open_reader store_application_error []
                         (Some "winevt-rc.db") (Some true) (PyStr "wrc"))))
              eq_refl) as [Hget _].
  apply Hget.
Defined.
